(** * Proctored interview backend: the session state machine

    A shallow embedding of [server/generatequestion.py] (the interview
    engine) and of the stage, violation and token-store handlers of
    [server/main.py], with the properties of the specification stated
    over it.

    Conventions of the embedding.
    - A Python [dict] with string keys is a [gmap string jval]; [d.get(k)]
      is [dict_get], [d.get(k, v)] is [dict_get_or].
    - A Python [str] is a [string] holding its UTF-8 encoding, one
      [ascii] per byte; white space and case folding are those of
      Python on that text.  JSON numbers are integers; floating point
      values are not represented.
    - The module-level dictionaries ([interview_sessions],
      [test_data_storage], [session_data]) and the files written
      under [interview_logs/] and [uploads/] are fields of an explicit
      state that every operation takes and returns.
    - A call that can raise returns an [outcome]; the state returned with
      [Raised] is the state at the point of the raise, since Python does
      not roll mutations back.
    - The chat completion service is an argument of each operation that
      calls it: a function from the request to [Some] reply content, or
      [None] when the call raises.  Clock readings ([datetime.now()]) are
      arguments as well, in microseconds.
    - What belongs to the Python runtime and not to this repository
      ([str()] of a configuration value, [int()] of a string,
      [json.loads], [isoformat], [str.lower] beyond ASCII, what the
      standard output takes) is the interface [PyRuntime]. *)

From Stdlib Require Import ZArith String Ascii.
From stdpp Require Import gmap strings list pretty.

Set Warnings "-register-all".

Local Open Scope string_scope.
Local Open Scope list_scope.
Local Open Scope Z_scope.

(** ** Python values *)

Inductive jval : Type :=
  | JNull
  | JBool (b : bool)
  | JInt (n : Z)
  | JStr (s : string)
  | JList (xs : list jval)
  | JObj (kvs : list (string * jval)).

Abbreviation pydict := (gmap string jval).

Definition dict_get (d : pydict) (k : string) : jval := default JNull (d !! k).

Definition dict_get_or (d : pydict) (k : string) (v : jval) : jval := default v (d !! k).

Inductive exn : Type :=
  | AttributeError
  | TypeError
  | ValueError
  | IndexError
  | APIError
  | RecursionError
  | UnicodeEncodeError.

Inductive outcome (A : Type) : Type :=
  | Returned (a : A)
  | Raised (e : exn).

Arguments Returned {A} a.
Arguments Raised {A} e.

(** What [json.loads] does with a text: it returns a value, raises
    [JSONDecodeError], or raises another exception ([RecursionError] on
    a text nested too deep). *)
Inductive json_result : Type :=
  | JsonValue (v : jval)
  | JsonDecodeError
  | JsonRaised (e : exn).

(** The Python runtime: [repr] of a list or dictionary, [int] of a
    string, [json.loads], [datetime.isoformat] of a clock reading,
    [str.lower] of a text that is not all ASCII, and whether the
    standard output takes a line ([print] raises [UnicodeEncodeError]
    on a text it cannot encode). *)
Class PyRuntime : Type := {
  py_repr : jval → string;
  py_int_of_str : string → option Z;
  json_loads : string → json_result;
  isoformat : Z → string;
  str_lower : string → string;
  stdout_accepts : string → bool
}.

(** [str(v)], as an f-string formats a value. *)
Definition py_str `{PyRuntime} (v : jval) : string :=
  match v with
  | JNull => "None"
  | JBool true => "True"
  | JBool false => "False"
  | JInt n => pretty n
  | JStr s => s
  | JList _ | JObj _ => py_repr v
  end.

(** [int(v)] *)
Definition py_int `{PyRuntime} (v : jval) : outcome Z :=
  match v with
  | JInt n => Returned n
  | JBool b => Returned (Z.b2z b)
  | JStr s =>
      match py_int_of_str s with
      | Some n => Returned n
      | None => Raised ValueError
      end
  | JNull | JList _ | JObj _ => Raised TypeError
  end.

(** ** Strings

    A text is held as its UTF-8 encoding: a character outside ASCII is
    two to four bytes, the first of them 194 or more, the others in
    128..191. *)

Definition dq : string := String (ascii_of_nat 34) EmptyString.

Definition newline : ascii := ascii_of_nat 10.

(** The byte [c] lies in [lo..hi]. *)
Definition byte_in (lo hi : nat) (c : ascii) : bool :=
  ((lo <=? nat_of_ascii c)%nat && (nat_of_ascii c <=? hi)%nat).

(** The white space of [str.isspace], which is also the class [\s] of a
    text pattern.  In one byte: TAB..CR, FS..US and the space. *)
Definition space1 (c : ascii) : bool := byte_in 9 13 c || byte_in 28 32 c.

(** In two bytes: U+0085 and U+00A0. *)
Definition space2 (c d : ascii) : bool :=
  byte_in 194 194 c && (byte_in 133 133 d || byte_in 160 160 d).

(** In three bytes: U+1680, U+2000..U+200A, U+2028, U+2029, U+202F,
    U+205F and U+3000. *)
Definition space3 (c d e : ascii) : bool :=
  (byte_in 225 225 c && byte_in 154 154 d && byte_in 128 128 e)
  || (byte_in 226 226 c && byte_in 128 128 d
      && (byte_in 128 138 e || byte_in 168 169 e || byte_in 175 175 e))
  || (byte_in 226 226 c && byte_in 129 129 d && byte_in 159 159 e)
  || (byte_in 227 227 c && byte_in 128 128 d && byte_in 128 128 e).

Fixpoint lstrip (s : string) : string :=
  match s with
  | String c r =>
      if space1 c then lstrip r
      else
        match r with
        | String d r' =>
            if space2 c d then lstrip r'
            else
              match r' with
              | String e r'' => if space3 c d e then lstrip r'' else s
              | EmptyString => s
              end
        | EmptyString => s
        end
  | EmptyString => EmptyString
  end.

(** Every character of the text is white space. *)
Fixpoint whitespace_only (s : string) : bool :=
  match s with
  | String c r =>
      if space1 c then whitespace_only r
      else
        match r with
        | String d r' =>
            if space2 c d then whitespace_only r'
            else
              match r' with
              | String e r'' => space3 c d e && whitespace_only r''
              | EmptyString => false
              end
        | EmptyString => false
        end
  | EmptyString => true
  end.

(** The text up to its trailing white space: a byte is kept while
    something other than white space follows or starts there. *)
Fixpoint rstrip (s : string) : string :=
  match s with
  | String c r => if whitespace_only s then EmptyString else String c (rstrip r)
  | EmptyString => EmptyString
  end.

Definition strip (s : string) : string := rstrip (lstrip s).

Definition lower_ascii (c : ascii) : ascii :=
  let n := nat_of_ascii c in
  if ((65 <=? n)%nat && (n <=? 90)%nat) then ascii_of_nat (n + 32) else c.

Fixpoint map_chars (f : ascii → ascii) (s : string) : string :=
  match s with
  | String c r => String (f c) (map_chars f r)
  | EmptyString => EmptyString
  end.

Fixpoint all_chars (p : ascii → bool) (s : string) : bool :=
  match s with
  | String c r => p c && all_chars p r
  | EmptyString => true
  end.

Definition is_ascii (c : ascii) : bool := byte_in 0 127 c.

(** [s.lower()]: on an ASCII text the letters A..Z are lowered; a text
    with other characters is lowered by the runtime. *)
Definition lower `{PyRuntime} (s : string) : string :=
  if all_chars is_ascii s then map_chars lower_ascii s else str_lower s.

(** [s.replace(" ", "_")] *)
Definition replace_space_underscore (s : string) : string :=
  map_chars (λ c, if Ascii.eqb c " "%char then "_"%char else c) s.

(** ** Regular expressions of the question extraction

    Both patterns are a literal marker followed by [(.*?)(?:\n|$)] under
    [re.IGNORECASE | re.DOTALL]: the lazy group stops at the first line
    feed or at the end of the text, so the pattern matches wherever the
    marker does and group 1 is the rest of that line. *)

(** One character of the text matched against the ASCII pattern
    character [a] under [re.IGNORECASE]: the text after it.  Besides the
    two cases of an ASCII letter, [s] matches U+017F, [i] matches U+0130
    and U+0131, and [k] matches U+212A. *)
Definition ci_char (a : ascii) (s : string) : option string :=
  match s with
  | String b r =>
      if Ascii.eqb (lower_ascii a) (lower_ascii b) then Some r
      else
        match r with
        | String d r' =>
            if (Ascii.eqb (lower_ascii a) "s" && byte_in 197 197 b && byte_in 191 191 d)
               || (Ascii.eqb (lower_ascii a) "i" && byte_in 196 196 b && byte_in 176 177 d)
            then Some r'
            else
              match r' with
              | String e r'' =>
                  if Ascii.eqb (lower_ascii a) "k" && byte_in 226 226 b
                     && byte_in 132 132 d && byte_in 170 170 e
                  then Some r'' else None
              | EmptyString => None
              end
        | EmptyString => None
        end
  | EmptyString => None
  end.

(** The ASCII literal [p] at the start of [s], ignoring case: the text
    after it. *)
Fixpoint match_literal (p s : string) : option string :=
  match p with
  | EmptyString => Some s
  | String a p' =>
      match ci_char a s with
      | Some r => match_literal p' r
      | None => None
      end
  end.

(** [Question\s*1:] *)
Definition marker_question_1 (s : string) : option string :=
  r ← match_literal "Question" s; match_literal "1:" (lstrip r).

(** [Question {n}:] *)
Definition marker_question (n : Z) (s : string) : option string :=
  match_literal ("Question " +:+ pretty n +:+ ":") s.

(** [re.search]: the leftmost position at which the marker matches. *)
Fixpoint re_search (marker : string → option string) (s : string) : option string :=
  match marker s with
  | Some r => Some r
  | None =>
      match s with
      | String _ s' => re_search marker s'
      | EmptyString => None
      end
  end.

Fixpoint until_newline (s : string) : string :=
  match s with
  | String c r => if Ascii.eqb c newline then EmptyString else String c (until_newline r)
  | EmptyString => EmptyString
  end.

(** [question_match.group(1).strip()] when the marker is found, the whole
    reply otherwise. *)
Definition extract_question (marker : string → option string) (ai_response : string) : string :=
  match re_search marker ai_response with
  | Some rest => strip (until_newline rest)
  | None => ai_response
  end.

(** ** The interview engine ([generatequestion.py]) *)

Record message : Type := Message { role : string; content : string }.

Definition system_msg (text : string) : message := Message "system" text.
Definition user_msg (text : string) : message := Message "user" text.
Definition assistant_msg (text : string) : message := Message "assistant" text.

(** The keyword arguments of [openai.chat.completions.create]; the
    sampling temperature (0.7 at every call) is left out. *)
Record chat_request : Type := ChatRequest {
  model : string;
  messages : list message;
  max_tokens : Z
}.

(** [response.choices[0].message.content], or [None] when the call or the
    access to the reply raises. *)
Definition gateway : Type := chat_request → option string.

Inductive interview_state : Type := greeting | questioning | complete.

Record session : Type := Session {
  config : pydict;
  system_prompt : message;
  chat_history : list message;
  actual_questions_asked : Z;
  actual_questions : list string;
  answers : list string;
  ratings : list jval;
  is_complete : bool;
  current_state : interview_state;
  started_at : Z;
  final_summary : option jval;
  completed_at : option Z
}.

Record interview_entry : Type := InterviewEntry {
  entry_question_number : Z;
  entry_question : string;
  entry_answer : option string;
  entry_rating : option jval
}.

Record log_data : Type := LogData {
  log_token : string;
  log_started_at : Z;
  log_completed_at : option Z;
  log_duration_minutes : option Z;
  log_candidate : pydict;
  log_config : pydict;
  log_interview : list interview_entry;
  log_summary : jval
}.

(** The module-level [interview_sessions] and the files under
    [interview_logs/], by path. *)
Record engine : Type := Engine {
  interview_sessions : gmap string session;
  interview_logs : gmap string log_data
}.

Definition store_session (token : string) (s : session) (e : engine) : engine :=
  Engine (<[token := s]> (interview_sessions e)) (interview_logs e).

(** In-place updates of the session dictionary. *)
Definition append_answer (a : string) (s : session) : session :=
  Session (config s) (system_prompt s) (chat_history s) (actual_questions_asked s)
    (actual_questions s) (answers s ++ [a]) (ratings s) (is_complete s)
    (current_state s) (started_at s) (final_summary s) (completed_at s).

Definition set_questions_asked (n : Z) (s : session) : session :=
  Session (config s) (system_prompt s) (chat_history s) n
    (actual_questions s) (answers s) (ratings s) (is_complete s)
    (current_state s) (started_at s) (final_summary s) (completed_at s).

Definition append_question (q : string) (s : session) : session :=
  Session (config s) (system_prompt s) (chat_history s) (actual_questions_asked s)
    (actual_questions s ++ [q]) (answers s) (ratings s) (is_complete s)
    (current_state s) (started_at s) (final_summary s) (completed_at s).

Definition append_history (m : message) (s : session) : session :=
  Session (config s) (system_prompt s) (chat_history s ++ [m]) (actual_questions_asked s)
    (actual_questions s) (answers s) (ratings s) (is_complete s)
    (current_state s) (started_at s) (final_summary s) (completed_at s).

Definition set_current_state (st : interview_state) (s : session) : session :=
  Session (config s) (system_prompt s) (chat_history s) (actual_questions_asked s)
    (actual_questions s) (answers s) (ratings s) (is_complete s)
    st (started_at s) (final_summary s) (completed_at s).

(** The four assignments that close a session in [generate_final_summary]. *)
Definition mark_complete (summary_data : jval) (now : Z) (s : session) : session :=
  Session (config s) (system_prompt s) (chat_history s) (actual_questions_asked s)
    (actual_questions s) (answers s) (ratings s) true
    complete (started_at s) (Some summary_data) (Some now).

Definition error_dict (msg : string) : pydict := {[ "error" := JStr msg ]}.

Section Engine.
Context `{PyRuntime}.

Definition build_system_prompt (config : pydict) : message :=
  system_msg ("
        You are an AI interviewer conducting a structured technical interview at CapsiTech.
        
        CRITICAL INSTRUCTIONS:
        1. You must ask EXACTLY " +:+ py_str (dict_get config "num_questions") +:+ " technical questions - no more, no less.
        2. Keep track of question numbers explicitly (Question 1, Question 2, etc.)
        3. DO NOT count greetings, introductions, or transitions as questions.
        4. Only statements that require a technical answer count as questions.
        
        Interview Configuration:
        - Candidate's experience level: " +:+ py_str (dict_get config "experience_level") +:+ "
        - Total questions to ask: " +:+ py_str (dict_get config "num_questions") +:+ "
        - Difficulty level: " +:+ py_str (dict_get config "difficulty") +:+ "
        - Role: " +:+ py_str (dict_get config "role_subject") +:+ "
        
        Interview Flow:
        1. First message: Brief greeting and ask Question 1
        2. After each answer: Provide brief feedback and ask the next question
        3. Adjust difficulty based on answer quality:
           - Good answer → Increase difficulty
           - Poor answer → Maintain or decrease difficulty
        4. After the final answer: Provide summary ONLY, no more questions
        
        Question Format:
        Internally track questions as " +:+ dq +:+ "Question X:" +:+ dq +:+ " but DO NOT include this prefix in your response to the candidate.
        Just ask the question directly.
        Example: " +:+ dq +:+ "Question 1: Can you explain the difference between..." +:+ dq +:+ "
        
        Rating Scale (internal use):
        0-1: No understanding
        2-3: Basic understanding with gaps
        4: Good understanding
        5: Excellent with examples
        ").

Definition initialize_interview_session (now : Z) (token : string) (config : pydict)
    (e : engine) : engine * session :=
  let system_prompt := build_system_prompt config in
  let s :=
    {| config := config;
       system_prompt := system_prompt;
       chat_history := [system_prompt];
       actual_questions_asked := 0;
       actual_questions := [];
       answers := [];
       ratings := [];
       is_complete := false;
       current_state := greeting;
       started_at := now;
       final_summary := None;
       completed_at := None |} in
  (store_session token s e, s).

Definition get_interview_session (token : string) (e : engine) : option session :=
  interview_sessions e !! token.

Definition initial_prompt (config : pydict) : string :=
  "
    The candidate's name is " +:+ py_str (dict_get config "candidate_name") +:+ " and they are applying for a " +:+ py_str (dict_get config "role_subject") +:+ " position.
    
    Please:
    1. Give a brief welcoming greeting (1-2 sentences)
    2. Immediately ask Question 1 - a " +:+ py_str (dict_get config "difficulty") +:+ " level technical question about " +:+ py_str (dict_get config "role_subject") +:+ "
    Remember: do not number the question in the final message to the candidate.
    ".

Definition start_structured_interview (gw : gateway) (now : Z) (token : string)
    (config : pydict) (e : engine) : engine * outcome string :=
  let '(e1, session) := initialize_interview_session now token config e in
  let initial_prompt := initial_prompt config in
  let messages := [system_prompt session; user_msg initial_prompt] in
  match gw (ChatRequest "gpt-3.5-turbo" messages 200) with
  | None => (e1, Raised APIError)
  | Some reply =>
      let ai_response := strip reply in
      let actual_question := extract_question marker_question_1 ai_response in
      if negb (stdout_accepts ("AI Response: " +:+ actual_question)) then
        (e1, Raised UnicodeEncodeError)
      else
      let session := append_question actual_question session in
      let session := set_questions_asked 1 session in
      let session := set_current_state questioning session in
      let session := append_history (user_msg initial_prompt) session in
      let session := append_history (assistant_msg ai_response) session in
      (store_session token session e1, Returned ai_response)
  end.

Definition next_question_prompt (config : pydict) (answer : string)
    (current_q_num next_q_num max_questions : Z) : string :=
  "
    The candidate just answered Question " +:+ pretty current_q_num +:+ ".
    Their answer was: " +:+ dq +:+ answer +:+ dq +:+ "

    Please:
    1. Directly ask the next question (internally Question " +:+ pretty next_q_num +:+ ")
    2. Adjust difficulty based on their answer quality
    3. Do NOT provide feedback
    Topic: " +:+ py_str (dict_get config "role_subject") +:+ "
    Questions remaining: " +:+ pretty (max_questions - current_q_num) +:+ "
    ".

Definition final_summary_prompt (session : session) (final_answer : string) : string :=
  "
The interview is complete. The candidate answered all " +:+ pretty (actual_questions_asked session) +:+ " questions.

Their final answer was: " +:+ dq +:+ final_answer +:+ dq +:+ ".

Please respond **only** in valid JSON format with the following keys:

- overall_feedback: (string) A brief thank you message and overall performance summary in 2–3 sentences.
- strengths: (array of strings) 2–4 bullet points of the candidate's key strengths.
- areas_for_improvement: (array of strings) 2–4 bullet points on what the candidate should work on.
- average_rating: (number) The overall rating out of 5, averaged from all answers.

Example:
{
  " +:+ dq +:+ "overall_feedback" +:+ dq +:+ ": " +:+ dq +:+ "Thank you for completing the interview... Overall performance was strong..." +:+ dq +:+ ",
  " +:+ dq +:+ "strengths" +:+ dq +:+ ": [" +:+ dq +:+ "Good communication" +:+ dq +:+ ", " +:+ dq +:+ "Strong problem-solving skills" +:+ dq +:+ "],
  " +:+ dq +:+ "areas_for_improvement" +:+ dq +:+ ": [" +:+ dq +:+ "More detail in explaining algorithms" +:+ dq +:+ "],
  " +:+ dq +:+ "average_rating" +:+ dq +:+ ": 4.2
}

Important:
- Do not include any extra commentary outside the JSON.
- Ensure the JSON is valid and properly formatted.
".

Definition fallback_summary (summary : string) : jval :=
  JObj [("overall_feedback", JStr summary);
        ("strengths", JList []);
        ("areas_for_improvement", JList []);
        ("average_rating", JNull)].

(** [config.get("candidate_name", "unknown").replace(" ", "_").lower()] *)
Definition safe_name (config : pydict) : outcome string :=
  match dict_get_or config "candidate_name" (JStr "unknown") with
  | JStr name => Returned (lower (replace_space_underscore name))
  | _ => Raised AttributeError
  end.

(** [(completed - started).seconds // 60]: the [seconds] field of a
    [timedelta] leaves the whole days out. *)
Definition duration_minutes (started completed : Z) : Z :=
  (((completed - started) `mod` 86400000000) `div` 1000000) `div` 60.

(** One element of the [interview] comprehension: the question is
    indexed without a bound check, the answer and the rating with one. *)
Definition interview_entry_at (s : session) (i : nat) : option interview_entry :=
  q ← actual_questions s !! i;
  Some {| entry_question_number := Z.of_nat i + 1;
          entry_question := q;
          entry_answer := answers s !! i;
          entry_rating := ratings s !! i |}.

(** The comprehension over [range(session["actual_questions_asked"])];
    [None] is the [IndexError] of a missing question. *)
Definition build_interview (s : session) : option (list interview_entry) :=
  mapM (interview_entry_at s) (seq 0 (Z.to_nat (actual_questions_asked s))).

(** The file of the log is the only effect kept: the directory that
    [os.makedirs] creates beforehand is not tracked. *)
Definition save_interview_log (token : string) (s : session) (e : engine) : engine * outcome unit :=
  let config := config s in
  match safe_name config with
  | Raised x => (e, Raised x)
  | Returned safe_name =>
      let log_path := "interview_logs/" +:+ safe_name +:+ "/interview_" +:+ token +:+ ".json" in
      match build_interview s with
      | None => (e, Raised IndexError)
      | Some interview =>
          let log :=
            {| log_token := token;
               log_started_at := started_at s;
               log_completed_at := completed_at s;
               log_duration_minutes := duration_minutes (started_at s) <$> completed_at s;
               log_candidate :=
                 list_to_map [("name", dict_get config "candidate_name");
                              ("email", dict_get config "email");
                              ("role", dict_get config "role_subject");
                              ("experience_level", dict_get config "experience_level")];
               log_config :=
                 list_to_map [("num_questions", dict_get config "num_questions");
                              ("difficulty", dict_get config "difficulty");
                              ("duration", dict_get config "duration")];
               log_interview := interview;
               log_summary := default (fallback_summary "") (final_summary s) |} in
          (Engine (interview_sessions e) (<[log_path := log]> (interview_logs e)), Returned ())
      end
  end.

(** The [try] around [json.loads]: [JSONDecodeError] alone is caught. *)
Definition parse_summary (summary : string) : outcome jval :=
  match json_loads summary with
  | JsonValue summary_data => Returned summary_data
  | JsonDecodeError => Returned (fallback_summary summary)
  | JsonRaised x => Raised x
  end.

Definition generate_final_summary (gw : gateway) (now : Z) (token final_answer : string)
    (e : engine) : engine * outcome pydict :=
  match get_interview_session token e with
  | None => (e, Returned (error_dict "Session not found"))
  | Some session =>
      let prompt := final_summary_prompt session final_answer in
      let messages := chat_history session ++ [user_msg final_answer; system_msg prompt] in
      match gw (ChatRequest "gpt-3.5-turbo" messages 300) with
      | None => (e, Raised APIError)
      | Some reply =>
          let summary := strip reply in
          match parse_summary summary with
          | Raised x => (e, Raised x)
          | Returned summary_data =>
              let session := mark_complete summary_data now session in
              let e1 := store_session token session e in
              match save_interview_log token session e1 with
              | (e2, Raised x) => (e2, Raised x)
              | (e2, Returned _) =>
                  (e2, Returned (list_to_map
                     [("response_text",
                       JStr "Thank you for completing the interview. Your responses have been recorded");
                      ("question_number", JInt (actual_questions_asked session));
                      ("is_complete", JBool true);
                      ("internal_summary", JStr summary)]))
              end
          end
      end
  end.

(** What [process_answer_and_get_next] prints between the update of the
    counter and the call of the service. *)
Definition printed_lines (questions : list string) (answer : string) (current_q_num : Z)
    : list string :=
  [py_repr (JList (JStr <$> questions));
   answer;
   "!!!!!!!!!!!!!!!!!!!!!!!!!!!!!!!!!!!!!!!!!!!!!!!!!!!!!!!";
   "Processing answer for question " +:+ pretty current_q_num +:+ ": " +:+ answer].

Definition process_answer_and_get_next (gw : gateway) (now : Z) (token answer : string)
    (e : engine) : engine * outcome pydict :=
  match get_interview_session token e with
  | None => (e, Returned (error_dict "Session not found"))
  | Some session =>
      if is_complete session then (e, Returned (error_dict "Interview already complete"))
      else
        let config := config session in
        match py_int (dict_get_or config "num_questions" (JInt 5)) with
        | Raised x => (e, Raised x)
        | Returned max_questions =>
            let current_q_num := actual_questions_asked session in
            let session := append_answer answer session in
            let e1 := store_session token session e in
            if current_q_num >=? max_questions then
              generate_final_summary gw now token answer e1
            else
              let next_q_num := current_q_num + 1 in
              let session := set_questions_asked next_q_num session in
              let e2 := store_session token session e1 in
              let prompt :=
                next_question_prompt config answer current_q_num next_q_num max_questions in
              let messages := chat_history session ++ [user_msg answer; system_msg prompt] in
              if negb (forallb stdout_accepts
                         (printed_lines (actual_questions session) answer current_q_num)) then
                (e2, Raised UnicodeEncodeError)
              else
              match gw (ChatRequest "gpt-3.5-turbo" messages 200) with
              | None => (e2, Raised APIError)
              | Some reply =>
                  let ai_response := strip reply in
                  let actual_question :=
                    extract_question (marker_question next_q_num) ai_response in
                  let session := append_question actual_question session in
                  let session := append_history (assistant_msg ai_response) session in
                  (store_session token session e2,
                   Returned (list_to_map
                     [("response_text", JStr ai_response);
                      ("question_number", JInt next_q_num);
                      ("is_complete", JBool false);
                      ("questions_remaining", JInt (max_questions - next_q_num))]))
              end
        end
  end.

Definition get_interview_progress (token : string) (e : engine) : outcome pydict :=
  match get_interview_session token e with
  | None => Returned (error_dict "Session not found")
  | Some session =>
      match py_int (dict_get_or (config session) "num_questions" (JInt 5)) with
      | Raised x => Raised x
      | Returned max_questions =>
          Returned (list_to_map
            [("current_question", JInt (actual_questions_asked session));
             ("total_questions", JInt max_questions);
             ("questions_remaining", JInt (max_questions - actual_questions_asked session));
             ("is_complete", JBool (is_complete session));
             ("state", JStr (match current_state session with
                             | greeting => "greeting"
                             | questioning => "questioning"
                             | complete => "complete"
                             end))])
      end
  end.

Definition reset_interview (token : string) (e : engine) : engine :=
  Engine (delete token (interview_sessions e)) (interview_logs e).

End Engine.

(** ** The HTTP handlers ([main.py]) *)

(** One entry of [session_data['states']]. *)
Record token_state : Type := TokenState {
  current_stage : Z;
  stages : gmap Z jval;
  terminated : bool;
  completed : bool;
  termination_reason : option jval;
  terminated_at : option Z
}.

Record violation : Type := Violation {
  violation_type : jval;
  violation_timestamp : jval;
  violation_details : jval
}.

(** The module-level dictionaries of [main.py], the files under
    [uploads/] and the audio files of the temporary directory, with the
    engine's state. *)
Record server : Type := Server {
  test_data_storage : gmap string pydict;
  uploads : gmap string pydict;
  states : gmap string token_state;
  violations : gmap string (list violation);
  audio_files : gmap string string;
  interview : engine
}.

Record response : Type := Response { body : pydict; status : Z }.

(** [jsonify(d)] and [jsonify(d), code] *)
Definition jsonify (d : pydict) : response := Response d 200.
Definition jsonify_with (d : pydict) (code : Z) : response := Response d code.

Definition set_test_data_storage (m : gmap string pydict) (w : server) : server :=
  Server m (uploads w) (states w) (violations w) (audio_files w) (interview w).

Definition set_uploads (m : gmap string pydict) (w : server) : server :=
  Server (test_data_storage w) m (states w) (violations w) (audio_files w) (interview w).

Definition set_states (m : gmap string token_state) (w : server) : server :=
  Server (test_data_storage w) (uploads w) m (violations w) (audio_files w) (interview w).

Definition set_violations (m : gmap string (list violation)) (w : server) : server :=
  Server (test_data_storage w) (uploads w) (states w) m (audio_files w) (interview w).

Definition set_audio_files (m : gmap string string) (w : server) : server :=
  Server (test_data_storage w) (uploads w) (states w) (violations w) m (interview w).

Definition set_interview (e : engine) (w : server) : server :=
  Server (test_data_storage w) (uploads w) (states w) (violations w) (audio_files w) e.

(** The truth value of a dictionary: [if not config] holds for [None]
    and for the empty dictionary. *)
Definition dict_truthy (d : pydict) : bool := negb (size d =? 0)%nat.

(** [send_test_email]: [None] when the message was sent, the text of the
    exception otherwise. *)
Definition mailer : Type := jval → string → jval → option string.

(** [text_to_speech]: the audio bytes, or [None] after a logged failure. *)
Definition speech : Type := string → option string.

Definition upload_path (token : string) : string := "uploads/test_" +:+ token +:+ ".json".

Definition load_test_config (token : string) (w : server) : server * option pydict :=
  match test_data_storage w !! token with
  | Some config => (w, Some config)
  | None =>
      match uploads w !! upload_path token with
      | Some config => (set_test_data_storage (<[token := config]> (test_data_storage w)) w, Some config)
      | None => (w, None)
      end
  end.

Definition fresh_token_state : token_state :=
  {| current_stage := 1;
     stages := list_to_map [(1, JStr "incomplete"); (2, JStr "incomplete"); (3, JStr "incomplete")];
     terminated := false;
     completed := false;
     termination_reason := None;
     terminated_at := None |}.

Definition get_or_create_session_state (token : string) (w : server) : server * token_state :=
  match states w !! token with
  | Some st => (w, st)
  | None => (set_states (<[token := fresh_token_state]> (states w)) w, fresh_token_state)
  end.

Section Handlers.
Context `{PyRuntime}.

Definition token_state_json (st : token_state) : jval :=
  JObj ([("current_stage", JInt (current_stage st));
         ("stages", JObj ((λ kv : Z * jval, (pretty kv.1, kv.2)) <$> map_to_list (stages st)));
         ("terminated", JBool (terminated st));
         ("completed", JBool (completed st))]
        ++ from_option (λ r, [("termination_reason", r)]) [] (termination_reason st)
        ++ from_option (λ t, [("terminated_at", JStr (isoformat t))]) [] (terminated_at st)).

Definition dict_json (d : pydict) : jval := JObj (map_to_list d).

(** [POST /admin/create-test]; [token] is the fresh [uuid4]. *)
Definition create_test (mail : mailer) (now : Z) (token : string) (data : pydict)
    (w : server) : server * outcome response :=
  let email := dict_get data "email" in
  match mail email token (dict_get_or data "name" (JStr "Candidate")) with
  | Some e =>
      (w, Returned (jsonify_with
             (list_to_map [("token", JStr token); ("email_sent", JBool false); ("error", JStr e)])
             201))
  | None =>
      match py_int (dict_get_or data "duration" (JInt 60)) with
      | Raised x => (w, Raised x)
      | Returned duration =>
          match py_int (dict_get_or data "numQuestions" (JInt 5)) with
          | Raised x => (w, Raised x)
          | Returned num_questions =>
              let config : pydict :=
                list_to_map
                  [("token", JStr token);
                   ("candidate_name", dict_get data "candidate_name");
                   ("email", dict_get data "email");
                   ("phone", dict_get data "phone");
                   ("experience_level", dict_get data "experience_level");
                   ("role_subject", dict_get data "role_subject");
                   ("difficulty", dict_get data "difficulty");
                   ("duration", JInt duration);
                   ("num_questions", JInt num_questions);
                   ("created_at", JStr (isoformat now));
                   ("status", JStr "pending")] in
              let w := set_uploads (<[upload_path token := config]> (uploads w)) w in
              let w := set_test_data_storage (<[token := config]> (test_data_storage w)) w in
              let '(w, _) := get_or_create_session_state token w in
              (w, Returned (jsonify
                     (list_to_map [("success", JBool true); ("token", JStr token);
                                   ("test_config", dict_json config); ("email_sent", JBool true)])))
          end
      end
  end.

(** [config.get('num_questions', 5) - 1] *)
Definition minus_one (v : jval) : outcome jval :=
  match v with
  | JInt n => Returned (JInt (n - 1))
  | JBool b => Returned (JInt (Z.b2z b - 1))
  | _ => Raised TypeError
  end.

Definition audio_filename (token : string) (q_num : jval) : string :=
  "audio_" +:+ token +:+ "_q" +:+ py_str q_num +:+ ".mp3".

(** The audio of [text]: the file is written (to the temporary
    directory, here by file name) and its URL returned when the
    synthesis gave a non-empty result. *)
Definition save_audio (tts : speech) (token : string) (q_num : jval) (text : string)
    (w : server) : server * jval :=
  match tts text with
  | Some audio_content =>
      if String.eqb audio_content "" then (w, JNull)
      else
        let audio_filename := audio_filename token q_num in
        (set_audio_files (<[audio_filename := audio_content]> (audio_files w)) w,
         JStr ("/audio/" +:+ audio_filename))
  | None => (w, JNull)
  end.

(** [POST /api/test/<token>/start-interview] *)
Definition start_interview (gw : gateway) (tts : speech) (now : Z) (token : string)
    (w : server) : server * outcome response :=
  let '(w, config) := load_test_config token w in
  match config with
  | None => (w, Returned (jsonify_with (error_dict "Invalid token") 404))
  | Some config =>
      if negb (dict_truthy config) then (w, Returned (jsonify_with (error_dict "Invalid token") 404))
      else
        let '(w, state) := get_or_create_session_state token w in
        if terminated state then (w, Returned (jsonify_with (error_dict "Test terminated") 403))
        else
          match start_structured_interview gw now token config (interview w) with
          | (e, Raised x) => (set_interview e w, Raised x)
          | (e, Returned first_response) =>
              let w := set_interview e w in
              if negb (stdout_accepts ("First response: " +:+ first_response)) then
                (w, Raised UnicodeEncodeError)
              else
              let '(w, audio_url) := save_audio tts token (JInt 1) first_response w in
              match minus_one (dict_get_or config "num_questions" (JInt 5)) with
              | Raised x => (w, Raised x)
              | Returned remaining =>
                  (w, Returned (jsonify
                         (list_to_map [("response_text", JStr first_response);
                                       ("audio_url", audio_url);
                                       ("question_number", JInt 1);
                                       ("is_complete", JBool false);
                                       ("questions_remaining", remaining)])))
              end
          end
  end.

(** [data.get('text', '').strip()] *)
Definition submitted_text (data : pydict) : outcome string :=
  match dict_get_or data "text" (JStr "") with
  | JStr s => Returned (strip s)
  | _ => Raised AttributeError
  end.

(** The truth value of [result.get("response_text")]. *)
Definition response_text_of (result : pydict) : option string :=
  match result !! "response_text" with
  | Some (JStr s) => if String.eqb s "" then None else Some s
  | _ => None
  end.

(** [POST /api/test/<token>/submit-text] *)
Definition submit_text_answer (gw : gateway) (tts : speech) (now : Z) (token : string)
    (data : pydict) (w : server) : server * outcome response :=
  match get_interview_session token (interview w) with
  | None => (w, Returned (jsonify_with (error_dict "Interview not started") 404))
  | Some _ =>
      match submitted_text data with
      | Raised x => (w, Raised x)
      | Returned answer =>
          if String.eqb answer "" then (w, Returned (jsonify_with (error_dict "No answer provided") 400))
          else
            match process_answer_and_get_next gw now token answer (interview w) with
            | (e, Raised x) => (set_interview e w, Raised x)
            | (e, Returned result) =>
                let w := set_interview e w in
                if bool_decide (is_Some (result !! "error")) then (w, Returned (jsonify_with result 400))
                else
                  let '(w, audio_url) :=
                    match response_text_of result with
                    | Some text =>
                        save_audio tts token (dict_get_or result "question_number" (JInt 0)) text w
                    | None => (w, JNull)
                    end in
                  (w, Returned (jsonify
                         (list_to_map
                            [("response_text", dict_get_or result "response_text" (JStr ""));
                             ("audio_url", audio_url);
                             ("question_number", dict_get_or result "question_number" (JInt 0));
                             ("is_complete", dict_get_or result "is_complete" (JBool false));
                             ("questions_remaining", dict_get_or result "questions_remaining" (JInt 0))])))
            end
      end
  end.

(** [GET /api/test/<token>/progress] *)
Definition get_progress (token : string) (w : server) : server * outcome response :=
  match get_interview_progress token (interview w) with
  | Raised x => (w, Raised x)
  | Returned progress =>
      if bool_decide (is_Some (progress !! "error")) then (w, Returned (jsonify_with progress 404))
      else (w, Returned (jsonify progress))
  end.

(** [POST /api/test/<token>/reset] *)
Definition reset_interview_endpoint (token : string) (w : server) : server * outcome response :=
  (set_interview (reset_interview token (interview w)) w,
   Returned (jsonify (list_to_map [("success", JBool true); ("message", JStr "Interview reset")]))).

(** [GET /api/test/<token>/config] *)
Definition get_test_config (token : string) (w : server) : server * outcome response :=
  let '(w, config) := load_test_config token w in
  match config with
  | Some config =>
      if dict_truthy config then (w, Returned (jsonify config))
      else (w, Returned (jsonify_with (error_dict "Test config not found") 404))
  | None => (w, Returned (jsonify_with (error_dict "Test config not found") 404))
  end.

Definition redirect (target : jval) : response :=
  jsonify (list_to_map [("allowed", JBool false); ("redirect", target)]).

(** [GET /api/test/<token>/validate/<int:stage>] *)
Definition validate_stage_access (token : string) (stage : Z) (w : server)
    : server * outcome response :=
  let invalid :=
    jsonify_with (list_to_map [("allowed", JBool false); ("message", JStr "Invalid token")]) 404 in
  let '(w, config) := load_test_config token w in
  match config with
  | None => (w, Returned invalid)
  | Some config =>
      if negb (dict_truthy config) then (w, Returned invalid)
      else
        let '(w, state) := get_or_create_session_state token w in
        if terminated state then (w, Returned (redirect (JStr "terminated")))
        else if completed state then (w, Returned (redirect (JStr "feedback")))
        else if stage <? current_stage state then (w, Returned (redirect (JInt (current_stage state))))
        else if stage >? current_stage state then (w, Returned (redirect (JInt (current_stage state))))
        else
          (w, Returned (jsonify
                 (list_to_map [("allowed", JBool true);
                               ("token_state", token_state_json state);
                               ("session_data", dict_json config)])))
  end.

(** The number a JSON [stage] compares equal to: [True == 1] in Python. *)
Definition stage_number (stage : jval) : option Z :=
  match stage with
  | JInt n => Some n
  | JBool b => Some (Z.b2z b)
  | _ => None
  end.

(** [status == 'complete'] *)
Definition is_complete_status (status : jval) : bool :=
  match status with
  | JStr s => String.eqb s "complete"
  | _ => false
  end.

(** The body of [update_stage] on the state of the token. *)
Definition apply_stage_update (stage status : jval) (st : token_state) : token_state :=
  match stage_number stage with
  | Some n =>
      if bool_decide (n ∈ [1; 2; 3]) then
        let stages := <[n := status]> (stages st) in
        if is_complete_status status then
          if n <? 3 then
            TokenState (n + 1) stages (terminated st) (completed st)
              (termination_reason st) (terminated_at st)
          else
            TokenState (current_stage st) stages (terminated st) true
              (termination_reason st) (terminated_at st)
        else
          TokenState (current_stage st) stages (terminated st) (completed st)
            (termination_reason st) (terminated_at st)
      else st
  | None => st
  end.

(** [POST /api/test/<token>/update-stage] *)
Definition update_stage (token : string) (data : pydict) (w : server) : server * outcome response :=
  let stage := dict_get data "stage" in
  let status := dict_get data "status" in
  let '(w, state) := get_or_create_session_state token w in
  let state := apply_stage_update stage status state in
  (set_states (<[token := state]> (states w)) w,
   Returned (jsonify (list_to_map [("success", JBool true); ("token_state", token_state_json state)]))).

Definition set_terminated (st : token_state) : token_state :=
  TokenState (current_stage st) (stages st) true (completed st)
    (termination_reason st) (terminated_at st).

(** [POST /api/test/<token>/violations] *)
Definition record_violation (now : Z) (token : string) (data : pydict) (w : server)
    : server * outcome response :=
  let violation :=
    {| violation_type := dict_get data "type";
       violation_timestamp := dict_get_or data "timestamp" (JStr (isoformat now));
       violation_details := dict_get_or data "details" (JStr "") |} in
  let recorded := default [] (violations w !! token) ++ [violation] in
  let w := set_violations (<[token := recorded]> (violations w)) w in
  let count := Z.of_nat (length recorded) in
  let w :=
    if count >=? 10 then
      let '(w, state) := get_or_create_session_state token w in
      set_states (<[token := set_terminated state]> (states w)) w
    else w in
  (w, Returned (jsonify
         (list_to_map [("success", JBool true); ("violation_count", JInt count);
                       ("max_reached", JBool (count >=? 10))]))).

Definition terminate_state (reason : jval) (now : Z) (st : token_state) : token_state :=
  TokenState (current_stage st) (stages st) true (completed st) (Some reason) (Some now).

(** [POST /api/test/<token>/terminate] *)
Definition terminate_test (now : Z) (token : string) (data : pydict) (w : server)
    : server * outcome response :=
  let reason := dict_get_or data "reason" (JStr "No reason provided") in
  let '(w, state) := get_or_create_session_state token w in
  let state := terminate_state reason now state in
  (set_states (<[token := state]> (states w)) w,
   Returned (jsonify
     (list_to_map [("success", JBool true);
                   ("message", JStr ("Test terminated: " +:+ py_str reason))]))).

(** [GET /api/test/<token>/status] *)
Definition get_test_status (token : string) (w : server) : server * outcome response :=
  let '(w, config) := load_test_config token w in
  match config with
  | None => (w, Returned (jsonify_with (error_dict "Invalid token") 404))
  | Some config =>
      if negb (dict_truthy config) then (w, Returned (jsonify_with (error_dict "Invalid token") 404))
      else
        let '(w, state) := get_or_create_session_state token w in
        match get_interview_progress token (interview w) with
        | Raised x => (w, Raised x)
        | Returned interview_progress =>
            (w, Returned (jsonify
                   (list_to_map
                      [("token", JStr token);
                       ("candidate_info", dict_json config);
                       ("state", token_state_json state);
                       ("violations", JInt (Z.of_nat (length (default [] (violations w !! token)))));
                       ("interview_progress", dict_json interview_progress)])))
        end
  end.

End Handlers.

(** ** Runs of the engine *)

Inductive engine_op : Type :=
  | OpStart (gw : gateway) (now : Z) (token : string) (config : pydict)
  | OpSubmit (gw : gateway) (now : Z) (token answer : string)
  | OpProgress (token : string)
  | OpReset (token : string).

Section EngineRuns.
Context `{PyRuntime}.

(** The state an operation leaves, whether it returns or raises;
    [get_interview_progress] only reads. *)
Definition engine_step (e : engine) (op : engine_op) : engine :=
  match op with
  | OpStart gw now token config => (start_structured_interview gw now token config e).1
  | OpSubmit gw now token answer => (process_answer_and_get_next gw now token answer e).1
  | OpProgress _ => e
  | OpReset token => reset_interview token e
  end.

Definition run_engine (ops : list engine_op) (e : engine) : engine :=
  foldl engine_step e ops.

(** The call returned: it did not raise. *)
Definition returned {A : Type} (o : outcome A) : bool :=
  match o with
  | Returned _ => true
  | Raised _ => false
  end.

Definition op_returns (e : engine) (op : engine_op) : bool :=
  match op with
  | OpStart gw now token config => returned (start_structured_interview gw now token config e).2
  | OpSubmit gw now token answer =>
      returned (process_answer_and_get_next gw now token answer e).2
  | OpProgress token => returned (get_interview_progress token e)
  | OpReset _ => true
  end.

(** No operation of the run raises. *)
Fixpoint run_returns (ops : list engine_op) (e : engine) : bool :=
  match ops with
  | [] => true
  | op :: ops => op_returns e op && run_returns ops (engine_step e op)
  end.

(** [int(config.get("num_questions", 5))] of a session. *)
Definition max_questions_of (s : session) : outcome Z :=
  py_int (dict_get_or (config s) "num_questions" (JInt 5)).

(** What holds of a session while no call to the service has failed. *)
Definition session_consistent (s : session) : Prop :=
  Z.of_nat (length (actual_questions s)) = actual_questions_asked s ∧
  Z.of_nat (length (answers s)) =
    (if is_complete s then actual_questions_asked s else actual_questions_asked s - 1) ∧
  (∀ n, max_questions_of s = Returned n → actual_questions_asked s ≤ Z.max 1 n).

(** The session [start] stores once the service has answered
    [ai_response] (the reply, stripped). *)
Definition started_session (now : Z) (config : pydict) (ai_response : string) : session :=
  {| config := config;
     system_prompt := build_system_prompt config;
     chat_history := [build_system_prompt config; user_msg (initial_prompt config);
                      assistant_msg ai_response];
     actual_questions_asked := 1;
     actual_questions := [extract_question marker_question_1 ai_response];
     answers := [];
     ratings := [];
     is_complete := false;
     current_state := questioning;
     started_at := now;
     final_summary := None;
     completed_at := None |}.

(** What holds of a session in every run, failed calls included. *)
Definition counter_bounded (s : session) : Prop :=
  Z.of_nat (length (actual_questions s)) ≤ actual_questions_asked s ∧
  (∀ n, max_questions_of s = Returned n → actual_questions_asked s ≤ Z.max 1 n).

(** The invariant on every stored session. *)
Definition sessions_consistent (e : engine) : Prop :=
  ∀ t s, interview_sessions e !! t = Some s → session_consistent s.

(** What [generate_final_summary] returns. *)
Definition finish_payload (s : session) (summary : string) : pydict :=
  list_to_map
    [("response_text",
      JStr "Thank you for completing the interview. Your responses have been recorded");
     ("question_number", JInt (actual_questions_asked s));
     ("is_complete", JBool true);
     ("internal_summary", JStr summary)].

End EngineRuns.

(** ** Runs of the server

    The requests of the routes embedded above.  The other routes
    (audio upload and download, snapshots, health, static files) touch
    neither the session states nor the violations nor the interview
    sessions. *)

Inductive request : Type :=
  | CreateTest (mail : mailer) (now : Z) (token : string) (data : pydict)
  | StartInterview (gw : gateway) (tts : speech) (now : Z) (token : string)
  | SubmitText (gw : gateway) (tts : speech) (now : Z) (token : string) (data : pydict)
  | GetProgress (token : string)
  | ResetInterview (token : string)
  | GetTestConfig (token : string)
  | ValidateStage (token : string) (stage : Z)
  | UpdateStage (token : string) (data : pydict)
  | RecordViolation (now : Z) (token : string) (data : pydict)
  | TerminateTest (now : Z) (token : string) (data : pydict)
  | GetTestStatus (token : string).

Section ServerRuns.
Context `{PyRuntime}.

Definition handle (w : server) (r : request) : server * outcome response :=
  match r with
  | CreateTest mail now token data => create_test mail now token data w
  | StartInterview gw tts now token => start_interview gw tts now token w
  | SubmitText gw tts now token data => submit_text_answer gw tts now token data w
  | GetProgress token => get_progress token w
  | ResetInterview token => reset_interview_endpoint token w
  | GetTestConfig token => get_test_config token w
  | ValidateStage token stage => validate_stage_access token stage w
  | UpdateStage token data => update_stage token data w
  | RecordViolation now token data => record_violation now token data w
  | TerminateTest now token data => terminate_test now token data w
  | GetTestStatus token => get_test_status token w
  end.

(** The state after a sequence of requests; a handler that raises
    keeps the mutations it made before. *)
Definition serve (rs : list request) (w : server) : server :=
  foldl (λ w r, (handle w r).1) w rs.

End ServerRuns.

(** The state of a token as [get_or_create_session_state] sees it. *)
Definition state_of (token : string) (w : server) : token_state :=
  default fresh_token_state (states w !! token).

(** The request completes stage [n]: [stage == n] and
    [status == 'complete']. *)
Definition completes (data : pydict) (n : Z) : bool :=
  bool_decide (stage_number (dict_get data "stage") = Some n)
  && is_complete_status (dict_get data "status").

Definition stages_bounded (m : gmap string token_state) : Prop :=
  ∀ t st, m !! t = Some st → 1 ≤ current_stage st ≤ 3.

(** ** A concrete runtime and concrete requests

    Used to run the embedding on examples.  The runtime agrees with
    Python on the values the examples use: decimal strings for [int],
    the three JSON literals for [json.loads] (the replies of the
    examples that are not among them are not JSON at all), a standard
    output in UTF-8, which takes every text; its [str_lower] is not
    called, the names of the examples being ASCII. *)

Fixpoint digits_value (acc : Z) (s : string) : option Z :=
  match s with
  | EmptyString => Some acc
  | String c r =>
      let n := nat_of_ascii c in
      if ((48 <=? n)%nat && (n <=? 57)%nat) then digits_value (10 * acc + Z.of_nat (n - 48)) r
      else None
  end.

Definition decimal_of_string (s : string) : option Z :=
  match strip s with
  | EmptyString => None
  | String "-" r => if String.eqb r "" then None else Z.opp <$> digits_value 0 r
  | String "+" r => if String.eqb r "" then None else digits_value 0 r
  | r => digits_value 0 r
  end.

Definition json_literal (s : string) : option jval :=
  if String.eqb s "null" then Some JNull
  else if String.eqb s "true" then Some (JBool true)
  else if String.eqb s "false" then Some (JBool false)
  else None.

Definition example_runtime : PyRuntime :=
  {| py_repr := λ _, "[...]";
     py_int_of_str := decimal_of_string;
     json_loads := λ s, from_option JsonValue JsonDecodeError (json_literal s);
     isoformat := λ t, pretty t;
     str_lower := λ s, s;
     stdout_accepts := λ _, true |}.

(** A thousand opening brackets: a text on which [json.loads] raises
    [RecursionError]. *)
Definition nested_brackets : string :=
  Eval vm_compute in foldr (λ _ s, String "[" s) EmptyString (seq 0 1000).

(** The same runtime with a standard output in ASCII and the
    [json.loads] of Python on [nested_brackets]. *)
Definition ascii_stdout_runtime : PyRuntime :=
  {| py_repr := λ _, "[...]";
     py_int_of_str := decimal_of_string;
     json_loads := λ s,
       if String.eqb s nested_brackets then JsonRaised RecursionError
       else from_option JsonValue JsonDecodeError (json_literal s);
     isoformat := λ t, pretty t;
     str_lower := λ s, s;
     stdout_accepts := all_chars is_ascii |}.

(** A configuration as [create_test] builds it, with [n] questions. *)
Definition example_config (name : jval) (n : Z) : pydict :=
  list_to_map
    [("token", JStr "tok"); ("candidate_name", name); ("email", JStr "ada@example.org");
     ("phone", JNull); ("experience_level", JStr "senior"); ("role_subject", JStr "Rust");
     ("difficulty", JStr "medium"); ("duration", JInt 60); ("num_questions", JInt n);
     ("created_at", JStr "0"); ("status", JStr "pending")].

(** A service that answers [text] to every request, and one that fails. *)
Definition always_reply (text : string) : gateway := λ _, Some text.
Definition no_reply : gateway := λ _, None.

Definition empty_engine : engine := Engine ∅ ∅.

Definition empty_server : server := Server ∅ ∅ ∅ ∅ ∅ empty_engine.

Definition stage_request (stage : Z) (status : string) : pydict :=
  list_to_map [("stage", JInt stage); ("status", JStr status)].

Definition violation_request : pydict :=
  list_to_map [("type", JStr "tab_switch"); ("details", JStr "left the page")].

#[global] Instance message_eq_dec : EqDecision message.
Proof. solve_decision. Defined.

Section Scenarios.
#[local] Existing Instance example_runtime.

(** The run of the scenario of the specification: two questions, both
    answered, every call of the service answered. *)
Definition two_question_run : list engine_op :=
  [OpStart (always_reply "Hello Ada. What is ownership?") 10 "tok"
     (example_config (JStr "Ada Byron") 2);
   OpSubmit (always_reply "Question 2: What is borrowing?") 20 "tok" "a move";
   OpSubmit (always_reply "Thank you, that is all.") 30 "tok" "a reference"].

(** An engine in which the token has been asked its only question. *)
Definition one_question_asked (name : jval) : engine :=
  (start_structured_interview (always_reply "Hello. What is ownership?") 10 "tok"
     (example_config name 1) empty_engine).1.

(** A server that holds the configuration of the token and saw its
    stage 1 completed. *)
Definition stage_two_server : server :=
  (update_stage "tok" (stage_request 1 "complete")
     (Server {[ "tok" := example_config (JStr "Ada Byron") 2 ]} ∅ ∅ ∅ ∅ empty_engine)).1.

End Scenarios.

(** ** Sessions across calls *)

(** The token an operation names. *)
Definition op_token (op : engine_op) : string :=
  match op with
  | OpStart _ _ token _ | OpSubmit _ _ token _ | OpProgress token | OpReset token => token
  end.

(** [start] and [reset] of the token: the two operations that replace
    or drop its session. *)
Definition restarts (token : string) (op : engine_op) : bool :=
  match op with
  | OpStart _ _ t _ | OpReset t => bool_decide (t = token)
  | OpSubmit _ _ _ _ | OpProgress _ => false
  end.

(** A session against an earlier one of the same interview. *)
Definition session_extends (s s' : session) : Prop :=
  config s' = config s ∧
  system_prompt s' = system_prompt s ∧
  started_at s' = started_at s ∧
  answers s `prefix_of` answers s' ∧
  actual_questions s `prefix_of` actual_questions s' ∧
  chat_history s `prefix_of` chat_history s' ∧
  actual_questions_asked s ≤ actual_questions_asked s' ∧
  (is_complete s = true → s' = s).

(** What one [submitAnswer] call does to the session it finds, at clock
    reading [now]. *)
Definition submit_step (now : Z) (s s' : session) : Prop :=
  config s' = config s ∧
  system_prompt s' = system_prompt s ∧
  started_at s' = started_at s ∧
  ratings s' = ratings s ∧
  answers s `prefix_of` answers s' ∧
  actual_questions s `prefix_of` actual_questions s' ∧
  chat_history s `prefix_of` chat_history s' ∧
  (actual_questions_asked s' = actual_questions_asked s ∨
   actual_questions_asked s' = actual_questions_asked s + 1) ∧
  ((is_complete s' = is_complete s ∧ current_state s' = current_state s ∧
    final_summary s' = final_summary s ∧ completed_at s' = completed_at s) ∨
   (is_complete s = false ∧ is_complete s' = true ∧ current_state s' = complete ∧
    is_Some (final_summary s') ∧ completed_at s' = Some now)).

(** The four fields that [generate_final_summary] sets together. *)
Definition completion_agrees (s : session) : Prop :=
  (is_complete s = true ↔ current_state s = complete) ∧
  (is_complete s = true ↔ is_Some (final_summary s)) ∧
  (is_complete s = true ↔ is_Some (completed_at s)).

(** A log written for a closed session that holds no rating. *)
Definition log_closed (l : log_data) : Prop :=
  is_Some (log_completed_at l) ∧
  is_Some (log_duration_minutes l) ∧
  Forall (λ en, entry_rating en = None) (log_interview l).

(** The [submitAnswer] calls of one token, each with the service, the
    clock reading and the answer of the call. *)
Definition submits (token : string) (xs : list (gateway * Z * string)) : list engine_op :=
  (λ x, OpSubmit x.1.1 x.1.2 token x.2) <$> xs.

(** Every session holds no rating and agrees on its completion, every
    log is closed. *)
Definition engine_closed (e : engine) : Prop :=
  (∀ t s, interview_sessions e !! t = Some s → ratings s = [] ∧ completion_agrees s) ∧
  (∀ p l, interview_logs e !! p = Some l → log_closed l).

(** ** Routes and the tables they write *)

(** The routes that assign into the state of the token. *)
Definition writes_state (token : string) (r : request) : bool :=
  match r with
  | UpdateStage t _ | RecordViolation _ t _ | TerminateTest _ t _ => bool_decide (t = token)
  | _ => false
  end.

(** The routes that call into the interview engine for the token. *)
Definition writes_session (token : string) (r : request) : bool :=
  match r with
  | StartInterview _ _ _ t | SubmitText _ _ _ t _ | ResetInterview t => bool_decide (t = token)
  | _ => false
  end.

Definition records_violation (token : string) (r : request) : bool :=
  match r with
  | RecordViolation _ t _ => bool_decide (t = token)
  | _ => false
  end.

(** Neither flag of a state has been cleared. *)
Definition flags_kept (st st' : token_state) : Prop :=
  (terminated st = true → terminated st' = true) ∧
  (completed st = true → completed st' = true).

Definition violation_count (token : string) (w : server) : nat :=
  length (default [] (violations w !! token)).

(** Ten violations or more have terminated the test. *)
Definition violations_enforced (w : server) : Prop :=
  ∀ t, (10 ≤ violation_count t w)%nat → terminated (state_of t w) = true.

(** ** The audio route *)

(** [s.startswith(p)] *)
Fixpoint starts_with (p s : string) : bool :=
  match p, s with
  | EmptyString, _ => true
  | String a p', String b s' => Ascii.eqb a b && starts_with p' s'
  | String _ _, EmptyString => false
  end.

(** [sub in s] *)
Fixpoint str_contains (sub s : string) : bool :=
  starts_with sub s ||
  match s with
  | String _ r => str_contains sub r
  | EmptyString => false
  end.

(** What [GET /audio/<filename>] answers: [abort(code)] or the file
    sent with its MIME type. *)
Inductive file_response : Type :=
  | Aborted (code : Z)
  | SentFile (content mimetype : string).

(** [GET /audio/<filename>]; the files of the temporary directory are
    looked up by name, as [save_audio] writes them. *)
Definition serve_audio_file (filename : string) (w : server) : file_response :=
  if str_contains ".." filename || str_contains "/" filename then Aborted 403
  else
    match audio_files w !! filename with
    | None => Aborted 404
    | Some content => SentFile content "audio/mpeg"
    end.

(** Neither a dot nor a slash. *)
Definition plain (c : ascii) : bool :=
  negb (Ascii.eqb c ".") && negb (Ascii.eqb c "/").

(** The character map [f] neither creates nor removes a character of
    [sub]. *)
Definition keeps_chars (f : ascii → ascii) (sub : string) : Prop :=
  ∀ c, all_chars (λ a, Bool.eqb (Ascii.eqb a (f c)) (Ascii.eqb a c)) sub = true.

(** * Properties *)

Section EngineProperties.
Context `{PyRuntime}.

#[local] Opaque build_system_prompt initial_prompt next_question_prompt final_summary_prompt.
#[local] Opaque strip extract_question.

Lemma store_session_twice token s s' e :
  store_session token s' (store_session token s e) = store_session token s' e.
Proof. unfold store_session; simpl. by rewrite insert_insert_eq. Qed.

Lemma lookup_store_session token t s e :
  interview_sessions (store_session token s e) !! t =
  if decide (token = t) then Some s else interview_sessions e !! t.
Proof. unfold store_session; simpl. apply lookup_insert. Qed.

(** [start] after a reply whose question is printed: the stored session
    and the value returned. *)
Lemma start_structured_interview_reply gw now token config e reply :
  gw (ChatRequest "gpt-3.5-turbo" [build_system_prompt config; user_msg (initial_prompt config)] 200)
    = Some reply →
  stdout_accepts ("AI Response: " +:+ extract_question marker_question_1 (strip reply)) = true →
  start_structured_interview gw now token config e =
    (store_session token
       {| config := config;
          system_prompt := build_system_prompt config;
          chat_history := [build_system_prompt config; user_msg (initial_prompt config);
                           assistant_msg (strip reply)];
          actual_questions_asked := 1;
          actual_questions := [extract_question marker_question_1 (strip reply)];
          answers := [];
          ratings := [];
          is_complete := false;
          current_state := questioning;
          started_at := now;
          final_summary := None;
          completed_at := None |} e,
     Returned (strip reply)).
Proof.
  intros Hgw Hout. unfold start_structured_interview, initialize_interview_session; simpl.
  rewrite Hgw, Hout. simpl. by rewrite store_session_twice.
Qed.

(** [start] when the service fails: the initialised session stays. *)
Lemma start_structured_interview_failure gw now token config e :
  gw (ChatRequest "gpt-3.5-turbo" [build_system_prompt config; user_msg (initial_prompt config)] 200)
    = None →
  start_structured_interview gw now token config e =
    ((initialize_interview_session now token config e).1, Raised APIError).
Proof.
  intros Hgw. unfold start_structured_interview, initialize_interview_session; simpl.
  by rewrite Hgw.
Qed.

(** [start] when the question cannot be printed: the raise comes before
    the question is stored, and the initialised session stays. *)
Lemma start_structured_interview_unprinted gw now token config e reply :
  gw (ChatRequest "gpt-3.5-turbo" [build_system_prompt config; user_msg (initial_prompt config)] 200)
    = Some reply →
  stdout_accepts ("AI Response: " +:+ extract_question marker_question_1 (strip reply)) = false →
  start_structured_interview gw now token config e =
    ((initialize_interview_session now token config e).1, Raised UnicodeEncodeError).
Proof.
  intros Hgw Hout. unfold start_structured_interview, initialize_interview_session; simpl.
  by rewrite Hgw, Hout.
Qed.

(** The two outcomes of [start]. *)
Lemma start_structured_interview_cases gw now token config e :
  (∃ reply,
     gw (ChatRequest "gpt-3.5-turbo"
           [build_system_prompt config; user_msg (initial_prompt config)] 200) = Some reply ∧
     stdout_accepts ("AI Response: " +:+ extract_question marker_question_1 (strip reply))
       = true ∧
     start_structured_interview gw now token config e =
       (store_session token (started_session now config (strip reply)) e,
        Returned (strip reply))) ∨
  (∃ x,
     start_structured_interview gw now token config e =
       ((initialize_interview_session now token config e).1, Raised x)).
Proof.
  destruct (gw (ChatRequest "gpt-3.5-turbo"
                  [build_system_prompt config; user_msg (initial_prompt config)] 200))
    as [reply|] eqn:Hgw.
  - destruct (stdout_accepts
                ("AI Response: " +:+ extract_question marker_question_1 (strip reply)))
      eqn:Hout.
    + left. exists reply. split; [done|]. split; [done|].
      by rewrite (start_structured_interview_reply _ _ _ _ _ _ Hgw Hout).
    + right. eexists. by apply start_structured_interview_unprinted with reply.
  - right. eexists. by apply start_structured_interview_failure.
Qed.

(** The non-terminal branch of [process_answer_and_get_next]. *)
Lemma process_answer_next_question gw now token answer e s n reply :
  get_interview_session token e = Some s →
  is_complete s = false →
  max_questions_of s = Returned n →
  actual_questions_asked s < n →
  forallb stdout_accepts (printed_lines (actual_questions s) answer (actual_questions_asked s))
    = true →
  gw (ChatRequest "gpt-3.5-turbo"
        (chat_history s ++
           [user_msg answer;
            system_msg (next_question_prompt (config s) answer (actual_questions_asked s)
                          (actual_questions_asked s + 1) n)]) 200) = Some reply →
  process_answer_and_get_next gw now token answer e =
    (store_session token
       {| config := config s;
          system_prompt := system_prompt s;
          chat_history := chat_history s ++ [assistant_msg (strip reply)];
          actual_questions_asked := actual_questions_asked s + 1;
          actual_questions :=
            actual_questions s ++
              [extract_question (marker_question (actual_questions_asked s + 1)) (strip reply)];
          answers := answers s ++ [answer];
          ratings := ratings s;
          is_complete := false;
          current_state := current_state s;
          started_at := started_at s;
          final_summary := final_summary s;
          completed_at := completed_at s |} e,
     Returned (list_to_map
       [("response_text", JStr (strip reply));
        ("question_number", JInt (actual_questions_asked s + 1));
        ("is_complete", JBool false);
        ("questions_remaining", JInt (n - (actual_questions_asked s + 1)))])).
Proof.
  intros Hs Hc Hn Hlt Hout Hgw. unfold process_answer_and_get_next.
  rewrite Hs, Hc. unfold max_questions_of in Hn. rewrite Hn.
  cbn [config actual_questions_asked actual_questions chat_history append_answer
       set_questions_asked].
  destruct (Z.geb_spec (actual_questions_asked s) n) as [?|_]; [lia|].
  rewrite Hout, Hgw. simpl. rewrite !store_session_twice.
  unfold append_history, append_question, set_questions_asked, append_answer; simpl.
  by rewrite Hc.
Qed.

(** The non-terminal branch when a line cannot be printed or the
    service fails: the answer is stored and the counter moved, the
    question is not there. *)
Lemma process_answer_next_raised gw now token answer e s n :
  get_interview_session token e = Some s →
  is_complete s = false →
  max_questions_of s = Returned n →
  actual_questions_asked s < n →
  forallb stdout_accepts (printed_lines (actual_questions s) answer (actual_questions_asked s))
    = false ∨
  gw (ChatRequest "gpt-3.5-turbo"
        (chat_history s ++
           [user_msg answer;
            system_msg (next_question_prompt (config s) answer (actual_questions_asked s)
                          (actual_questions_asked s + 1) n)]) 200) = None →
  ∃ x,
    process_answer_and_get_next gw now token answer e =
      (store_session token
         (set_questions_asked (actual_questions_asked s + 1) (append_answer answer s)) e,
       Raised x).
Proof.
  intros Hs Hc Hn Hlt Hfail. unfold process_answer_and_get_next.
  rewrite Hs, Hc. unfold max_questions_of in Hn. rewrite Hn.
  cbn [config actual_questions_asked actual_questions chat_history append_answer
       set_questions_asked].
  destruct (Z.geb_spec (actual_questions_asked s) n) as [?|_]; [lia|].
  rewrite store_session_twice.
  destruct (forallb stdout_accepts _) eqn:Hout; simpl; [|by eexists].
  destruct Hfail as [Hfail|Hgw]; [done|]. rewrite Hgw. by eexists.
Qed.

(** A finished interview rejects further answers and is left as it is. *)
Lemma process_answer_complete gw now token answer e s :
  get_interview_session token e = Some s →
  is_complete s = true →
  process_answer_and_get_next gw now token answer e =
    (e, Returned (error_dict "Interview already complete")).
Proof. intros Hs Hc. unfold process_answer_and_get_next. by rewrite Hs, Hc. Qed.

End EngineProperties.

Section LogProperties.
Context `{PyRuntime}.

Lemma interview_entry_at_Some s i q :
  actual_questions s !! i = Some q →
  interview_entry_at s i =
    Some (InterviewEntry (Z.of_nat i + 1) q (answers s !! i) (ratings s !! i)).
Proof. intros Hq. unfold interview_entry_at. by rewrite Hq. Qed.

Lemma interview_entry_at_None s i :
  actual_questions s !! i = None → interview_entry_at s i = None.
Proof. intros Hq. unfold interview_entry_at. by rewrite Hq. Qed.

(** With a question for every index below the counter the array is
    built: one entry per index, answer and rating [None] where the list
    is too short. *)
Lemma build_interview_Some s :
  (Z.to_nat (actual_questions_asked s) ≤ length (actual_questions s))%nat →
  ∃ entries,
    build_interview s = Some entries ∧
    length entries = Z.to_nat (actual_questions_asked s) ∧
    ∀ i, (i < Z.to_nat (actual_questions_asked s))%nat →
      ∃ q, actual_questions s !! i = Some q ∧
           entries !! i =
             Some (InterviewEntry (Z.of_nat i + 1) q (answers s !! i) (ratings s !! i)).
Proof.
  intros Hlen. unfold build_interview.
  set (n := Z.to_nat (actual_questions_asked s)) in *.
  assert (Hsome : is_Some (mapM (interview_entry_at s) (seq 0 n))).
  { apply mapM_is_Some, Forall_forall. intros i Hi.
    apply elem_of_seq in Hi. simpl.
    destruct (lookup_lt_is_Some_2 (actual_questions s) i) as [q Hq]; [lia|].
    rewrite (interview_entry_at_Some _ _ _ Hq). eauto. }
  destruct Hsome as [entries Hentries]. exists entries.
  split; [done|].
  pose proof (length_mapM _ _ _ Hentries) as Hl. rewrite length_seq in Hl.
  split; [done|].
  intros i Hi.
  destruct (lookup_lt_is_Some_2 (actual_questions s) i) as [q Hq]; [lia|].
  exists q. split; [done|].
  apply mapM_Some in Hentries.
  destruct (lookup_lt_is_Some_2 entries i) as [x Hx]; [lia|].
  assert (Hseq : seq 0 n !! i = Some i) by (by apply lookup_seq).
  pose proof (Forall2_lookup_lr _ _ _ _ _ _ Hentries Hseq Hx) as Hf.
  simpl in Hf. rewrite (interview_entry_at_Some _ _ _ Hq) in Hf. by rewrite Hx, Hf.
Qed.

(** A counter past the end of the question list is an [IndexError]. *)
Lemma build_interview_None s :
  (length (actual_questions s) < Z.to_nat (actual_questions_asked s))%nat →
  build_interview s = None.
Proof.
  intros Hlen. unfold build_interview.
  apply mapM_None_2, Exists_exists.
  exists (length (actual_questions s)). split.
  - apply elem_of_seq. lia.
  - by apply interview_entry_at_None, lookup_ge_None_2.
Qed.

Lemma save_interview_log_sessions token s e :
  interview_sessions (save_interview_log token s e).1 = interview_sessions e.
Proof.
  unfold save_interview_log.
  destruct (safe_name (config s)); [|done].
  by destruct (build_interview s).
Qed.


End LogProperties.

Section FinishProperties.
Context `{PyRuntime}.

#[local] Opaque build_system_prompt initial_prompt next_question_prompt final_summary_prompt.
#[local] Opaque strip extract_question.

(** [generate_final_summary] after a reply that [json.loads] takes or
    rejects with [JSONDecodeError], up to the log write. *)
Lemma generate_final_summary_reply gw now token final_answer e s reply v :
  get_interview_session token e = Some s →
  gw (ChatRequest "gpt-3.5-turbo"
        (chat_history s ++
           [user_msg final_answer; system_msg (final_summary_prompt s final_answer)]) 300)
    = Some reply →
  parse_summary (strip reply) = Returned v →
  let s' := mark_complete v now s in
  let logged := save_interview_log token s' (store_session token s' e) in
  generate_final_summary gw now token final_answer e =
    (logged.1,
     match logged.2 with
     | Raised x => Raised x
     | Returned _ => Returned (finish_payload s (strip reply))
     end).
Proof.
  intros Hs Hgw Hv. simpl. unfold generate_final_summary. rewrite Hs, Hgw, Hv.
  by destruct (save_interview_log _ _ _) as [e2 [[]|x]].
Qed.

Lemma generate_final_summary_sessions gw now token final_answer e s reply v :
  get_interview_session token e = Some s →
  gw (ChatRequest "gpt-3.5-turbo"
        (chat_history s ++
           [user_msg final_answer; system_msg (final_summary_prompt s final_answer)]) 300)
    = Some reply →
  parse_summary (strip reply) = Returned v →
  interview_sessions (generate_final_summary gw now token final_answer e).1 =
    <[token := mark_complete v now s]> (interview_sessions e).
Proof.
  intros Hs Hgw Hv. rewrite (generate_final_summary_reply _ _ _ _ _ _ _ _ Hs Hgw Hv). simpl.
  by rewrite save_interview_log_sessions.
Qed.

Lemma generate_final_summary_failure gw now token final_answer e s :
  get_interview_session token e = Some s →
  gw (ChatRequest "gpt-3.5-turbo"
        (chat_history s ++
           [user_msg final_answer; system_msg (final_summary_prompt s final_answer)]) 300)
    = None →
  generate_final_summary gw now token final_answer e = (e, Raised APIError).
Proof. intros Hs Hgw. unfold generate_final_summary. by rewrite Hs, Hgw. Qed.

(** An exception of [json.loads] that is not [JSONDecodeError] leaves
    [generate_final_summary] before the session is closed. *)
Lemma generate_final_summary_unparsed gw now token final_answer e s reply x :
  get_interview_session token e = Some s →
  gw (ChatRequest "gpt-3.5-turbo"
        (chat_history s ++
           [user_msg final_answer; system_msg (final_summary_prompt s final_answer)]) 300)
    = Some reply →
  parse_summary (strip reply) = Raised x →
  generate_final_summary gw now token final_answer e = (e, Raised x).
Proof. intros Hs Hgw Hv. unfold generate_final_summary. by rewrite Hs, Hgw, Hv. Qed.

(** The outcomes of [generate_final_summary] on a stored session: a
    raise that leaves the engine as it was, or the session closed and
    the log write tried. *)
Lemma generate_final_summary_cases gw now token final_answer e s :
  get_interview_session token e = Some s →
  (∃ x, generate_final_summary gw now token final_answer e = (e, Raised x)) ∨
  (∃ reply v,
     gw (ChatRequest "gpt-3.5-turbo"
           (chat_history s ++
              [user_msg final_answer; system_msg (final_summary_prompt s final_answer)]) 300)
       = Some reply ∧
     parse_summary (strip reply) = Returned v ∧
     generate_final_summary gw now token final_answer e =
       ((save_interview_log token (mark_complete v now s)
           (store_session token (mark_complete v now s) e)).1,
        match (save_interview_log token (mark_complete v now s)
                 (store_session token (mark_complete v now s) e)).2 with
        | Raised x => Raised x
        | Returned _ => Returned (finish_payload s (strip reply))
        end)).
Proof.
  intros Hs.
  destruct (gw (ChatRequest "gpt-3.5-turbo"
                  (chat_history s ++
                     [user_msg final_answer; system_msg (final_summary_prompt s final_answer)])
                  300))
    as [reply|] eqn:Hgw.
  - destruct (parse_summary (strip reply)) as [v|x] eqn:Hv.
    + right. exists reply, v. split; [done|]. split; [done|].
      by apply generate_final_summary_reply.
    + left. exists x. by apply generate_final_summary_unparsed with s reply.
  - left. eexists. by apply generate_final_summary_failure with s.
Qed.

(** The terminal branch of [process_answer_and_get_next]: the answer is
    stored, then [generate_final_summary] runs on the stored session. *)
Lemma process_answer_final gw now token answer e s n :
  get_interview_session token e = Some s →
  is_complete s = false →
  max_questions_of s = Returned n →
  n ≤ actual_questions_asked s →
  process_answer_and_get_next gw now token answer e =
    generate_final_summary gw now token answer (store_session token (append_answer answer s) e).
Proof.
  intros Hs Hc Hn Hle. unfold process_answer_and_get_next.
  rewrite Hs, Hc. unfold max_questions_of in Hn. rewrite Hn. simpl.
  by destruct (Z.geb_spec (actual_questions_asked s) n) as [_|?]; [|lia].
Qed.

Lemma process_answer_missing gw now token answer e :
  get_interview_session token e = None →
  process_answer_and_get_next gw now token answer e =
    (e, Returned (error_dict "Session not found")).
Proof. intros Hs. unfold process_answer_and_get_next. by rewrite Hs. Qed.

Lemma process_answer_bad_count gw now token answer e s x :
  get_interview_session token e = Some s →
  is_complete s = false →
  max_questions_of s = Raised x →
  process_answer_and_get_next gw now token answer e = (e, Raised x).
Proof.
  intros Hs Hc Hn. unfold process_answer_and_get_next.
  rewrite Hs, Hc. unfold max_questions_of in Hn. by rewrite Hn.
Qed.

End FinishProperties.

Section Invariant.
Context `{PyRuntime}.

#[local] Opaque build_system_prompt initial_prompt next_question_prompt final_summary_prompt.
#[local] Opaque strip extract_question.

Lemma get_session_stored token s e :
  get_interview_session token (store_session token s e) = Some s.
Proof. unfold get_interview_session. rewrite lookup_store_session. by case_decide. Qed.

(** The outcomes of [process_answer_and_get_next] on an open session.
    Below the limit: the next question stored, or a raise (a line that
    cannot be printed, a failed call) with the answer stored and the
    counter moved.  At the limit: a raise (a failed call, an exception
    of [json.loads]) with the answer stored, or the session closed and
    the log write tried. *)
Lemma process_answer_open gw now token answer e s n :
  get_interview_session token e = Some s →
  is_complete s = false →
  max_questions_of s = Returned n →
  (actual_questions_asked s < n ∧
   ((∃ reply,
       process_answer_and_get_next gw now token answer e =
         (store_session token
            {| config := config s;
               system_prompt := system_prompt s;
               chat_history := chat_history s ++ [assistant_msg (strip reply)];
               actual_questions_asked := actual_questions_asked s + 1;
               actual_questions :=
                 actual_questions s ++
                   [extract_question (marker_question (actual_questions_asked s + 1))
                      (strip reply)];
               answers := answers s ++ [answer];
               ratings := ratings s;
               is_complete := false;
               current_state := current_state s;
               started_at := started_at s;
               final_summary := final_summary s;
               completed_at := completed_at s |} e,
          Returned (list_to_map
            [("response_text", JStr (strip reply));
             ("question_number", JInt (actual_questions_asked s + 1));
             ("is_complete", JBool false);
             ("questions_remaining", JInt (n - (actual_questions_asked s + 1)))]))) ∨
    (∃ x,
       process_answer_and_get_next gw now token answer e =
         (store_session token
            (set_questions_asked (actual_questions_asked s + 1) (append_answer answer s)) e,
          Raised x)))) ∨
  (n ≤ actual_questions_asked s ∧
   ((∃ x,
       process_answer_and_get_next gw now token answer e =
         (store_session token (append_answer answer s) e, Raised x)) ∨
    (∃ reply v,
       let s' := mark_complete v now (append_answer answer s) in
       let logged := save_interview_log token s' (store_session token s' e) in
       parse_summary (strip reply) = Returned v ∧
       process_answer_and_get_next gw now token answer e =
         (logged.1,
          match logged.2 with
          | Raised x => Raised x
          | Returned _ => Returned (finish_payload (append_answer answer s) (strip reply))
          end)))).
Proof.
  intros Hs Hc Hn.
  destruct (Z.lt_ge_cases (actual_questions_asked s) n) as [Hlt|Hge]; [left|right];
    (split; [done|]).
  - destruct (forallb stdout_accepts
                (printed_lines (actual_questions s) answer (actual_questions_asked s)))
      eqn:Hout;
      [|right; by apply (process_answer_next_raised _ _ _ _ _ _ _ Hs Hc Hn Hlt); left].
    destruct (gw (ChatRequest "gpt-3.5-turbo"
                    (chat_history s ++
                       [user_msg answer;
                        system_msg (next_question_prompt (config s) answer
                                      (actual_questions_asked s)
                                      (actual_questions_asked s + 1) n)]) 200))
      as [reply|] eqn:Hgw;
      [|right; by apply (process_answer_next_raised _ _ _ _ _ _ _ Hs Hc Hn Hlt); right].
    left. exists reply. by apply process_answer_next_question.
  - rewrite (process_answer_final _ _ _ _ _ _ _ Hs Hc Hn Hge).
    pose proof (get_session_stored token (append_answer answer s) e) as Hs1.
    destruct (generate_final_summary_cases gw now token answer _ _ Hs1)
      as [[x Hr]|(reply & v & _ & Hv & Hr)].
    + left. by exists x.
    + right. exists reply, v. simpl. split; [done|].
      rewrite Hr. by rewrite !store_session_twice.
Qed.

Lemma started_session_consistent now config reply :
  session_consistent (started_session now config reply).
Proof. repeat split; simpl; intros; lia. Qed.

(** An operation that returns keeps the sessions consistent. *)
Lemma engine_step_consistent e op :
  op_returns e op = true → sessions_consistent e → sessions_consistent (engine_step e op).
Proof.
  intros Hret Hinv t s'.
  destruct op as [gw now token cfg|gw now token answer|token|token]; simpl in *.
  - destruct (start_structured_interview_cases gw now token cfg e)
      as [(reply & _ & _ & Hr)|[x Hr]]; rewrite Hr in *; [|done]. simpl.
    rewrite lookup_insert. case_decide; [|apply Hinv].
    intros [= <-]. apply started_session_consistent.
  - destruct (get_interview_session token e) as [s|] eqn:Hs;
      [|rewrite (process_answer_missing _ _ _ _ _ Hs); apply Hinv].
    destruct (is_complete s) eqn:Hc;
      [rewrite (process_answer_complete _ _ _ _ _ _ Hs Hc); apply Hinv|].
    destruct (max_questions_of s) as [n|x] eqn:Hn;
      [|rewrite (process_answer_bad_count _ _ _ _ _ _ _ Hs Hc Hn); apply Hinv].
    destruct (Hinv _ _ Hs) as (Hq & Ha & Hmax). rewrite Hc in Ha.
    destruct (process_answer_open gw now token answer e s n Hs Hc Hn)
      as [[Hlt [[reply Hr]|[x Hr]]]|[Hge [[x Hr]|(reply & v & _ & Hr)]]];
      rewrite Hr in *; try done; simpl.
    + rewrite lookup_insert. case_decide; [|apply Hinv].
      intros [= <-]. unfold session_consistent, max_questions_of; simpl.
      rewrite !length_app; simpl. split; [lia|]. split; [lia|].
      intros n' Hn'. unfold max_questions_of in Hn. rewrite Hn in Hn'.
      injection Hn' as <-. lia.
    + rewrite save_interview_log_sessions. simpl.
      rewrite lookup_insert. case_decide; [|apply Hinv].
      intros [= <-]. unfold session_consistent, max_questions_of; simpl.
      rewrite !length_app; simpl. split; [lia|]. split; [lia|]. apply Hmax.
  - apply Hinv.
  - rewrite lookup_delete. case_decide; [done|apply Hinv].
Qed.

(** X24.  An answer that the standard output cannot take (or whose
    announcement, or the list of questions, it cannot take) raises
    [UnicodeEncodeError] below the limit, whatever the service would
    have replied: the answer is stored and the counter moved, while the
    questions, the transcript and the logs are as before. *)
Theorem unprintable_answer_moves_counter gw now token answer e s n :
  get_interview_session token e = Some s →
  is_complete s = false →
  max_questions_of s = Returned n →
  actual_questions_asked s < n →
  forallb stdout_accepts (printed_lines (actual_questions s) answer (actual_questions_asked s))
    = false →
  process_answer_and_get_next gw now token answer e =
    (Engine
       (<[token :=
            {| config := config s;
               system_prompt := system_prompt s;
               chat_history := chat_history s;
               actual_questions_asked := actual_questions_asked s + 1;
               actual_questions := actual_questions s;
               answers := answers s ++ [answer];
               ratings := ratings s;
               is_complete := false;
               current_state := current_state s;
               started_at := started_at s;
               final_summary := final_summary s;
               completed_at := completed_at s |}]> (interview_sessions e))
       (interview_logs e),
     Raised UnicodeEncodeError).
Proof.
  intros Hs Hc Hn Hlt Hout. unfold process_answer_and_get_next.
  rewrite Hs, Hc. unfold max_questions_of in Hn. rewrite Hn.
  cbn [config actual_questions_asked actual_questions chat_history append_answer
       set_questions_asked].
  destruct (Z.geb_spec (actual_questions_asked s) n) as [?|_]; [lia|].
  rewrite Hout. simpl. unfold store_session, set_questions_asked, append_answer; simpl.
  rewrite insert_insert_eq. by rewrite ?Hc.
Qed.

(** X25.  When [json.loads] raises on the reply of the summary call
    anything but [JSONDecodeError], the answer to the last question is
    stored and the exception leaves [submitAnswer]: the session is not
    closed, its counter, questions and transcript are as before, and no
    log is written. *)
Theorem final_answer_survives_json_raise gw now token answer e s n reply x :
  get_interview_session token e = Some s →
  is_complete s = false →
  max_questions_of s = Returned n →
  n ≤ actual_questions_asked s →
  gw (ChatRequest "gpt-3.5-turbo"
        (chat_history s ++
           [user_msg answer;
            system_msg (final_summary_prompt (append_answer answer s) answer)]) 300)
    = Some reply →
  json_loads (strip reply) = JsonRaised x →
  process_answer_and_get_next gw now token answer e =
    (Engine
       (<[token :=
            {| config := config s;
               system_prompt := system_prompt s;
               chat_history := chat_history s;
               actual_questions_asked := actual_questions_asked s;
               actual_questions := actual_questions s;
               answers := answers s ++ [answer];
               ratings := ratings s;
               is_complete := false;
               current_state := current_state s;
               started_at := started_at s;
               final_summary := final_summary s;
               completed_at := completed_at s |}]> (interview_sessions e))
       (interview_logs e),
     Raised x).
Proof.
  intros Hs Hc Hn Hge Hgw Hjson.
  rewrite (process_answer_final _ _ _ _ _ _ _ Hs Hc Hn Hge).
  pose proof (get_session_stored token (append_answer answer s) e) as Hs1.
  assert (Hv : parse_summary (strip reply) = Raised x).
  { unfold parse_summary. by rewrite Hjson. }
  rewrite (generate_final_summary_unparsed _ _ _ _ _ _ _ _ Hs1 Hgw Hv).
  unfold store_session, append_answer; simpl. by rewrite ?Hc.
Qed.

Lemma run_engine_consistent ops e :
  run_returns ops e = true → sessions_consistent e → sessions_consistent (run_engine ops e).
Proof.
  revert e. induction ops as [|op ops IH]; intros e Hret Hinv; [done|].
  simpl in *. apply andb_prop in Hret as [Hop Hops].
  apply IH; [done|]. by apply engine_step_consistent.
Qed.

End Invariant.

Section EngineSpecification.
Context `{PyRuntime}.

#[local] Opaque build_system_prompt initial_prompt next_question_prompt final_summary_prompt.
#[local] Opaque strip extract_question.

(** X23.  For a session that exists, is not complete and whose counter
    is below the configured number of questions, once the lines are
    printed and the service replies, [submitAnswer] appends the answer
    to the answers, sets [actual_questions_asked] to one more, appends
    the extracted next question to the questions and the reply, alone,
    to the stored transcript, leaves the logs, and returns the reply
    text, the question number, [is_complete = False] and the number of
    questions left. *)
Theorem submit_answer_effect gw now token answer e s n reply :
  get_interview_session token e = Some s →
  is_complete s = false →
  max_questions_of s = Returned n →
  actual_questions_asked s < n →
  forallb stdout_accepts (printed_lines (actual_questions s) answer (actual_questions_asked s))
    = true →
  gw (ChatRequest "gpt-3.5-turbo"
        (chat_history s ++
           [user_msg answer;
            system_msg (next_question_prompt (config s) answer (actual_questions_asked s)
                          (actual_questions_asked s + 1) n)]) 200) = Some reply →
  let r := process_answer_and_get_next gw now token answer e in
  ∃ s',
    interview_sessions r.1 = <[token := s']> (interview_sessions e) ∧
    interview_logs r.1 = interview_logs e ∧
    answers s' = answers s ++ [answer] ∧
    actual_questions_asked s' = actual_questions_asked s + 1 ∧
    actual_questions s' =
      actual_questions s ++
        [extract_question (marker_question (actual_questions_asked s + 1)) (strip reply)] ∧
    chat_history s' = chat_history s ++ [assistant_msg (strip reply)] ∧
    is_complete s' = false ∧
    config s' = config s ∧
    r.2 = Returned (list_to_map
            [("response_text", JStr (strip reply));
             ("question_number", JInt (actual_questions_asked s + 1));
             ("is_complete", JBool false);
             ("questions_remaining", JInt (n - (actual_questions_asked s + 1)))]).
Proof.
  intros Hs Hc Hn Hlt Hout Hgw r. subst r.
  rewrite (process_answer_next_question _ _ _ _ _ _ _ _ Hs Hc Hn Hlt Hout Hgw). simpl.
  eexists. split; [done|]. by repeat split.
Qed.

(** An accepted answer: the session after a call of
    [process_answer_and_get_next] that found the interview open and
    returned. *)
Lemma process_answer_accepted gw now token answer e s n :
  get_interview_session token e = Some s →
  is_complete s = false →
  max_questions_of s = Returned n →
  returned (process_answer_and_get_next gw now token answer e).2 = true →
  ∃ s',
    interview_sessions (process_answer_and_get_next gw now token answer e).1 !! token = Some s' ∧
    answers s' = answers s ++ [answer] ∧
    actual_questions_asked s' =
      (if actual_questions_asked s <? n then actual_questions_asked s + 1
       else actual_questions_asked s) ∧
    is_complete s' = negb (actual_questions_asked s <? n).
Proof.
  intros Hs Hc Hn Hret.
  destruct (process_answer_open gw now token answer e s n Hs Hc Hn)
    as [[Hlt [[reply Hr]|[x Hr]]]|[Hge [[x Hr]|(reply & v & _ & Hr)]]];
    rewrite Hr in *; try done; simpl.
  - rewrite lookup_insert_eq. eexists. split; [done|]. simpl.
    destruct (Z.ltb_spec (actual_questions_asked s) n); [done|lia].
  - rewrite save_interview_log_sessions. simpl.
    rewrite lookup_insert_eq. eexists. split; [done|]. simpl.
    destruct (Z.ltb_spec (actual_questions_asked s) n); [lia|done].
Qed.

(** C5 (amended).  In a run of [start], [submitAnswer] (with [finish] as
    its terminal branch), [progress] and [reset] in which no call
    raised, every session satisfies [len(answers) <=
    len(actual_questions) = actual_questions_asked], and
    [actual_questions_asked <= num_questions] when that is a positive
    integer.  An answer submitted to an open session by a call that
    returns is appended; it moves the counter by exactly one while the
    counter is below [num_questions], and otherwise leaves the counter
    and closes the session.  A closed session rejects [submitAnswer]
    with the whole state unchanged. *)
Theorem interview_session_invariant ops e0 token s :
  interview_sessions e0 = ∅ →
  run_returns ops e0 = true →
  interview_sessions (run_engine ops e0) !! token = Some s →
  (length (answers s) ≤ length (actual_questions s))%nat ∧
  Z.of_nat (length (actual_questions s)) = actual_questions_asked s ∧
  (∀ n, max_questions_of s = Returned n → 1 ≤ n → actual_questions_asked s ≤ n) ∧
  (∀ gw now answer n,
     is_complete s = false → max_questions_of s = Returned n →
     returned (process_answer_and_get_next gw now token answer (run_engine ops e0)).2 = true →
     ∃ s',
       interview_sessions (engine_step (run_engine ops e0) (OpSubmit gw now token answer))
         !! token = Some s' ∧
       answers s' = answers s ++ [answer] ∧
       actual_questions_asked s' =
         (if actual_questions_asked s <? n then actual_questions_asked s + 1
          else actual_questions_asked s) ∧
       is_complete s' = negb (actual_questions_asked s <? n)) ∧
  (is_complete s = true →
     ∀ gw now answer,
       process_answer_and_get_next gw now token answer (run_engine ops e0) =
         (run_engine ops e0, Returned (error_dict "Interview already complete"))).
Proof.
  intros Hempty Hops Hs.
  assert (Hinv : sessions_consistent (run_engine ops e0)).
  { apply run_engine_consistent; [done|]. intros t s0. by rewrite Hempty, lookup_empty. }
  destruct (Hinv _ _ Hs) as (Hq & Ha & Hmax).
  split; [destruct (is_complete s); lia|].
  split; [done|]. split; [intros n Hn Hpos; specialize (Hmax n Hn); lia|]. split.
  - intros gw now answer n Hc Hn Hret. simpl.
    by apply process_answer_accepted.
  - intros Hc gw now answer.
    by apply (process_answer_complete _ _ _ _ _ s).
Qed.


(** C9.  [reset] removes the session of the token, and a [start] that
    follows, once the service replies and the question is printed,
    stores the session of a first start: counter 1, no answer, the one
    question extracted from the reply, and a transcript of exactly the
    system prompt, the initial instruction and the reply.  (When the
    question cannot be printed the call raises and leaves the
    initialised session: counter 0, no question, the system prompt
    alone.)  Either way it is the session, and the result, that [start]
    gives on an engine that never saw the token, and the other tokens
    keep their sessions. *)
Theorem reset_then_start_is_fresh gw now token config e reply :
  gw (ChatRequest "gpt-3.5-turbo" [build_system_prompt config; user_msg (initial_prompt config)] 200)
    = Some reply →
  let e0 := reset_interview token e in
  let r := start_structured_interview gw now token config e0 in
  let printed :=
    stdout_accepts ("AI Response: " +:+ extract_question marker_question_1 (strip reply)) in
  get_interview_session token e0 = None ∧
  r.2 = (if printed then Returned (strip reply) else Raised UnicodeEncodeError) ∧
  get_interview_session token r.1 =
    Some (if printed then
            {| config := config;
               system_prompt := build_system_prompt config;
               chat_history := [build_system_prompt config; user_msg (initial_prompt config);
                                assistant_msg (strip reply)];
               actual_questions_asked := 1;
               actual_questions := [extract_question marker_question_1 (strip reply)];
               answers := [];
               ratings := [];
               is_complete := false;
               current_state := questioning;
               started_at := now;
               final_summary := None;
               completed_at := None |}
          else
            {| config := config;
               system_prompt := build_system_prompt config;
               chat_history := [build_system_prompt config];
               actual_questions_asked := 0;
               actual_questions := [];
               answers := [];
               ratings := [];
               is_complete := false;
               current_state := greeting;
               started_at := now;
               final_summary := None;
               completed_at := None |}) ∧
  get_interview_session token r.1 =
    get_interview_session token
      (start_structured_interview gw now token config (Engine ∅ (interview_logs e))).1 ∧
  r.2 = (start_structured_interview gw now token config (Engine ∅ (interview_logs e))).2 ∧
  (∀ t, t ≠ token → get_interview_session t r.1 = get_interview_session t e).
Proof.
  intros Hgw e0 r printed. subst e0 r printed.
  split; [unfold get_interview_session, reset_interview; simpl; apply lookup_delete_eq|].
  destruct (stdout_accepts
              ("AI Response: " +:+ extract_question marker_question_1 (strip reply)))
    eqn:Hout.
  - rewrite !(start_structured_interview_reply _ _ _ _ _ _ Hgw Hout).
    unfold get_interview_session, reset_interview; simpl.
    rewrite !lookup_insert_eq.
    do 4 (split; [done|]).
    intros t Hne. by rewrite lookup_insert_ne, lookup_delete_ne.
  - rewrite !(start_structured_interview_unprinted _ _ _ _ _ _ Hgw Hout).
    unfold get_interview_session, reset_interview, initialize_interview_session; simpl.
    rewrite !lookup_insert_eq.
    do 4 (split; [done|]).
    intros t Hne. by rewrite lookup_insert_ne, lookup_delete_ne.
Qed.

End EngineSpecification.

Section StageProperties.
Context `{PyRuntime}.

Lemma get_or_create_session_state_eq token w :
  get_or_create_session_state token w =
    (set_states (<[token := state_of token w]> (states w)) w, state_of token w).
Proof.
  unfold get_or_create_session_state, state_of.
  destruct (states w !! token) as [st|] eqn:Hst; simpl; [|done].
  rewrite insert_id by done. by destruct w.
Qed.

Lemma load_test_config_states token w : states (load_test_config token w).1 = states w.
Proof. unfold load_test_config. by repeat case_match. Qed.

Lemma stages_bounded_insert m t st :
  stages_bounded m → 1 ≤ current_stage st ≤ 3 → stages_bounded (<[t := st]> m).
Proof.
  intros Hm Hst t' st'. rewrite lookup_insert. case_decide; [|apply Hm].
  by intros [= <-].
Qed.

Lemma state_of_bounded token w :
  stages_bounded (states w) → 1 ≤ current_stage (state_of token w) ≤ 3.
Proof.
  intros Hw. unfold state_of. destruct (states w !! token) as [st|] eqn:Hst; simpl.
  - by apply (Hw token).
  - lia.
Qed.

(** The stage after an update: one more than the stage of the request
    when that is 1 or 2 and the status is ['complete'], the old one
    otherwise. *)
Lemma apply_stage_update_stage stage status st :
  current_stage (apply_stage_update stage status st) =
    match stage_number stage with
    | Some n =>
        if is_complete_status status && bool_decide (n = 1 ∨ n = 2) then n + 1
        else current_stage st
    | None => current_stage st
    end.
Proof.
  unfold apply_stage_update. destruct (stage_number stage) as [n|]; [|done].
  case_bool_decide as Hin.
  - destruct (is_complete_status status); simpl; [|done].
    rewrite !elem_of_cons, elem_of_nil in Hin.
    destruct (Z.ltb_spec n 3); case_bool_decide; simpl; try done; lia.
  - rewrite !elem_of_cons, elem_of_nil in Hin.
    destruct (is_complete_status status); simpl; [|done].
    case_bool_decide as Hor; [|done]. exfalso. apply Hin. destruct Hor; auto.
Qed.

Lemma apply_stage_update_bounded stage status st :
  1 ≤ current_stage st ≤ 3 → 1 ≤ current_stage (apply_stage_update stage status st) ≤ 3.
Proof.
  intros Hst. rewrite apply_stage_update_stage.
  destruct (stage_number stage) as [n|]; [|done].
  destruct (is_complete_status status); simpl; [|done].
  case_bool_decide; [lia|done].
Qed.

Lemma save_audio_states tts token q_num text w :
  states (save_audio tts token q_num text w).1 = states w.
Proof.
  unfold save_audio. destruct (tts text) as [audio|]; [|done].
  by destruct (String.eqb audio "").
Qed.

Ltac handler_states :=
  repeat first
    [ rewrite get_or_create_session_state_eq
    | progress simpl
    | match goal with
      | |- context [load_test_config ?t ?w] =>
          let Hs := fresh "Hstates" in
          pose proof (load_test_config_states t w) as Hs;
          destruct (load_test_config t w) as [? ?]; simpl in Hs
      | |- context [save_audio ?tts ?t ?q ?a ?w] =>
          let Hs := fresh "Hstates" in
          pose proof (save_audio_states tts t q a w) as Hs;
          destruct (save_audio tts t q a w) as [? ?]; simpl in Hs
      | |- context [match ?x with _ => _ end] =>
          lazymatch x with
          | context [match _ with _ => _ end] => fail
          | _ => destruct x eqn:?
          end
      end ].

Lemma stages_bounded_eq m m' : m' = m → stages_bounded m → stages_bounded m'.
Proof. by intros ->. Qed.

Ltac bounded_goal :=
  repeat match goal with
    | |- stages_bounded (<[_ := _]> _) => apply stages_bounded_insert
    | |- stages_bounded (states ?w) =>
        first [ assumption | eapply stages_bounded_eq; [eassumption|] ]
    | |- stages_bounded (<[_ := _]> _) => apply stages_bounded_insert
    | |- _ ≤ current_stage (state_of _ _) ≤ _ => apply state_of_bounded
    | |- _ ≤ current_stage (apply_stage_update _ _ _) ≤ _ => apply apply_stage_update_bounded
    | |- _ ≤ current_stage (set_terminated _) ≤ _ => unfold set_terminated; simpl
    | |- _ ≤ current_stage (terminate_state _ _ _) ≤ _ => unfold terminate_state; simpl
    end.

Lemma handle_stages_bounded w r :
  stages_bounded (states w) → stages_bounded (states (handle w r).1).
Proof.
  intros Hw.
  destruct r; unfold handle.
  - unfold create_test. handler_states; bounded_goal.
  - unfold start_interview. handler_states; bounded_goal.
  - unfold submit_text_answer. handler_states; bounded_goal.
  - unfold get_progress. handler_states; bounded_goal.
  - unfold reset_interview_endpoint. handler_states; bounded_goal.
  - unfold get_test_config. handler_states; bounded_goal.
  - unfold validate_stage_access. handler_states; bounded_goal.
  - unfold update_stage. handler_states; bounded_goal.
  - unfold record_violation. handler_states; bounded_goal.
  - unfold terminate_test. handler_states; bounded_goal.
  - unfold get_test_status. handler_states; bounded_goal.
Qed.

Lemma serve_stages_bounded rs w :
  stages_bounded (states w) → stages_bounded (states (serve rs w)).
Proof.
  revert w. induction rs as [|r rs IH]; intros w Hw; [done|].
  simpl. apply IH. by apply handle_stages_bounded.
Qed.

End StageProperties.

Section HandlerSpecification.
Context `{PyRuntime}.

Lemma apply_stage_update_flags stage status st :
  completed (apply_stage_update stage status st) =
    (completed st || (bool_decide (stage_number stage = Some 3) && is_complete_status status)) ∧
  terminated (apply_stage_update stage status st) = terminated st.
Proof.
  unfold apply_stage_update. destruct (stage_number stage) as [n|]; simpl;
    [|by rewrite orb_false_r].
  case_bool_decide as Hin; rewrite !elem_of_cons, elem_of_nil in Hin.
  - destruct (is_complete_status status); simpl;
      [|by rewrite andb_false_r, orb_false_r].
    rewrite andb_true_r.
    destruct (Z.ltb_spec n 3); simpl; case_bool_decide; simplify_eq;
      rewrite ?orb_false_r, ?orb_true_r; try done; try lia.
    exfalso. assert (n = 3) by lia. congruence.
  - case_bool_decide; simplify_eq; [|by rewrite orb_false_r].
    exfalso. apply Hin. auto.
Qed.

(** C3 (amended).  In every state the server reaches from an empty
    state table the stage of each token lies in 1..3.  An update-stage
    request whose status is ['complete'] sets [current_stage] to 2 when
    its stage is 1 and to 3 when its stage is 2, whatever the stage of
    the token was before, so the stage advances by exactly one only if
    the request names the current stage; completing stage 3 sets
    [completed] and leaves [current_stage] alone, and any other request
    changes neither. *)
Theorem update_stage_sets_stage rs w0 token data :
  states w0 = ∅ →
  let w := serve rs w0 in
  let st0 := state_of token w in
  (∀ t st, states w !! t = Some st → 1 ≤ current_stage st ≤ 3) ∧
  ∃ st',
    states (update_stage token data w).1 !! token = Some st' ∧
    current_stage st' =
      (if completes data 1 then 2 else if completes data 2 then 3 else current_stage st0) ∧
    completed st' = (completed st0 || completes data 3) ∧
    terminated st' = terminated st0.
Proof.
  intros Hempty w st0.
  assert (Hb : stages_bounded (states w)).
  { apply serve_stages_bounded. intros t st. by rewrite Hempty, lookup_empty. }
  split; [exact Hb|].
  unfold update_stage. rewrite get_or_create_session_state_eq. simpl.
  rewrite lookup_insert_eq. eexists. split; [done|].
  destruct (apply_stage_update_flags (dict_get data "stage") (dict_get data "status") st0)
    as [Hc Ht].
  split; [|by split].
  rewrite apply_stage_update_stage. unfold completes.
  destruct (stage_number (dict_get data "stage")) as [n|]; simpl.
  - destruct (is_complete_status (dict_get data "status")); simpl;
      repeat case_bool_decide; simplify_eq; try done; try lia;
      exfalso; intuition (subst; congruence).
  - by repeat case_bool_decide.
Qed.

(** C4 (amended).  [record] appends the violation, its timestamp being
    the one of the request or else the call time, and answers with the
    new number of violations of the token.  From the tenth on the state
    of the token has [terminated = True]; nothing else of the state
    changes, the termination reason and time stay what they were (absent
    for a token never terminated explicitly).  Below ten the state
    table is left as it is, so the call terminates nothing. *)
Theorem record_violation_counts now token data w :
  let r := record_violation now token data w in
  let recorded :=
    default [] (violations w !! token) ++
      [Violation (dict_get data "type")
                 (dict_get_or data "timestamp" (JStr (isoformat now)))
                 (dict_get_or data "details" (JStr ""))] in
  let count := Z.of_nat (length recorded) in
  let st0 := state_of token w in
  violations r.1 !! token = Some recorded ∧
  (∃ resp, r.2 = Returned resp ∧ status resp = 200 ∧
           body resp !! "violation_count" = Some (JInt count) ∧
           body resp !! "max_reached" = Some (JBool (count >=? 10))) ∧
  (if count >=? 10 then
     states r.1 !! token =
       Some (TokenState (current_stage st0) (stages st0) true (completed st0)
               (termination_reason st0) (terminated_at st0))
   else states r.1 = states w).
Proof.
  simpl. unfold record_violation.
  set (recorded := default [] (violations w !! token) ++ _).
  split.
  { destruct (Z.of_nat (length recorded) >=? 10); simpl.
    - rewrite get_or_create_session_state_eq. simpl. apply lookup_insert_eq.
    - apply lookup_insert_eq. }
  split.
  { eexists. split; [done|]. by repeat split. }
  destruct (Z.of_nat (length recorded) >=? 10); simpl; [|done].
  rewrite get_or_create_session_state_eq. simpl. apply lookup_insert_eq.
Qed.

Lemma load_test_config_state_of token t w :
  state_of t (load_test_config token w).1 = state_of t w.
Proof. unfold state_of. by rewrite load_test_config_states. Qed.

(** C7.  For a token whose configuration is known, [validateAccess]
    redirects to ['terminated'] when the session is terminated, else to
    ['feedback'] when it is completed, else to [current_stage] when the
    requested stage differs from it, below or above; it allows exactly
    when the session is neither terminated nor completed and the
    requested stage is the current one. *)
Theorem validate_stage_access_gate token stage w config :
  (load_test_config token w).2 = Some config →
  dict_truthy config = true →
  let st := state_of token w in
  let r := validate_stage_access token stage w in
  r.2 = Returned
    (if terminated st then redirect (JStr "terminated")
     else if completed st then redirect (JStr "feedback")
     else if stage =? current_stage st then
       jsonify (list_to_map [("allowed", JBool true);
                             ("token_state", token_state_json st);
                             ("session_data", dict_json config)])
     else redirect (JInt (current_stage st))) ∧
  ∃ resp, r.2 = Returned resp ∧
    (body resp !! "allowed" = Some (JBool true) ↔
     terminated st = false ∧ completed st = false ∧ stage = current_stage st).
Proof.
  intros Hload Htruthy st r. subst st r. unfold validate_stage_access.
  pose proof (load_test_config_state_of token token w) as Hst.
  destruct (load_test_config token w) as [w1 cfg]. simpl in Hload, Hst. subst cfg.
  rewrite Htruthy. simpl. rewrite get_or_create_session_state_eq. rewrite Hst.
  destruct (terminated (state_of token w)); simpl.
  { split; [done|]. eexists. split; [done|]. simpl. split; [done|]. by intros (? & _). }
  destruct (completed (state_of token w)); simpl.
  { split; [done|]. eexists. split; [done|]. simpl. split; [done|]. by intros (_ & ? & _). }
  destruct (Z.ltb_spec stage (current_stage (state_of token w))) as [Hlt|Hge].
  { destruct (Z.eqb_spec stage (current_stage (state_of token w))) as [?|_]; [lia|].
    split; [done|]. eexists. split; [done|]. simpl. split; [done|]. intros (_ & _ & ?). lia. }
  destruct (Z.gtb_spec stage (current_stage (state_of token w))) as [Hgt|Hle].
  { destruct (Z.eqb_spec stage (current_stage (state_of token w))) as [?|_]; [lia|].
    split; [done|]. eexists. split; [done|]. simpl. split; [done|]. intros (_ & _ & ?). lia. }
  destruct (Z.eqb_spec stage (current_stage (state_of token w))) as [_|?]; [|lia].
  split; [done|]. eexists. split; [done|]. simpl. split; [|done].
  intros _. repeat split. lia.
Qed.

(** [lstrip] empties a text of white space. *)
Lemma lstrip_whitespace_only s : whitespace_only s = true → lstrip s = "".
Proof.
  assert (Hn : ∀ n s, (String.length s ≤ n)%nat → whitespace_only s = true → lstrip s = "").
  { clear s. induction n as [|n IH]; intros s Hlen Hs.
    - destruct s; [done|simpl in Hlen; lia].
    - destruct s as [|c r]; [done|]. cbn [whitespace_only lstrip] in *.
      destruct (space1 c); [apply IH; [simpl in Hlen; lia|done]|].
      destruct r as [|d r']; [done|].
      destruct (space2 c d); [apply IH; [simpl in Hlen; lia|done]|].
      destruct r' as [|e r'']; [done|].
      apply andb_prop in Hs as [-> Hs]. apply IH; [simpl in Hlen; lia|done]. }
  by apply (Hn (String.length s)).
Qed.

Lemma strip_whitespace_only s : whitespace_only s = true → strip s = "".
Proof. intros Hs. unfold strip. by rewrite (lstrip_whitespace_only s Hs). Qed.

(** C10.  The submit-text endpoint looks for the interview session
    before it reads the request: without a session the answer is 404
    ['Interview not started'] whatever the body holds; with a session, a
    missing, empty or whitespace-only text is answered 400 ['No answer
    provided'], and in both cases the whole server state, the interview
    session included, is the one before the call. *)
Theorem submit_text_checks_session_first gw tts now token data w :
  (get_interview_session token (interview w) = None →
   submit_text_answer gw tts now token data w =
     (w, Returned (Response (error_dict "Interview not started") 404))) ∧
  (∀ s text,
     get_interview_session token (interview w) = Some s →
     dict_get_or data "text" (JStr "") = JStr text →
     whitespace_only text = true →
     submit_text_answer gw tts now token data w =
       (w, Returned (Response (error_dict "No answer provided") 400))).
Proof.
  split.
  - intros Hs. unfold submit_text_answer. by rewrite Hs.
  - intros s text Hs Htext Hws. unfold submit_text_answer, submitted_text.
    rewrite Hs, Htext. by rewrite (strip_whitespace_only _ Hws).
Qed.

(** When the mail cannot be sent [create_test] answers 201 with the
    token and the error, and returns before the configuration is built:
    no dictionary and no file changes. *)
Lemma create_test_mail_failure mail now token data w err :
  mail (dict_get data "email") token (dict_get_or data "name" (JStr "Candidate")) = Some err →
  create_test mail now token data w =
    (w, Returned (Response
           (list_to_map [("token", JStr token); ("email_sent", JBool false);
                         ("error", JStr err)]) 201)).
Proof. intros Hmail. unfold create_test. by rewrite Hmail. Qed.

(** The token of a failed [create_test] is unknown to the token store. *)
Lemma create_test_mail_failure_unknown mail now token data w err :
  mail (dict_get data "email") token (dict_get_or data "name" (JStr "Candidate")) = Some err →
  test_data_storage w !! token = None →
  uploads w !! upload_path token = None →
  (load_test_config token (create_test mail now token data w).1).2 = None.
Proof.
  intros Hmail Hmem Hdisk. rewrite (create_test_mail_failure _ _ _ _ _ _ Hmail). simpl.
  unfold load_test_config. by rewrite Hmem, Hdisk.
Qed.

End HandlerSpecification.

Section FurtherProperties.
Context `{PyRuntime}.

#[local] Opaque build_system_prompt initial_prompt next_question_prompt final_summary_prompt.
#[local] Opaque strip extract_question.

(** X1.  In a run in which no call raised the log array of every
    session can be built: it has exactly [actual_questions_asked]
    entries, and entry [i] carries question [i] with the answer and the
    rating of index [i] where the list has one and null where it is too
    short. *)
Theorem log_array_in_runs_without_raise ops e0 token s :
  interview_sessions e0 = ∅ →
  run_returns ops e0 = true →
  interview_sessions (run_engine ops e0) !! token = Some s →
  ∃ entries,
    build_interview s = Some entries ∧
    Z.of_nat (length entries) = actual_questions_asked s ∧
    ∀ i, (i < length entries)%nat →
      ∃ q, actual_questions s !! i = Some q ∧
           entries !! i =
             Some (InterviewEntry (Z.of_nat i + 1) q (answers s !! i) (ratings s !! i)).
Proof.
  intros Hempty Hops Hs.
  assert (Hinv : sessions_consistent (run_engine ops e0)).
  { apply run_engine_consistent; [done|]. intros t s0. by rewrite Hempty, lookup_empty. }
  destruct (Hinv _ _ Hs) as (Hq & _ & _).
  destruct (build_interview_Some s) as (entries & Hbuild & Hlen & Hentries); [lia|].
  exists entries. split; [done|]. split; [lia|].
  intros i Hi. apply Hentries. lia.
Qed.

(** X2.  When the mail is sent [create_test] builds the configuration
    with the integer question count of the request, writes it to the
    file of the token, caches it, and [loadConfig] returns it. *)
Theorem create_test_persists_config mail now token data w duration num_questions :
  mail (dict_get data "email") token (dict_get_or data "name" (JStr "Candidate")) = None →
  py_int (dict_get_or data "duration" (JInt 60)) = Returned duration →
  py_int (dict_get_or data "numQuestions" (JInt 5)) = Returned num_questions →
  let w' := (create_test mail now token data w).1 in
  ∃ config,
    test_data_storage w' !! token = Some config ∧
    uploads w' !! upload_path token = Some config ∧
    load_test_config token w' = (w', Some config) ∧
    config !! "num_questions" = Some (JInt num_questions) ∧
    config !! "token" = Some (JStr token).
Proof.
  intros Hmail Hd Hn. simpl. unfold create_test. rewrite Hmail, Hd, Hn.
  rewrite get_or_create_session_state_eq. simpl.
  eexists. split; [apply lookup_insert_eq|]. split; [apply lookup_insert_eq|].
  split; [|done].
  unfold load_test_config. simpl. by rewrite lookup_insert_eq.
Qed.

Lemma engine_step_counter_bounded e op :
  (∀ t s, interview_sessions e !! t = Some s → counter_bounded s) →
  ∀ t s, interview_sessions (engine_step e op) !! t = Some s → counter_bounded s.
Proof.
  intros Hinv t s'. destruct op as [gw now token cfg|gw now token answer|token|token]; simpl.
  - destruct (start_structured_interview_cases gw now token cfg e)
      as [(reply & _ & _ & Hr)|[x Hr]]; rewrite Hr; simpl.
    + rewrite lookup_insert. case_decide; [|apply Hinv].
      intros [= <-]. split; simpl; intros; lia.
    + rewrite lookup_insert. case_decide; [|apply Hinv].
      intros [= <-]. split; simpl; intros; lia.
  - destruct (get_interview_session token e) as [s|] eqn:Hs;
      [|rewrite (process_answer_missing _ _ _ _ _ Hs); apply Hinv].
    destruct (is_complete s) eqn:Hc;
      [rewrite (process_answer_complete _ _ _ _ _ _ Hs Hc); apply Hinv|].
    destruct (max_questions_of s) as [n|x] eqn:Hn;
      [|rewrite (process_answer_bad_count _ _ _ _ _ _ _ Hs Hc Hn); apply Hinv].
    destruct (Hinv _ _ Hs) as (Hq & Hmax).
    assert (Hn' : ∀ n', Returned n = Returned n' → n' = n) by (by intros n' [= ->]).
    destruct (process_answer_open gw now token answer e s n Hs Hc Hn)
      as [[Hlt [[reply Hr]|[x Hr]]]|[Hge [[x Hr]|(reply & v & _ & Hr)]]];
      rewrite Hr; simpl; rewrite ?save_interview_log_sessions; simpl;
      (rewrite lookup_insert; case_decide; [|apply Hinv]);
      intros [= <-]; unfold counter_bounded, max_questions_of in *; simpl;
      rewrite ?length_app; simpl; (split; [lia|]); try done;
      intros n' Hm; rewrite Hn in Hm; apply Hn' in Hm as ->; lia.
  - apply Hinv.
  - rewrite lookup_delete. case_decide; [done|apply Hinv].
Qed.

(** X3.  Whether the calls to the chat service succeed or fail, every
    session of a run of [start], [submitAnswer], [progress] and [reset]
    has at most [actual_questions_asked] stored questions and a counter
    of at most [max(1, num_questions)]. *)
Theorem counter_bounds_in_all_runs ops e0 token s :
  interview_sessions e0 = ∅ →
  interview_sessions (run_engine ops e0) !! token = Some s →
  Z.of_nat (length (actual_questions s)) ≤ actual_questions_asked s ∧
  (∀ n, max_questions_of s = Returned n → actual_questions_asked s ≤ Z.max 1 n).
Proof.
  intros Hempty.
  assert (Hinit : ∀ t s0, interview_sessions e0 !! t = Some s0 → counter_bounded s0).
  { intros t s0. by rewrite Hempty, lookup_empty. }
  clear Hempty. revert e0 Hinit.
  induction ops as [|op ops IH]; intros e0 Hinit Hs; [by apply (Hinit token)|].
  simpl in Hs. apply (IH (engine_step e0 op)); [|done].
  by apply engine_step_counter_bounded.
Qed.

End FurtherProperties.

(** ** One call and whole runs of the engine *)

Section SubmitShape.
Context `{PyRuntime}.

#[local] Opaque build_system_prompt initial_prompt next_question_prompt final_summary_prompt.
#[local] Opaque strip extract_question.

(** The session [submitAnswer] leaves, against the one it found, in
    each of its outcomes. *)
Lemma process_answer_session gw now token answer e s :
  get_interview_session token e = Some s →
  ∃ s',
    interview_sessions (process_answer_and_get_next gw now token answer e).1 =
      <[token := s']> (interview_sessions e) ∧
    submit_step now s s'.
Proof.
  intros Hs.
  assert (Hsame : interview_sessions e = <[token := s]> (interview_sessions e)).
  { symmetry. by apply insert_id. }
  assert (Hkeep : ∃ s',
    interview_sessions e = <[token := s']> (interview_sessions e) ∧ submit_step now s s').
  { exists s. split; [done|]. unfold submit_step. repeat split; auto. }
  destruct (is_complete s) eqn:Hc;
    [by rewrite (process_answer_complete _ _ _ _ _ _ Hs Hc)|].
  destruct (max_questions_of s) as [n|x] eqn:Hn;
    [|by rewrite (process_answer_bad_count _ _ _ _ _ _ _ Hs Hc Hn)].
  clear Hkeep Hsame.
  destruct (process_answer_open gw now token answer e s n Hs Hc Hn)
    as [[Hlt [[reply Hr]|[x Hr]]]|[Hge [[x Hr]|(reply & v & _ & Hr)]]];
    rewrite Hr; simpl; rewrite ?save_interview_log_sessions; simpl;
    (eexists; split; [done|]); unfold submit_step; simpl;
    repeat split; auto; try (by apply prefix_app_r).
  right. repeat split; eauto.
Qed.

End SubmitShape.

Section RunProperties.
Context `{PyRuntime}.

#[local] Opaque build_system_prompt initial_prompt next_question_prompt final_summary_prompt.
#[local] Opaque strip extract_question.

(** The session [start] stores, whatever its outcome. *)
Lemma start_structured_interview_sessions gw now token cfg e :
  ∃ s0,
    interview_sessions (start_structured_interview gw now token cfg e).1 =
      <[token := s0]> (interview_sessions e) ∧
    config s0 = cfg ∧ ratings s0 = [] ∧ answers s0 = [] ∧ is_complete s0 = false ∧
    current_state s0 ≠ complete ∧ final_summary s0 = None ∧ completed_at s0 = None.
Proof.
  destruct (start_structured_interview_cases gw now token cfg e)
    as [(reply & _ & _ & Hr)|[x Hr]]; rewrite Hr; simpl;
    (eexists; split; [done|]); by repeat split.
Qed.

Lemma start_structured_interview_logs gw now token cfg e :
  interview_logs (start_structured_interview gw now token cfg e).1 = interview_logs e.
Proof.
  by destruct (start_structured_interview_cases gw now token cfg e)
    as [(reply & _ & _ & Hr)|[x Hr]]; rewrite Hr.
Qed.

(** An operation on one token leaves the sessions of the others. *)
Lemma engine_step_other e op t :
  op_token op ≠ t →
  interview_sessions (engine_step e op) !! t = interview_sessions e !! t.
Proof.
  intros Hne. destruct op as [gw now token cfg|gw now token answer|token|token]; simpl in *.
  - destruct (start_structured_interview_sessions gw now token cfg e) as (s0 & -> & _).
    by rewrite lookup_insert_ne.
  - destruct (get_interview_session token e) as [s|] eqn:Hs;
      [|by rewrite (process_answer_missing _ _ _ _ _ Hs)].
    destruct (process_answer_session gw now token answer e s Hs) as (s' & -> & _).
    by rewrite lookup_insert_ne.
  - done.
  - by rewrite lookup_delete_ne.
Qed.

Lemma session_extends_refl s : session_extends s s.
Proof. by repeat split. Qed.

Lemma session_extends_trans s1 s2 s3 :
  session_extends s1 s2 → session_extends s2 s3 → session_extends s1 s3.
Proof.
  intros (Hc1 & Hp1 & Ht1 & Ha1 & Hq1 & Hh1 & Hn1 & Hf1)
         (Hc2 & Hp2 & Ht2 & Ha2 & Hq2 & Hh2 & Hn2 & Hf2).
  repeat split; try congruence; try (by etrans); try lia.
  intros Hd. rewrite (Hf1 Hd) in *. by apply Hf2.
Qed.

(** Unless it starts or resets the token, an operation keeps the
    session of the token and only extends it. *)
Lemma engine_step_extends e op t s :
  restarts t op = false →
  interview_sessions e !! t = Some s →
  ∃ s', interview_sessions (engine_step e op) !! t = Some s' ∧ session_extends s s'.
Proof.
  intros Hop Hs.
  destruct (decide (op_token op = t)) as [Heq|Hne];
    [|exists s; split; [by rewrite engine_step_other|apply session_extends_refl]].
  destruct op as [gw now token cfg|gw now token answer|token|token]; simpl in *.
  - by case_bool_decide.
  - subst token.
    destruct (is_complete s) eqn:Hc.
    { rewrite (process_answer_complete _ _ _ _ _ _ Hs Hc).
      exists s. split; [done|apply session_extends_refl]. }
    destruct (process_answer_session gw now t answer e s Hs)
      as (s' & -> & Hcfg & Hp & Ht & _ & Ha & Hq & Hh & Hn & _).
    exists s'. split; [by rewrite lookup_insert_eq|].
    repeat split; try done; [lia|congruence].
  - exists s. split; [done|apply session_extends_refl].
  - by case_bool_decide.
Qed.

Lemma run_engine_extends ops e t s :
  Forall (λ op, restarts t op = false) ops →
  interview_sessions e !! t = Some s →
  ∃ s', interview_sessions (run_engine ops e) !! t = Some s' ∧ session_extends s s'.
Proof.
  intros Hops. revert e s.
  induction Hops as [|op ops Hop _ IH]; intros e s Hs; simpl.
  - exists s. split; [done|apply session_extends_refl].
  - destruct (engine_step_extends e op t s Hop Hs) as (s1 & Hs1 & He1).
    destruct (IH _ _ Hs1) as (s' & Hs' & He').
    exists s'. split; [done|]. by apply session_extends_trans with s1.
Qed.

Lemma run_engine_other ops e t :
  Forall (λ op, op_token op ≠ t) ops →
  interview_sessions (run_engine ops e) !! t = interview_sessions e !! t.
Proof.
  intros Hops. revert e. induction Hops as [|op ops Hop _ IH]; intros e; simpl; [done|].
  by rewrite IH, engine_step_other.
Qed.

(** *** Ratings, completion fields and logs *)

Lemma build_interview_unrated s entries :
  ratings s = [] →
  build_interview s = Some entries →
  Forall (λ en, entry_rating en = None) entries.
Proof.
  intros Hr Hb. unfold build_interview in Hb. apply mapM_Some in Hb.
  induction Hb as [|i en ix ens Hi _ IH]; constructor; [|done].
  unfold interview_entry_at in Hi.
  destruct (actual_questions s !! i); simplify_eq/=. by rewrite Hr.
Qed.

Lemma save_interview_log_closed token s e p l :
  ratings s = [] →
  is_Some (completed_at s) →
  interview_logs (save_interview_log token s e).1 !! p = Some l →
  interview_logs e !! p = Some l ∨ log_closed l.
Proof.
  intros Hr [c Hc]. unfold save_interview_log.
  destruct (safe_name (config s)) as [name|]; [|by left].
  destruct (build_interview s) as [entries|] eqn:Hb; [|by left].
  simpl. rewrite lookup_insert. case_decide; [|by left].
  intros [= <-]. right. unfold log_closed; simpl. rewrite Hc; simpl.
  split; [eauto|]. split; [eauto|]. by apply build_interview_unrated with s.
Qed.

Lemma mark_complete_agrees v now s : completion_agrees (mark_complete v now s).
Proof. unfold completion_agrees; simpl. by repeat split; eauto. Qed.

Lemma engine_step_closed e op : engine_closed e → engine_closed (engine_step e op).
Proof.
  intros [Hss Hls].
  destruct op as [gw now token cfg|gw now token answer|token|token]; simpl.
  - split.
    + intros t s.
      destruct (start_structured_interview_sessions gw now token cfg e)
        as (s0 & -> & _ & Hr & _ & Hc & Hst & Hf & Hd).
      rewrite lookup_insert. case_decide; [|apply Hss].
      intros [= <-]. split; [done|].
      unfold completion_agrees. rewrite Hc, Hf, Hd.
      repeat split; try done; by intros [? ?].
    + rewrite start_structured_interview_logs. apply Hls.
  - destruct (get_interview_session token e) as [s|] eqn:Hs;
      [|by rewrite (process_answer_missing _ _ _ _ _ Hs)].
    destruct (Hss _ _ Hs) as [Hr Hag].
    split.
    + intros t s2.
      destruct (process_answer_session gw now token answer e s Hs)
        as (s' & -> & _ & _ & _ & Hr' & _ & _ & _ & _ & Hd).
      rewrite lookup_insert. case_decide; [|apply Hss].
      intros [= <-]. split; [congruence|].
      destruct Hd as [(Hc & Hst & Hf & Hd)|(_ & Hc & Hst & Hf & Hd)].
      * unfold completion_agrees. rewrite Hc, Hst, Hf, Hd. apply Hag.
      * unfold completion_agrees. rewrite Hc, Hst, Hd. by repeat split; eauto.
    + destruct (is_complete s) eqn:Hc;
        [by rewrite (process_answer_complete _ _ _ _ _ _ Hs Hc)|].
      destruct (max_questions_of s) as [n|x] eqn:Hn;
        [|by rewrite (process_answer_bad_count _ _ _ _ _ _ _ Hs Hc Hn)].
      destruct (process_answer_open gw now token answer e s n Hs Hc Hn)
        as [[Hlt [[reply Hp]|[x Hp]]]|[Hge [[x Hp]|(reply & v & _ & Hp)]]];
        rewrite Hp; simpl; try done.
      intros p l Hl. apply save_interview_log_closed in Hl as [Hl|Hl]; eauto.
  - done.
  - split; [|done]. intros t s. simpl. rewrite lookup_delete. case_decide; [done|apply Hss].
Qed.

Lemma run_engine_closed ops e : engine_closed e → engine_closed (run_engine ops e).
Proof.
  revert e. induction ops as [|op ops IH]; intros e He; [done|].
  simpl. by apply IH, engine_step_closed.
Qed.

Lemma engine_closed_empty e :
  interview_sessions e = ∅ → interview_logs e = ∅ → engine_closed e.
Proof. intros Hs Hl. split; intros ? ?; by rewrite ?Hs, ?Hl, lookup_empty. Qed.

End RunProperties.

Section CountedRuns.
Context `{PyRuntime}.

#[local] Opaque build_system_prompt initial_prompt next_question_prompt final_summary_prompt.
#[local] Opaque strip extract_question.

(** Answers sent to a finished interview change nothing. *)
Lemma run_submits_complete token xs e s :
  get_interview_session token e = Some s →
  is_complete s = true →
  run_engine (submits token xs) e = e.
Proof.
  intros Hs Hc. induction xs as [|x xs IH]; [done|].
  simpl. by rewrite (process_answer_complete _ _ _ _ _ _ Hs Hc).
Qed.

(** From a session with counter [c], in a run of answers in which no
    call raises, the next [max(1, n) - c + 1] answers are stored, the
    last of them closing the interview. *)
Lemma run_submits_counted token xs e s n :
  run_returns (submits token xs) e = true →
  get_interview_session token e = Some s →
  is_complete s = false →
  max_questions_of s = Returned n →
  1 ≤ actual_questions_asked s ≤ Z.max 1 n →
  ∃ s', get_interview_session token (run_engine (submits token xs) e) = Some s' ∧
    answers s' =
      answers s ++ take (Z.to_nat (Z.max 1 n - actual_questions_asked s + 1)) (snd <$> xs) ∧
    actual_questions_asked s' =
      Z.min (actual_questions_asked s + Z.of_nat (length xs)) (Z.max 1 n) ∧
    is_complete s' =
      bool_decide (Z.max 1 n - actual_questions_asked s + 1 ≤ Z.of_nat (length xs)).
Proof.
  revert e s.
  induction xs as [|[[gw now] answer] xs IH]; intros e s Hret Hs Hc Hn Hb.
  - exists s. simpl. rewrite take_nil, app_nil_r.
    split; [done|]. split; [done|]. split; [lia|].
    rewrite Hc. symmetry. apply bool_decide_eq_false. lia.
  - simpl in Hret. apply andb_prop in Hret as [Hop Hrest]. simpl.
    destruct (process_answer_open gw now token answer e s n Hs Hc Hn)
      as [[Hlt [[reply Hr]|[x Hr]]]|[Hge [[x Hr]|(reply & v & _ & Hr)]]];
      rewrite Hr in *; try done; simpl in *.
    + match goal with |- context [store_session token ?s1 e] => set (s1' := s1) in * end.
      destruct (IH (store_session token s1' e) s1') as (s' & Hs' & Ha & Hq & Hd).
      { done. }
      { apply get_session_stored. }
      { done. }
      { done. }
      { simpl. lia. }
      exists s'. split; [done|]. simpl in Ha, Hq, Hd.
      split; [|split].
      * rewrite Ha, <- app_assoc. f_equal.
        replace (Z.to_nat (Z.max 1 n - actual_questions_asked s + 1))
          with (S (Z.to_nat (Z.max 1 n - (actual_questions_asked s + 1) + 1))) by lia.
        done.
      * rewrite Hq. lia.
      * rewrite Hd. apply bool_decide_ext. lia.
    + set (s1 := mark_complete v now (append_answer answer s)) in *.
      set (e1 := (save_interview_log token s1 (store_session token s1 e)).1) in *.
      assert (Hs1' : get_interview_session token e1 = Some s1).
      { unfold get_interview_session, e1. rewrite save_interview_log_sessions. simpl.
        by rewrite lookup_insert_eq. }
      rewrite (run_submits_complete token xs e1 s1 Hs1' eq_refl).
      exists s1. split; [done|]. simpl.
      replace (Z.to_nat (Z.max 1 n - actual_questions_asked s + 1)) with 1%nat by lia.
      split; [by simpl; rewrite ?take_0|]. split; [lia|].
      symmetry. apply bool_decide_eq_true. lia.
Qed.

End CountedRuns.

Section SessionTheorems.
Context `{PyRuntime}.

#[local] Opaque build_system_prompt initial_prompt next_question_prompt final_summary_prompt.
#[local] Opaque strip extract_question.

(** X4.  One [submitAnswer] call, whatever its outcome (next question,
    summary, rejection, failure of the service or of the log write),
    leaves the sessions of the other tokens as they were, never drops
    the session of its token, keeps its configuration, system prompt,
    start time and ratings, only appends to its answers, questions and
    transcript, moves its counter by zero or one, and either leaves the
    four completion fields alone or sets all of them. *)
Theorem submit_answer_extends_session gw now token answer e s :
  get_interview_session token e = Some s →
  (∀ t, t ≠ token →
     interview_sessions (process_answer_and_get_next gw now token answer e).1 !! t =
       interview_sessions e !! t) ∧
  ∃ s', get_interview_session token (process_answer_and_get_next gw now token answer e).1
          = Some s' ∧
        submit_step now s s'.
Proof.
  intros Hs. destruct (process_answer_session gw now token answer e s Hs) as (s' & Hm & Hst).
  split.
  - intros t Hne. by rewrite Hm, lookup_insert_ne.
  - exists s'. split; [|done]. unfold get_interview_session. by rewrite Hm, lookup_insert_eq.
Qed.

(** X5.  Over any run that neither starts nor resets the token (the
    operations on other tokens are free), the session of the token
    stays, with the same configuration, system prompt and start time;
    its answers, questions and transcript are extended, its counter
    does not decrease, and a session that was complete is not changed
    at all. *)
Theorem session_only_extended_in_runs ops e token s :
  Forall (λ op, restarts token op = false) ops →
  interview_sessions e !! token = Some s →
  ∃ s', interview_sessions (run_engine ops e) !! token = Some s' ∧ session_extends s s'.
Proof. apply run_engine_extends. Qed.

(** X6.  A run whose operations all name other tokens leaves the token
    as it was: its session is the same, or still missing. *)
Theorem runs_isolate_tokens ops e token :
  Forall (λ op, op_token op ≠ token) ops →
  interview_sessions (run_engine ops e) !! token = interview_sessions e !! token.
Proof. apply run_engine_other. Qed.

(** X7.  No run records a rating: from an engine without sessions and
    logs, the [ratings] list of every session is empty and every entry
    of every log has a null rating. *)
Theorem ratings_never_recorded ops e :
  interview_sessions e = ∅ →
  interview_logs e = ∅ →
  (∀ t s, interview_sessions (run_engine ops e) !! t = Some s → ratings s = []) ∧
  (∀ p l en, interview_logs (run_engine ops e) !! p = Some l →
     en ∈ log_interview l → entry_rating en = None).
Proof.
  intros Hs Hl.
  destruct (run_engine_closed ops e (engine_closed_empty e Hs Hl)) as [Hss Hls].
  split.
  - intros t s Ht. by apply (Hss t s).
  - intros p l en Hp Hen. destruct (Hls p l Hp) as (_ & _ & Hall).
    by apply (proj1 (Forall_forall _ _) Hall).
Qed.

(** X8.  In every run from an engine without sessions and logs, failed
    calls included, a session is flagged complete exactly when its state
    is [complete], exactly when it holds a summary and exactly when it
    holds a completion time; and every log was written for a closed
    session: its completion time and its duration are set. *)
Theorem completion_fields_agree ops e :
  interview_sessions e = ∅ →
  interview_logs e = ∅ →
  (∀ t s, interview_sessions (run_engine ops e) !! t = Some s → completion_agrees s) ∧
  (∀ p l, interview_logs (run_engine ops e) !! p = Some l →
     is_Some (log_completed_at l) ∧ is_Some (log_duration_minutes l)).
Proof.
  intros Hs Hl.
  destruct (run_engine_closed ops e (engine_closed_empty e Hs Hl)) as [Hss Hls].
  split.
  - intros t s Ht. by apply (Hss t s).
  - intros p l Hp. destruct (Hls p l Hp) as (? & ? & _). by split.
Qed.

(** X9.  With [num_questions] equal to [n], in a run of [start] and
    answers in which no call raised, the interview stores the first
    [max(1, n)] answers in the order they were sent and rejects the
    rest; its counter is the number of answers plus one, capped at
    [max(1, n)]; it is complete from the [max(1, n)]-th answer on. *)
Theorem answers_counted_to_the_limit gw0 now0 token cfg n xs e :
  py_int (dict_get_or cfg "num_questions" (JInt 5)) = Returned n →
  run_returns (OpStart gw0 now0 token cfg :: submits token xs) e = true →
  ∃ s, get_interview_session token
         (run_engine (OpStart gw0 now0 token cfg :: submits token xs) e) = Some s ∧
    answers s = take (Z.to_nat (Z.max 1 n)) (snd <$> xs) ∧
    actual_questions_asked s = Z.min (Z.of_nat (length xs) + 1) (Z.max 1 n) ∧
    is_complete s = bool_decide (Z.max 1 n ≤ Z.of_nat (length xs)).
Proof.
  intros Hn Hret. simpl in *. apply andb_prop in Hret as [Hop Hrest].
  destruct (start_structured_interview_cases gw0 now0 token cfg e)
    as [(reply & _ & _ & Hr)|[x Hr]]; rewrite Hr in *; [|done]. simpl in *.
  destruct (run_submits_counted token xs
              (store_session token (started_session now0 cfg (strip reply)) e)
              (started_session now0 cfg (strip reply)) n Hrest)
    as (s' & Hs' & Ha & Hq & Hd).
  { apply get_session_stored. }
  { done. }
  { done. }
  { simpl. lia. }
  exists s'. split; [done|]. simpl in Ha, Hq, Hd.
  split; [|split].
  - rewrite Ha. f_equal. lia.
  - rewrite Hq. lia.
  - rewrite Hd. apply bool_decide_ext. lia.
Qed.


End SessionTheorems.

Section LogWrites.
Context `{PyRuntime}.

#[local] Opaque build_system_prompt initial_prompt next_question_prompt final_summary_prompt.
#[local] Opaque strip extract_question.

Lemma save_interview_log_logs token s e :
  interview_logs (save_interview_log token s e).1 = interview_logs e ∨
  ∃ p l, interview_logs (save_interview_log token s e).1 = <[p := l]> (interview_logs e) ∧
         log_token l = token ∧ log_started_at l = started_at s ∧
         log_completed_at l = completed_at s.
Proof.
  unfold save_interview_log.
  destruct (safe_name (config s)) as [name|]; [|by left].
  destruct (build_interview s) as [entries|]; [|by left].
  right. by repeat eexists.
Qed.

(** X11.  A log is written by one step only, the answer that closes an
    interview: any other operation leaves the log files as they are,
    and no operation deletes one.  The log written carries the token,
    the start time of the session and the time of this call. *)
Theorem log_written_on_completion_only e op :
  interview_logs (engine_step e op) = interview_logs e ∨
  ∃ gw now token answer s p l,
    op = OpSubmit gw now token answer ∧
    get_interview_session token e = Some s ∧
    is_complete s = false ∧
    is_complete <$> get_interview_session token (engine_step e op) = Some true ∧
    interview_logs (engine_step e op) = <[p := l]> (interview_logs e) ∧
    log_token l = token ∧
    log_started_at l = started_at s ∧
    log_completed_at l = Some now.
Proof.
  destruct op as [gw now token cfg|gw now token answer|token|token]; simpl.
  - left. apply start_structured_interview_logs.
  - destruct (get_interview_session token e) as [s|] eqn:Hs;
      [|left; by rewrite (process_answer_missing _ _ _ _ _ Hs)].
    destruct (is_complete s) eqn:Hc;
      [left; by rewrite (process_answer_complete _ _ _ _ _ _ Hs Hc)|].
    destruct (max_questions_of s) as [n|x] eqn:Hn;
      [|left; by rewrite (process_answer_bad_count _ _ _ _ _ _ _ Hs Hc Hn)].
    destruct (process_answer_open gw now token answer e s n Hs Hc Hn)
      as [[Hlt [[reply Hr]|[x Hr]]]|[Hge [[x Hr]|(reply & v & _ & Hr)]]];
      rewrite Hr; simpl; try (by left).
    set (s1 := mark_complete v now (append_answer answer s)).
    destruct (save_interview_log_logs token s1 (store_session token s1 e))
      as [Hl|(p & l & Hl & Ht & Hst & Hd)]; [by left|].
    right. exists gw, now, token, answer, s, p, l.
    split; [done|]. split; [done|]. split; [done|].
    split; [|by repeat split].
    unfold get_interview_session. rewrite save_interview_log_sessions. simpl.
    by rewrite lookup_insert_eq.
  - by left.
  - by left.
Qed.

End LogWrites.

(** ** The tables of the server and the routes that write them *)

Section RouteProperties.
Context `{PyRuntime}.

#[local] Opaque start_structured_interview process_answer_and_get_next get_interview_progress.
#[local] Opaque strip.

(** Case analysis of a handler down to the server it leaves. *)
Ltac route_cases :=
  unfold create_test, start_interview, submit_text_answer, get_progress,
    reset_interview_endpoint, get_test_config, validate_stage_access, update_stage,
    record_violation, terminate_test, get_test_status, save_audio, load_test_config,
    get_or_create_session_state;
  repeat first
    [ progress simpl
    | match goal with
      | |- context [match ?x with _ => _ end] =>
          lazymatch x with
          | context [match _ with _ => _ end] => fail
          | _ => destruct x eqn:?
          end
      end ].

Ltac lookup_goal :=
  try done;
  repeat (rewrite lookup_insert; case_decide; simplify_eq/=);
  try done;
  repeat match goal with Hl : _ !! _ = _ |- _ => rewrite Hl end;
  try done.

Lemma state_of_states w w' t : states w' = states w → state_of t w' = state_of t w.
Proof. unfold state_of. by intros ->. Qed.

(** A route that does not write the state of the token leaves it, up
    to the creation of the default state. *)
Lemma handle_state_of w r t :
  writes_state t r = false → state_of t (handle w r).1 = state_of t w.
Proof.
  intros Hr. unfold state_of.
  destruct r; unfold handle; simpl in Hr; try case_bool_decide; try done;
    route_cases; lookup_goal.
Qed.

Lemma handle_flags_kept w r t : flags_kept (state_of t w) (state_of t (handle w r).1).
Proof.
  destruct (writes_state t r) eqn:Hr;
    [|by rewrite (handle_state_of w r t Hr)].
  destruct r; simpl in Hr; try done; case_bool_decide; try done; subst; unfold handle.
  - unfold update_stage. rewrite get_or_create_session_state_eq. simpl.
    unfold state_of at 2; simpl. rewrite lookup_insert_eq; simpl.
    destruct (apply_stage_update_flags (dict_get data "stage") (dict_get data "status")
                (state_of t w)) as [Hc Ht].
    split; [by rewrite Ht|]. rewrite Hc. by intros ->.
  - unfold record_violation. simpl.
    destruct (_ >=? 10); [|done].
    rewrite get_or_create_session_state_eq. simpl.
    unfold state_of at 2; simpl. rewrite lookup_insert_eq; simpl.
    by split.
  - unfold terminate_test. rewrite get_or_create_session_state_eq. simpl.
    unfold state_of at 2; simpl. rewrite lookup_insert_eq; simpl.
    by split.
Qed.

Lemma flags_kept_trans st1 st2 st3 : flags_kept st1 st2 → flags_kept st2 st3 → flags_kept st1 st3.
Proof. intros [? ?] [? ?]. split; auto. Qed.

Lemma serve_flags_kept rs w t : flags_kept (state_of t w) (state_of t (serve rs w)).
Proof.
  revert w. induction rs as [|r rs IH]; intros w; [by split|].
  simpl. eapply flags_kept_trans; [apply handle_flags_kept|apply IH].
Qed.

Lemma serve_state_of rs w t :
  Forall (λ r, writes_state t r = false) rs → state_of t (serve rs w) = state_of t w.
Proof.
  intros Hrs. revert w. induction Hrs as [|r rs Hr _ IH]; intros w; [done|].
  simpl. by rewrite IH, handle_state_of.
Qed.

(** The violations of a token: one more after its violation route,
    the same after any other. *)
Lemma handle_violation_count w r t :
  violation_count t (handle w r).1 =
    (violation_count t w + (if records_violation t r then 1 else 0))%nat.
Proof.
  unfold violation_count.
  destruct r; unfold handle; simpl; try case_bool_decide; subst;
    route_cases; lookup_goal; rewrite ?length_app; simpl; lia.
Qed.

Lemma record_violation_enforced now t data w :
  (10 ≤ violation_count t (record_violation now t data w).1)%nat →
  terminated (state_of t (record_violation now t data w).1) = true.
Proof.
  unfold violation_count, state_of, record_violation. simpl.
  destruct (Z.geb_spec (Z.of_nat (length (default [] (violations w !! t) ++ [
     {| violation_type := dict_get data "type";
        violation_timestamp := dict_get_or data "timestamp" (JStr (isoformat now));
        violation_details := dict_get_or data "details" (JStr "") |}]))) 10) as [_|Hlt].
  - rewrite get_or_create_session_state_eq. simpl. intros _. by rewrite lookup_insert_eq.
  - simpl. rewrite lookup_insert_eq. simpl. intros. lia.
Qed.

Lemma handle_violations_enforced w r :
  violations_enforced w → violations_enforced (handle w r).1.
Proof.
  intros Hw t Ht.
  destruct (records_violation t r) eqn:Hr.
  - destruct r; simpl in Hr; try done. case_bool_decide; [subst|done].
    by apply record_violation_enforced.
  - rewrite handle_violation_count, Hr, Nat.add_0_r in Ht.
    by apply (handle_flags_kept w r t), Hw.
Qed.

Lemma serve_violations_enforced rs w :
  violations_enforced w → violations_enforced (serve rs w).
Proof.
  revert w. induction rs as [|r rs IH]; intros w Hw; [done|].
  simpl. by apply IH, handle_violations_enforced.
Qed.

Lemma serve_violation_count rs w t :
  violation_count t (serve rs w) =
    (violation_count t w + length (filter (λ r, records_violation t r = true) rs))%nat.
Proof.
  revert w. induction rs as [|r rs IH]; intros w; simpl; [lia|].
  rewrite IH, handle_violation_count, filter_cons.
  destruct (decide (records_violation t r = true)) as [->|Hn]; simpl; [lia|].
  destruct (records_violation t r); [done|lia].
Qed.

(** The interview routes of other tokens, and every other route, leave
    the session of the token. *)
Lemma handle_session w r t :
  writes_session t r = false →
  interview_sessions (interview (handle w r).1) !! t = interview_sessions (interview w) !! t.
Proof.
  intros Hr.
  destruct r; unfold handle; simpl in Hr; try case_bool_decide; try done.
  all: route_cases; lookup_goal.
  all: try by rewrite lookup_delete_ne.
  all: match goal with
       | Hp : start_structured_interview ?gw ?now ?tok ?cfg ?e = _ |- _ =>
           pose proof (engine_step_other e (OpStart gw now tok cfg) t) as Ho;
           simpl in Ho; rewrite Hp in Ho; by apply Ho
       | Hp : process_answer_and_get_next ?gw ?now ?tok ?a ?e = _ |- _ =>
           pose proof (engine_step_other e (OpSubmit gw now tok a) t) as Ho;
           simpl in Ho; rewrite Hp in Ho; by apply Ho
       end.
Qed.

Lemma serve_session rs w t :
  Forall (λ r, writes_session t r = false) rs →
  interview_sessions (interview (serve rs w)) !! t = interview_sessions (interview w) !! t.
Proof.
  intros Hrs. revert w. induction Hrs as [|r rs Hr _ IH]; intros w; [done|].
  simpl. by rewrite IH, handle_session.
Qed.

End RouteProperties.

Section GuardProperties.
Context `{PyRuntime}.

#[local] Opaque start_structured_interview process_answer_and_get_next get_interview_progress.
#[local] Opaque strip.

Lemma load_test_config_frame token w :
  states (load_test_config token w).1 = states w ∧
  violations (load_test_config token w).1 = violations w ∧
  uploads (load_test_config token w).1 = uploads w ∧
  audio_files (load_test_config token w).1 = audio_files w ∧
  interview (load_test_config token w).1 = interview w.
Proof. unfold load_test_config. by repeat case_match. Qed.

(** What the start and validation routes answer for a terminated
    token, and that they leave the engine and the audio files. *)
Lemma terminated_guard gw tts now token stage w :
  terminated (state_of token w) = true →
  ((start_interview gw tts now token w).2 =
     Returned (jsonify_with (error_dict "Invalid token") 404) ∨
   (start_interview gw tts now token w).2 =
     Returned (jsonify_with (error_dict "Test terminated") 403)) ∧
  interview (start_interview gw tts now token w).1 = interview w ∧
  audio_files (start_interview gw tts now token w).1 = audio_files w ∧
  ((validate_stage_access token stage w).2 =
     Returned (jsonify_with
                 (list_to_map [("allowed", JBool false); ("message", JStr "Invalid token")]) 404) ∨
   (validate_stage_access token stage w).2 = Returned (redirect (JStr "terminated"))).
Proof.
  intros Ht. unfold start_interview, validate_stage_access.
  destruct (load_test_config_frame token w) as (Hst & _ & _ & Ha & Hi).
  assert (Ht1 : terminated (state_of token (load_test_config token w).1) = true).
  { by rewrite (state_of_states _ _ _ Hst). }
  destruct (load_test_config token w) as [w1 [cfg|]]; simpl in *; [|by auto].
  destruct (negb (dict_truthy cfg)); simpl; [by auto|].
  rewrite get_or_create_session_state_eq. simpl. rewrite Ht1. simpl. by auto.
Qed.

End GuardProperties.

Section RouteTheorems.
Context `{PyRuntime}.

#[local] Opaque start_structured_interview process_answer_and_get_next get_interview_progress.
#[local] Opaque strip.

(** X12.  The state of a token is written by three routes only: over
    any sequence of requests that holds no update-stage, violation or
    terminate request for the token, its stage, stage table and flags
    are what they were (the interview routes, whatever happens in the
    interview, advance no stage and close no test). *)
Theorem state_written_by_stage_routes_only rs w token :
  Forall (λ r, writes_state token r = false) rs →
  state_of token (serve rs w) = state_of token w.
Proof. apply serve_state_of. Qed.

(** X13.  The interview session of a token is written by its start,
    submit and reset routes only: every other request, and every
    interview request of another token, leaves it as it was, so that
    terminating a test or recording violations does not touch its
    interview. *)
Theorem session_written_by_interview_routes_only rs w token :
  Forall (λ r, writes_session token r = false) rs →
  interview_sessions (interview (serve rs w)) !! token =
    interview_sessions (interview w) !! token.
Proof. apply serve_session. Qed.

(** X14.  No route clears a flag: over any sequence of requests a token
    that was terminated is still terminated and a token that was
    completed is still completed. *)
Theorem flags_never_cleared rs w token :
  flags_kept (state_of token w) (state_of token (serve rs w)).
Proof. apply serve_flags_kept. Qed.

(** X15.  From a server without recorded violations, after any sequence
    of requests the number of violations of a token is the number of
    its violation requests (no route removes one), and a token with ten
    or more is terminated. *)
Theorem violations_counted_and_enforced rs w token :
  violations w = ∅ →
  violation_count token (serve rs w) =
    length (filter (λ r, records_violation token r = true) rs) ∧
  ((10 ≤ violation_count token (serve rs w))%nat →
   terminated (state_of token (serve rs w)) = true).
Proof.
  intros Hv. split.
  - rewrite serve_violation_count. unfold violation_count at 1.
    by rewrite Hv, lookup_empty.
  - apply serve_violations_enforced. intros t. unfold violation_count.
    rewrite Hv, lookup_empty. simpl. lia.
Qed.

(** X16.  Termination is final for the start and validation routes:
    once a token is terminated, after any further requests
    [start-interview] answers 404 or 403 and leaves the interview engine
    and the audio files untouched, and [validate] answers 404 or the
    redirect to ['terminated'], whatever the stage asked. *)
Theorem terminated_test_stays_blocked rs gw tts now token stage w :
  terminated (state_of token w) = true →
  let w' := serve rs w in
  ((start_interview gw tts now token w').2 =
     Returned (jsonify_with (error_dict "Invalid token") 404) ∨
   (start_interview gw tts now token w').2 =
     Returned (jsonify_with (error_dict "Test terminated") 403)) ∧
  interview (start_interview gw tts now token w').1 = interview w' ∧
  audio_files (start_interview gw tts now token w').1 = audio_files w' ∧
  ((validate_stage_access token stage w').2 =
     Returned (jsonify_with
                 (list_to_map [("allowed", JBool false); ("message", JStr "Invalid token")]) 404) ∨
   (validate_stage_access token stage w').2 = Returned (redirect (JStr "terminated"))).
Proof.
  intros Ht w'. apply terminated_guard.
  by apply (serve_flags_kept rs w token).
Qed.

(** X17.  The submit route reads neither the state table nor the
    violations: replacing both tables changes neither its answer nor
    what it does to the rest of the server.  A terminated test
    therefore still has its answers accepted. *)
Theorem submit_text_ignores_proctoring gw tts now token data w m v :
  let w' := set_violations v (set_states m w) in
  (submit_text_answer gw tts now token data w').2 =
    (submit_text_answer gw tts now token data w).2 ∧
  (submit_text_answer gw tts now token data w').1 =
    set_violations v (set_states m (submit_text_answer gw tts now token data w).1).
Proof.
  intros w'. subst w'. unfold submit_text_answer, save_audio. simpl.
  repeat first
    [ done
    | progress simpl
    | match goal with
      | |- context [match ?x with _ => _ end] =>
          lazymatch x with
          | context [match _ with _ => _ end] => fail
          | _ => destruct x eqn:?
          end
      end ].
Qed.

(** X18.  A configuration is read from its file once: after a lookup
    that found it, whatever becomes of the files under [uploads/], the
    lookup returns the same configuration and changes nothing. *)
Theorem load_test_config_cached token w w1 cfg u :
  load_test_config token w = (w1, Some cfg) →
  load_test_config token (set_uploads u w1) = (set_uploads u w1, Some cfg).
Proof.
  unfold load_test_config.
  destruct (test_data_storage w !! token) as [c|] eqn:Hc.
  - intros [= <- <-]. simpl. by rewrite Hc.
  - destruct (uploads w !! upload_path token) as [c|]; [|done].
    intros [= <- <-]. simpl. by rewrite lookup_insert_eq.
Qed.

End RouteTheorems.

(** ** Audio files and the audio route *)

Section AudioProperties.
Context `{PyRuntime}.

Lemma append_cons c s t : String c s +:+ t = String c (s +:+ t).
Proof. done. Qed.

Lemma plain_dot c : plain c = true → Ascii.eqb "." c = false.
Proof.
  unfold plain. intros [Hd _]%andb_prop. rewrite Ascii.eqb_sym.
  by destruct (Ascii.eqb c ".").
Qed.

Lemma plain_slash c : plain c = true → Ascii.eqb "/" c = false.
Proof.
  unfold plain. intros [_ Hs]%andb_prop. rewrite Ascii.eqb_sym.
  by destruct (Ascii.eqb c "/").
Qed.

(** Plain characters in front change neither test. *)
Lemma str_contains_skip p s :
  all_chars plain p = true →
  str_contains ".." (p +:+ s) = str_contains ".." s ∧
  str_contains "/" (p +:+ s) = str_contains "/" s.
Proof.
  induction p as [|c p IH]; [done|].
  intros Hcp. cbn [all_chars] in Hcp. apply andb_prop in Hcp as [Hc Hp].
  destruct (IH Hp) as [IH1 IH2].
  rewrite !append_cons. cbn [str_contains starts_with].
  by rewrite (plain_dot c Hc), (plain_slash c Hc), IH1, IH2.
Qed.

(** A text followed by a plain character: the tests are those of the
    two parts. *)
Lemma str_contains_app_plain a c s :
  plain c = true →
  str_contains ".." (a +:+ String c s) =
    str_contains ".." a || str_contains ".." (String c s) ∧
  str_contains "/" (a +:+ String c s) =
    str_contains "/" a || str_contains "/" (String c s).
Proof.
  intros Hc. induction a as [|x a [IH1 IH2]].
  - done.
  - rewrite !append_cons. cbn [str_contains]. rewrite IH1, IH2.
    split; rewrite orb_assoc; do 2 f_equal; cbn [starts_with]; try done.
    destruct (Ascii.eqb "." x); [|done]. cbn [andb].
    destruct a as [|y a].
    + change ("" +:+ String c s) with (String c s). cbn [starts_with].
      by rewrite (plain_dot c Hc).
    + rewrite append_cons. by cbn [starts_with].
Qed.

Lemma all_chars_pretty_N_go x s :
  all_chars plain s = true → all_chars plain (pretty_N_go x s) = true.
Proof.
  revert s. induction (N.lt_wf_0 x) as [x _ IH]; intros s Hs.
  destruct (decide (0 < x)%N) as [Hx|Hx].
  - rewrite pretty_N_go_step by done. apply IH.
    + apply N.div_lt; lia.
    + simpl. rewrite Hs, andb_true_r.
      unfold pretty_N_char. by repeat case_match.
  - replace x with 0%N by lia. by rewrite pretty_N_go_0.
Qed.

Lemma all_chars_pretty_Z (n : Z) : all_chars plain (pretty n) = true.
Proof.
  assert (HN : ∀ x : N, all_chars plain (pretty x) = true).
  { intros x. unfold pretty, pretty_N. case_decide; [done|].
    by apply all_chars_pretty_N_go. }
  destruct n as [|p|p]; [done|apply HN|].
  unfold pretty, pretty_Z. rewrite append_cons. simpl. apply HN.
Qed.

(** The name of an audio file passes the test of the audio route as
    soon as the token does. *)
Lemma audio_filename_allowed token n :
  str_contains ".." token = false →
  str_contains "/" token = false →
  str_contains ".." (audio_filename token (JInt n)) = false ∧
  str_contains "/" (audio_filename token (JInt n)) = false.
Proof.
  intros Hd Hs. unfold audio_filename. cbn [py_str].
  destruct (str_contains_skip "audio_" (token +:+ "_q" +:+ pretty n +:+ ".mp3") eq_refl)
    as [E1 E2].
  destruct (str_contains_app_plain token "_" ("q" +:+ pretty n +:+ ".mp3") eq_refl)
    as [E3 E4].
  destruct (str_contains_skip "_q" (pretty n +:+ ".mp3") eq_refl) as [E5 E6].
  destruct (str_contains_skip (pretty n) ".mp3" (all_chars_pretty_Z n)) as [E7 E8].
  split.
  - etrans; [exact E1|]. etrans; [exact E3|]. rewrite Hd. cbn [orb].
    etrans; [exact E5|]. etrans; [exact E7|]. done.
  - etrans; [exact E2|]. etrans; [exact E4|]. rewrite Hs. cbn [orb].
    etrans; [exact E6|]. etrans; [exact E8|]. done.
Qed.

End AudioProperties.

Section AudioRoundTrip.
Context `{PyRuntime}.

#[local] Opaque build_system_prompt initial_prompt next_question_prompt final_summary_prompt.
#[local] Opaque strip extract_question.

(** The [question_number] of a result of [submitAnswer] is a number,
    and no result holds an [audio_url]. *)
Lemma process_answer_question_number gw now token answer e e' result :
  process_answer_and_get_next gw now token answer e = (e', Returned result) →
  (∃ n, dict_get_or result "question_number" (JInt 0) = JInt n) ∧
  result !! "audio_url" = None.
Proof.
  destruct (get_interview_session token e) as [s|] eqn:Hs;
    [|rewrite (process_answer_missing _ _ _ _ _ Hs); intros [= <- <-]; by split; [eexists|]].
  destruct (is_complete s) eqn:Hc;
    [rewrite (process_answer_complete _ _ _ _ _ _ Hs Hc); intros [= <- <-];
     by split; [eexists|]|].
  destruct (max_questions_of s) as [n|x] eqn:Hn;
    [|by rewrite (process_answer_bad_count _ _ _ _ _ _ _ Hs Hc Hn)].
  destruct (process_answer_open gw now token answer e s n Hs Hc Hn)
    as [[Hlt [[reply Hr]|[x Hr]]]|[Hge [[x Hr]|(reply & v & _ & Hr)]]];
    rewrite Hr; try done.
  - intros [= <- <-]. by split; [eexists|].
  - simpl. destruct (save_interview_log _ _ _) as [e2 [[]|x]]; simpl; [|done].
    intros [= <- <-]. by split; [eexists|].
Qed.

(** The file [save_audio] writes under the URL it returns is the one
    the audio route sends. *)
Lemma save_audio_served tts token n text w w' url :
  save_audio tts token (JInt n) text w = (w', JStr url) →
  str_contains ".." token = false →
  str_contains "/" token = false →
  ∃ audio,
    tts text = Some audio ∧
    url = "/audio/" +:+ audio_filename token (JInt n) ∧
    serve_audio_file (audio_filename token (JInt n)) w' = SentFile audio "audio/mpeg".
Proof.
  intros Hsa Hd Hs. unfold save_audio in Hsa.
  destruct (tts text) as [audio|]; [|done].
  destruct (String.eqb audio ""); [done|].
  injection Hsa as <- <-. exists audio. split; [done|]. split; [done|].
  unfold serve_audio_file.
  destruct (audio_filename_allowed token n Hd Hs) as [-> ->]. simpl.
  by rewrite lookup_insert_eq.
Qed.

(** X19.  Every audio URL that the start and submit routes hand out is
    served: when the token holds neither [..] nor a slash, the file
    named in [audio_url] passes the test of the audio route, exists and
    is sent as [audio/mpeg]. *)
Theorem audio_url_is_served w r token w' resp url :
  writes_session token r = true →
  handle w r = (w', Returned resp) →
  body resp !! "audio_url" = Some (JStr url) →
  str_contains ".." token = false →
  str_contains "/" token = false →
  ∃ filename audio,
    url = "/audio/" +:+ filename ∧
    serve_audio_file filename w' = SentFile audio "audio/mpeg".
Proof.
  intros Hr Hh Hb Hd Hs.
  destruct r; simpl in Hr; try done; case_bool_decide; try done; subst; unfold handle in Hh.
  - unfold start_interview in Hh.
    destruct (load_test_config token w) as [w1 [cfg|]]; [|by simplify_map_eq].
    destruct (negb (dict_truthy cfg)); [by simplify_map_eq|].
    destruct (get_or_create_session_state token w1) as [w2 st].
    destruct (terminated st); [by simplify_map_eq|].
    destruct (start_structured_interview gw now token cfg (interview w2)) as [e [text|x]];
      [|done].
    destruct (negb (stdout_accepts ("First response: " +:+ text))); [done|].
    destruct (save_audio tts token (JInt 1) text (set_interview e w2)) as [w3 u] eqn:Hsa.
    destruct (minus_one _); [|done].
    simplify_map_eq.
    destruct (save_audio_served _ _ _ _ _ _ _ Hsa Hd Hs) as (audio & _ & -> & Hserve).
    eauto.
  - unfold submit_text_answer in Hh.
    destruct (get_interview_session token (interview w)); [|by simplify_map_eq].
    destruct (submitted_text data) as [answer|]; [|done].
    destruct (String.eqb answer ""); [by simplify_map_eq|].
    destruct (process_answer_and_get_next gw now token answer (interview w))
      as [e [result|x]] eqn:Hp; [|done].
    destruct (process_answer_question_number _ _ _ _ _ _ _ Hp) as [[n Hn] Hno].
    case_bool_decide as Herr; [by simplify_eq/=|].
    rewrite Hn in Hh.
    destruct (response_text_of result) as [text|].
    + destruct (save_audio tts token (JInt n) text (set_interview e w)) as [w3 u] eqn:Hsa.
      simplify_map_eq.
      destruct (save_audio_served _ _ _ _ _ _ _ Hsa Hd Hs) as (audio & _ & -> & Hserve).
      eauto.
    + by simplify_map_eq.
  - unfold reset_interview_endpoint in Hh. by simplify_map_eq.
Qed.

End AudioRoundTrip.

Section RefusedNames.
Context `{PyRuntime}.

Lemma starts_with_app sub s t : starts_with sub s = true → starts_with sub (s +:+ t) = true.
Proof.
  revert s. induction sub as [|a sub IH]; intros s; [done|].
  destruct s as [|b s]; [done|].
  rewrite append_cons. cbn [starts_with]. intros [Hab Hs]%andb_prop.
  by rewrite Hab, (IH s Hs).
Qed.

Lemma str_contains_app_r sub s t :
  str_contains sub s = true → str_contains sub (s +:+ t) = true.
Proof.
  induction s as [|c s IH].
  - cbn [str_contains]. rewrite orb_false_r. intros Hs.
    destruct sub; [|done]. by destruct t.
  - rewrite append_cons. cbn [str_contains]. intros [Hs|Hs]%orb_prop.
    + pose proof (starts_with_app sub (String c s) t Hs) as Hp.
      rewrite append_cons in Hp. by rewrite Hp.
    + by rewrite (IH Hs), orb_true_r.
Qed.

Lemma str_contains_app_l sub s t :
  str_contains sub t = true → str_contains sub (s +:+ t) = true.
Proof.
  intros Ht. induction s as [|c s IH]; [done|].
  rewrite append_cons. cbn [str_contains]. by rewrite IH, orb_true_r.
Qed.

(** X20.  The audio written for a token that holds [..] or a slash is
    never served: the audio route refuses the name of each of its
    files with 403, whatever the question number. *)
Theorem audio_of_dotted_token_is_refused token q_num w :
  str_contains ".." token || str_contains "/" token = true →
  serve_audio_file (audio_filename token q_num) w = Aborted 403.
Proof.
  intros Ht. unfold serve_audio_file, audio_filename.
  assert (Hf : ∀ sub, str_contains sub token = true →
            str_contains sub ("audio_" +:+ token +:+ "_q" +:+ py_str q_num +:+ ".mp3") = true).
  { intros sub Hs. by apply str_contains_app_l, str_contains_app_r. }
  apply orb_prop in Ht as [Hd|Hs].
  - by rewrite (Hf ".." Hd).
  - by rewrite (Hf "/" Hs), orb_true_r.
Qed.

End RefusedNames.

(** ** Question texts and log paths *)

Section QuestionText.

Lemma all_chars_until_newline s :
  all_chars (λ c, negb (Ascii.eqb c newline)) (until_newline s) = true.
Proof.
  induction s as [|c s IH]; [done|].
  cbn [until_newline]. destruct (Ascii.eqb c newline) eqn:Hc; [done|].
  cbn [all_chars]. by rewrite Hc, IH.
Qed.

Lemma all_chars_lstrip p s : all_chars p s = true → all_chars p (lstrip s) = true.
Proof.
  assert (Hn : ∀ n s, (String.length s ≤ n)%nat →
            all_chars p s = true → all_chars p (lstrip s) = true).
  { clear s. induction n as [|n IH]; intros s Hlen Hs.
    - destruct s; [done|simpl in Hlen; lia].
    - destruct s as [|c r]; [done|]. cbn [lstrip].
      pose proof Hs as Hall. cbn [all_chars] in Hs. apply andb_prop in Hs as [_ Hr].
      destruct (space1 c); [apply IH; [simpl in Hlen; lia|done]|].
      destruct r as [|d r']; [done|].
      cbn [all_chars] in Hr. apply andb_prop in Hr as [_ Hr'].
      destruct (space2 c d); [apply IH; [simpl in Hlen; lia|done]|].
      destruct r' as [|x r'']; [done|].
      cbn [all_chars] in Hr'. apply andb_prop in Hr' as [_ Hr''].
      destruct (space3 c d x); [apply IH; [simpl in Hlen; lia|done]|done]. }
  by apply (Hn (String.length s)).
Qed.

Lemma all_chars_rstrip p s : all_chars p s = true → all_chars p (rstrip s) = true.
Proof.
  induction s as [|c s IH]; [done|].
  intros Hs. pose proof Hs as Hall. cbn [all_chars] in Hs. apply andb_prop in Hs as [Hc Hs].
  cbn [rstrip]. destruct (whitespace_only (String c s)); [done|].
  cbn [all_chars]. by rewrite Hc, (IH Hs).
Qed.

Lemma all_chars_strip p s : all_chars p s = true → all_chars p (strip s) = true.
Proof. intros Hs. unfold strip. by apply all_chars_rstrip, all_chars_lstrip. Qed.

Lemma str_contains_char c s :
  all_chars (λ x, negb (Ascii.eqb x c)) s = true → str_contains (String c "") s = false.
Proof.
  induction s as [|x s IH]; [done|].
  cbn [all_chars str_contains starts_with]. intros [Hx Hs]%andb_prop.
  rewrite (IH Hs), Ascii.eqb_sym. by destruct (Ascii.eqb x c).
Qed.

(** X21.  When the reply carries the marker, the question stored for
    it is a single line: it holds no line feed.  (Without the marker
    the whole reply is stored.) *)
Theorem extracted_question_is_one_line marker reply rest :
  re_search marker reply = Some rest →
  str_contains (String newline "") (extract_question marker reply) = false.
Proof.
  intros Hm. unfold extract_question. rewrite Hm.
  apply str_contains_char, all_chars_strip, all_chars_until_newline.
Qed.

End QuestionText.

Section LogPath.
Context `{PyRuntime}.

(** A text keeps its occurrences of [sub] under a character map that
    keeps the characters of [sub]. *)
Lemma starts_with_map_chars f sub s :
  keeps_chars f sub → starts_with sub (map_chars f s) = starts_with sub s.
Proof.
  intros Hf. revert s. induction sub as [|a sub IH]; intros s; [done|].
  destruct s as [|c s]; [done|].
  cbn [map_chars starts_with].
  assert (Ha : Ascii.eqb a (f c) = Ascii.eqb a c ∧ keeps_chars f sub).
  { split.
    - specialize (Hf c). cbn [all_chars] in Hf. apply andb_prop in Hf as [Hf _].
      by apply Bool.eqb_prop.
    - intros x. specialize (Hf x). cbn [all_chars] in Hf. by apply andb_prop in Hf as [_ Hf]. }
  destruct Ha as [-> Hsub]. by rewrite (IH Hsub).
Qed.

Lemma str_contains_map_chars f sub s :
  keeps_chars f sub → str_contains sub (map_chars f s) = str_contains sub s.
Proof.
  intros Hf. induction s as [|c s IH].
  - done.
  - pose proof (starts_with_map_chars f sub (String c s) Hf) as Hp.
    cbn [map_chars] in Hp. cbn [map_chars str_contains]. by rewrite Hp, IH.
Qed.

Lemma safe_name_keeps sub :
  sub = ".." ∨ sub = "/" →
  keeps_chars lower_ascii sub ∧
  keeps_chars (λ c, if Ascii.eqb c " " then "_"%char else c) sub.
Proof.
  intros [-> | ->]; split; intros c; by destruct c as [[] [] [] [] [] [] [] []].
Qed.

Lemma all_chars_map_chars (p : ascii → bool) f s :
  (∀ c, p c = true → p (f c) = true) →
  all_chars p s = true → all_chars p (map_chars f s) = true.
Proof.
  intros Hf. induction s as [|c s IH]; [done|].
  cbn [all_chars map_chars]. intros [Hc Hs]%andb_prop.
  by rewrite (Hf c Hc), (IH Hs).
Qed.

Lemma map_chars_compose f g s : map_chars f (map_chars g s) = map_chars (λ c, f (g c)) s.
Proof. induction s as [|c s IH]; [done|]. cbn [map_chars]. by rewrite IH. Qed.

Lemma map_chars_ext f g s : (∀ c, f c = g c) → map_chars f s = map_chars g s.
Proof. intros Hfg. induction s as [|c s IH]; [done|]. cbn [map_chars]. by rewrite Hfg, IH. Qed.

(** X22.  For a candidate name of ASCII characters the directory name of
    a log is the name with every space replaced by an underscore and
    every letter A..Z lowered, the other characters as they are; so it
    holds a slash exactly when the name does, and [..] exactly when the
    name does: the name decides where under [interview_logs/] the log
    goes. *)
Theorem safe_name_of_ascii_name cfg name :
  dict_get_or cfg "candidate_name" (JStr "unknown") = JStr name →
  all_chars is_ascii name = true →
  let safe := map_chars (λ c, if Ascii.eqb c " " then "_"%char else lower_ascii c) name in
  safe_name cfg = Returned safe ∧
  str_contains "/" safe = str_contains "/" name ∧
  str_contains ".." safe = str_contains ".." name.
Proof.
  intros Hn Hascii safe.
  assert (Hsafe : safe = map_chars lower_ascii (replace_space_underscore name)).
  { unfold safe, replace_space_underscore. rewrite map_chars_compose.
    apply map_chars_ext. intros c. by destruct (Ascii.eqb c " "). }
  split.
  - unfold safe_name. rewrite Hn, Hsafe. unfold lower, replace_space_underscore.
    rewrite (all_chars_map_chars is_ascii); [done| |done].
    intros c Hc. by destruct (Ascii.eqb c " ").
  - rewrite Hsafe. unfold replace_space_underscore.
    destruct (safe_name_keeps "/" (or_intror eq_refl)) as [Hl1 Hr1].
    destruct (safe_name_keeps ".." (or_introl eq_refl)) as [Hl2 Hr2].
    by rewrite !(str_contains_map_chars lower_ascii), !str_contains_map_chars.
Qed.

End LogPath.

(** * Concrete runs *)

Section Examples.
#[local] Existing Instance example_runtime.

(** Closed equations are settled by evaluation. *)
Ltac evaluate :=
  repeat match goal with |- _ ∧ _ => split end;
  match goal with |- _ = ?r => vm_cast_no_check (@eq_refl _ r) end.

(** C1 (the code departs from the specification).  [start] with two
    questions configured stores its instruction and the reply in the
    transcript.  One accepted answer then: the answer is appended to
    the answers, the counter goes from 1 to 2, the extracted question is
    appended and the payload is the one specified, but the stored
    transcript gains the reply alone, one message: the instruction, and
    the answer, sent to the service are not stored. *)
Theorem submit_answer_stores_only_reply :
  let cfg := example_config (JStr "Ada Byron") 2 in
  let e1 :=
    (start_structured_interview (always_reply "Hello Ada. What is ownership?") 10 "tok" cfg
       empty_engine).1 in
  let r :=
    process_answer_and_get_next (always_reply "Question 2: What is borrowing?") 20 "tok"
      "a move" e1 in
  let s1 := get_interview_session "tok" e1 in
  let s2 := get_interview_session "tok" r.1 in
  (λ s, role <$> chat_history s) <$> s1 = Some ["system"; "user"; "assistant"] ∧
  (λ s, bool_decide (user_msg (initial_prompt cfg) ∈ chat_history s)) <$> s1 = Some true ∧
  is_complete <$> s1 = Some false ∧
  actual_questions_asked <$> s1 = Some 1 ∧
  max_questions_of <$> s1 = Some (Returned 2) ∧
  answers <$> s2 = (λ s, answers s ++ ["a move"]) <$> s1 ∧
  actual_questions_asked <$> s2 = Some 2 ∧
  actual_questions <$> s2 = (λ s, actual_questions s ++ ["What is borrowing?"]) <$> s1 ∧
  r.2 = Returned (list_to_map
          [("response_text", JStr "Question 2: What is borrowing?");
           ("question_number", JInt 2);
           ("is_complete", JBool false);
           ("questions_remaining", JInt 0)]) ∧
  chat_history <$> s2 =
    (λ s, chat_history s ++ [assistant_msg "Question 2: What is borrowing?"]) <$> s1 ∧
  (λ s, role <$> chat_history s) <$> s2 = Some ["system"; "user"; "assistant"; "assistant"] ∧
  (λ s, bool_decide (system_msg (next_question_prompt cfg "a move" 1 2 2) ∈ chat_history s))
    <$> s2 = Some false ∧
  (λ s, bool_decide (user_msg "a move" ∈ chat_history s)) <$> s2 = Some false.
Proof. intros cfg e1 r s1 s2. evaluate. Qed.

(** C2 (the code departs from the specification).  A [create_test] whose mail
    cannot be sent answers 201 with [email_sent = False] and the error,
    but it has returned before the configuration exists: nothing is
    written or cached, and [loadConfig] of the returned token finds
    nothing. *)
Theorem create_test_failed_mail_loses_config :
  let data : pydict :=
    list_to_map [("email", JStr "ada@example.org"); ("candidate_name", JStr "Ada Byron");
                 ("role_subject", JStr "Rust"); ("numQuestions", JInt 2)] in
  let r := create_test (λ _ _ _, Some "connection refused") 5 "tok" data empty_server in
  r.2 = Returned (Response
          (list_to_map [("token", JStr "tok"); ("email_sent", JBool false);
                        ("error", JStr "connection refused")]) 201) ∧
  r.1 = empty_server ∧
  test_data_storage r.1 !! "tok" = None ∧
  uploads r.1 !! upload_path "tok" = None ∧
  load_test_config "tok" r.1 = (r.1, None) ∧
  (get_test_config "tok" r.1).2 =
    Returned (Response (error_dict "Test config not found") 404).
Proof. intros data r. evaluate. Qed.

(** C3, as stated, fails: from a fresh state one update for stage 2
    takes the token from stage 1 to stage 3, and an update for stage 1
    after it takes the token back to stage 2. *)
Lemma update_stage_skips_and_regresses :
  let w1 := (update_stage "tok" (stage_request 2 "complete") empty_server).1 in
  let w2 := (update_stage "tok" (stage_request 1 "complete") w1).1 in
  current_stage (state_of "tok" empty_server) = 1 ∧
  current_stage (state_of "tok" w1) = 3 ∧
  current_stage (state_of "tok" w2) = 2.
Proof. intros w1 w2. evaluate. Qed.

Lemma update_stage_sets_stage_witness :
  let rs := [UpdateStage "tok" (stage_request 1 "complete")] in
  let w := serve rs empty_server in
  states empty_server = ∅ ∧
  (∀ t st, states w !! t = Some st → 1 ≤ current_stage st ≤ 3) ∧
  current_stage <$> states (update_stage "tok" (stage_request 2 "complete") w).1 !! "tok" = Some 3.
Proof.
  intros rs w.
  assert (Hempty : states empty_server = ∅) by reflexivity.
  split; [exact Hempty|].
  pose proof (update_stage_sets_stage rs empty_server "tok" (stage_request 2 "complete") Hempty)
    as Hthm.
  cbv zeta in Hthm. destruct Hthm as (Hbound & _).
  split; [exact Hbound|]. evaluate.
Defined.

(** C4, as stated, fails: ten violations terminate the session of the
    token and record no reason and no time; nine leave the state table
    empty. *)
Lemma tenth_violation_records_no_reason :
  let nine := serve (replicate 9 (RecordViolation 7 "tok" violation_request)) empty_server in
  let ten := (record_violation 8 "tok" violation_request nine).1 in
  states nine = ∅ ∧
  length <$> violations ten !! "tok" = Some 10%nat ∧
  terminated <$> states ten !! "tok" = Some true ∧
  termination_reason <$> states ten !! "tok" = Some None ∧
  terminated_at <$> states ten !! "tok" = Some None.
Proof. intros nine ten. evaluate. Qed.

(** C5, as stated, fails: with two questions configured and no call
    failing, the second answer is accepted, stored and answered with
    the closing payload, and the counter stays at 2: an accepted answer
    that does not move it. *)
Lemma final_answer_leaves_counter :
  let e1 :=
    run_engine
      [OpStart (always_reply "Hello Ada. What is ownership?") 10 "tok"
         (example_config (JStr "Ada Byron") 2);
       OpSubmit (always_reply "Question 2: What is borrowing?") 20 "tok" "a move"]
      empty_engine in
  let r :=
    process_answer_and_get_next (always_reply "Thank you, that is all.") 30 "tok"
      "a reference" e1 in
  max_questions_of <$> get_interview_session "tok" e1 = Some (Returned 2) ∧
  (λ s, (answers s, actual_questions_asked s, is_complete s))
    <$> get_interview_session "tok" e1 = Some (["a move"], 2, false) ∧
  r.2 = Returned (list_to_map
          [("response_text",
            JStr "Thank you for completing the interview. Your responses have been recorded");
           ("question_number", JInt 2);
           ("is_complete", JBool true);
           ("internal_summary", JStr "Thank you, that is all.")]) ∧
  (λ s, (answers s, actual_questions_asked s, is_complete s))
    <$> get_interview_session "tok" r.1 = Some (["a move"; "a reference"], 2, true).
Proof. intros e1 r. evaluate. Qed.

Lemma interview_session_invariant_witness :
  let e := run_engine two_question_run empty_engine in
  interview_sessions empty_engine = ∅ ∧
  run_returns two_question_run empty_engine = true ∧
  (λ s, (is_complete s, length (answers s), length (actual_questions s),
         actual_questions_asked s)) <$> interview_sessions e !! "tok"
    = Some (true, 2%nat, 2%nat, 2) ∧
  ∀ s, interview_sessions e !! "tok" = Some s →
    (length (answers s) ≤ length (actual_questions s))%nat ∧
    Z.of_nat (length (actual_questions s)) = actual_questions_asked s ∧
    actual_questions_asked s ≤ 2 ∧
    process_answer_and_get_next no_reply 40 "tok" "late" e =
      (e, Returned (error_dict "Interview already complete")).
Proof.
  intros e.
  assert (Hempty : interview_sessions empty_engine = ∅) by reflexivity.
  assert (Hret : run_returns two_question_run empty_engine = true) by evaluate.
  assert (Hrun : (λ s, (is_complete s, length (answers s), length (actual_questions s),
                        actual_questions_asked s)) <$> interview_sessions e !! "tok"
                 = Some (true, 2%nat, 2%nat, 2)) by evaluate.
  split; [exact Hempty|]. split; [exact Hret|]. split; [exact Hrun|].
  intros s Hs.
  destruct (interview_session_invariant two_question_run empty_engine "tok" s
              Hempty Hret Hs) as (Hlen & Hasked & _ & _ & Hfrozen).
  split; [exact Hlen|]. split; [exact Hasked|].
  rewrite Hs in Hrun. injection Hrun as Hc _ _ Hq.
  split; [rewrite Hq; reflexivity|].
  apply Hfrozen. exact Hc.
Defined.



Lemma validate_stage_access_gate_witness :
  let config := example_config (JStr "Ada Byron") 2 in
  (load_test_config "tok" stage_two_server).2 = Some config ∧
  dict_truthy config = true ∧
  current_stage (state_of "tok" stage_two_server) = 2 ∧
  (∃ resp, (validate_stage_access "tok" 3 stage_two_server).2 = Returned resp ∧
           body resp !! "allowed" ≠ Some (JBool true)) ∧
  (∃ resp, (validate_stage_access "tok" 2 stage_two_server).2 = Returned resp ∧
           body resp !! "allowed" = Some (JBool true)).
Proof.
  intros config.
  assert (Hload : (load_test_config "tok" stage_two_server).2 = Some config) by evaluate.
  assert (Htruthy : dict_truthy config = true) by evaluate.
  assert (Hstage : current_stage (state_of "tok" stage_two_server) = 2) by evaluate.
  assert (Hterm : terminated (state_of "tok" stage_two_server) = false) by evaluate.
  assert (Hcompl : completed (state_of "tok" stage_two_server) = false) by evaluate.
  split; [exact Hload|]. split; [exact Htruthy|]. split; [exact Hstage|]. split.
  - destruct (validate_stage_access_gate "tok" 3 stage_two_server config Hload Htruthy)
      as (_ & resp & Hresp & Hallowed).
    exists resp. split; [exact Hresp|]. intros Hyes.
    apply Hallowed in Hyes as (_ & _ & Heq). rewrite Hstage in Heq. discriminate Heq.
  - destruct (validate_stage_access_gate "tok" 2 stage_two_server config Hload Htruthy)
      as (_ & resp & Hresp & Hallowed).
    exists resp. split; [exact Hresp|]. apply Hallowed.
    split; [exact Hterm|]. split; [exact Hcompl|]. symmetry. exact Hstage.
Defined.

(** C8 (the code departs from the specification).  Two questions configured;
    the service fails while the second question is requested, after the
    counter went to 2 and before a second question is stored.  The next
    answer reaches [finish], whose log write indexes the question list
    at 1 and raises: the session is closed and no log exists. *)
Theorem log_write_raises_after_failed_call :
  let e1 :=
    (start_structured_interview (always_reply "Hello Ada. What is ownership?") 10 "tok"
       (example_config (JStr "Ada Byron") 2) empty_engine).1 in
  let failed := process_answer_and_get_next no_reply 20 "tok" "a move" e1 in
  let r := process_answer_and_get_next (always_reply "Well done overall.") 30 "tok"
             "a reference" failed.1 in
  let s2 := get_interview_session "tok" failed.1 in
  let s3 := get_interview_session "tok" r.1 in
  failed.2 = Raised APIError ∧
  actual_questions_asked <$> s2 = Some 2 ∧
  actual_questions <$> s2 = Some ["Hello Ada. What is ownership?"] ∧
  answers <$> s2 = Some ["a move"] ∧
  is_complete <$> s2 = Some false ∧
  r.2 = Raised IndexError ∧
  build_interview <$> s3 = Some None ∧
  is_complete <$> s3 = Some true ∧
  answers <$> s3 = Some ["a move"; "a reference"] ∧
  interview_logs r.1 = ∅.
Proof. intros e1 failed r s2 s3. evaluate. Qed.

Lemma reset_then_start_is_fresh_witness :
  let gw := always_reply "Welcome back. Question 1: What is a trait?" in
  let cfg := example_config (JStr "Ada Byron") 2 in
  let e := run_engine two_question_run empty_engine in
  let r := start_structured_interview gw 50 "tok" cfg (reset_interview "tok" e) in
  gw (ChatRequest "gpt-3.5-turbo" [build_system_prompt cfg; user_msg (initial_prompt cfg)] 200)
    = Some "Welcome back. Question 1: What is a trait?" ∧
  (λ s, length (answers s)) <$> get_interview_session "tok" e = Some 2%nat ∧
  get_interview_session "tok" (reset_interview "tok" e) = None ∧
  (λ s, (actual_questions_asked s, answers s, actual_questions s, role <$> chat_history s,
         is_complete s, final_summary s))
    <$> get_interview_session "tok" r.1
    = Some (1, [], ["What is a trait?"], ["system"; "user"; "assistant"], false, None).
Proof.
  intros gw cfg e r.
  assert (Hgw : gw (ChatRequest "gpt-3.5-turbo"
                      [build_system_prompt cfg; user_msg (initial_prompt cfg)] 200)
                = Some "Welcome back. Question 1: What is a trait?") by reflexivity.
  split; [exact Hgw|]. split; [evaluate|].
  destruct (reset_then_start_is_fresh gw 50 "tok" cfg e _ Hgw) as (Hnone & _ & Hsession & _).
  split; [exact Hnone|].
  unfold r. rewrite Hsession. evaluate.
Defined.

Lemma submit_text_checks_session_first_witness :
  let w := Server ∅ ∅ ∅ ∅ ∅ (one_question_asked (JStr "Ada Byron")) in
  let s := started_session 10 (example_config (JStr "Ada Byron") 1) "Hello. What is ownership?" in
  let spaces :=
    String " " (String (ascii_of_nat 194) (String (ascii_of_nat 160)
      (String (ascii_of_nat 226) (String (ascii_of_nat 128) (String (ascii_of_nat 131)
        (String (ascii_of_nat 9) EmptyString)))))) in
  let blank : pydict := list_to_map [("text", JStr spaces)] in
  get_interview_session "other" (interview w) = None ∧
  get_interview_session "tok" (interview w) = Some s ∧
  submit_text_answer no_reply (λ _, None) 5 "other" ∅ w =
    (w, Returned (Response (error_dict "Interview not started") 404)) ∧
  submit_text_answer no_reply (λ _, None) 5 "tok" blank w =
    (w, Returned (Response (error_dict "No answer provided") 400)).
Proof.
  intros w s spaces blank.
  assert (Hother : get_interview_session "other" (interview w) = None) by evaluate.
  assert (Hs : get_interview_session "tok" (interview w) = Some s) by evaluate.
  split; [exact Hother|]. split; [exact Hs|]. split.
  - apply (proj1 (submit_text_checks_session_first no_reply (λ _, None) 5 "other" ∅ w)).
    exact Hother.
  - apply (proj2 (submit_text_checks_session_first no_reply (λ _, None) 5 "tok" blank w)
             s spaces).
    + exact Hs.
    + evaluate.
    + evaluate.
Defined.

Lemma log_array_in_runs_without_raise_witness :
  let e := run_engine two_question_run empty_engine in
  interview_sessions empty_engine = ∅ ∧
  run_returns two_question_run empty_engine = true ∧
  (λ s, actual_questions_asked s) <$> interview_sessions e !! "tok" = Some 2 ∧
  ∀ s, interview_sessions e !! "tok" = Some s →
    ∃ entries, build_interview s = Some entries ∧
               Z.of_nat (length entries) = actual_questions_asked s.
Proof.
  intros e.
  assert (Hempty : interview_sessions empty_engine = ∅) by reflexivity.
  assert (Hret : run_returns two_question_run empty_engine = true) by evaluate.
  split; [exact Hempty|]. split; [exact Hret|]. split; [evaluate|].
  intros s Hs.
  destruct (log_array_in_runs_without_raise two_question_run empty_engine "tok" s
              Hempty Hret Hs) as (entries & Hbuild & Hlen & _).
  exists entries. split; [exact Hbuild|exact Hlen].
Defined.

Lemma submit_answer_effect_witness :
  let cfg := example_config (JStr "Ada Byron") 2 in
  let gw := always_reply "Question 2: What is borrowing?" in
  let e := (start_structured_interview (always_reply "Hello Ada. What is ownership?") 10 "tok"
              cfg empty_engine).1 in
  let s := started_session 10 cfg "Hello Ada. What is ownership?" in
  get_interview_session "tok" e = Some s ∧
  is_complete s = false ∧
  max_questions_of s = Returned 2 ∧
  actual_questions_asked s < 2 ∧
  (process_answer_and_get_next gw 20 "tok" "a move" e).2 =
    Returned (list_to_map
      [("response_text", JStr (strip "Question 2: What is borrowing?"));
       ("question_number", JInt (actual_questions_asked s + 1));
       ("is_complete", JBool false);
       ("questions_remaining", JInt (2 - (actual_questions_asked s + 1)))]).
Proof.
  intros cfg gw e s.
  assert (Hs : get_interview_session "tok" e = Some s) by evaluate.
  assert (Hc : is_complete s = false) by reflexivity.
  assert (Hn : max_questions_of s = Returned 2) by evaluate.
  assert (Hlt : actual_questions_asked s < 2) by reflexivity.
  split; [exact Hs|]. split; [exact Hc|]. split; [exact Hn|]. split; [exact Hlt|].
  destruct (submit_answer_effect gw 20 "tok" "a move" e s 2 "Question 2: What is borrowing?"
              Hs Hc Hn Hlt eq_refl eq_refl) as (s' & _ & _ & _ & _ & _ & _ & _ & _ & Hr).
  exact Hr.
Defined.

Lemma counter_bounds_in_all_runs_witness :
  let ops :=
    [OpStart (always_reply "What is ownership?") 10 "tok" (example_config (JStr "Ada Byron") 2);
     OpSubmit no_reply 20 "tok" "a move"] in
  let e := run_engine ops empty_engine in
  interview_sessions empty_engine = ∅ ∧
  (λ s, (length (actual_questions s), actual_questions_asked s))
    <$> interview_sessions e !! "tok" = Some (1%nat, 2) ∧
  ∀ s, interview_sessions e !! "tok" = Some s →
    Z.of_nat (length (actual_questions s)) ≤ actual_questions_asked s.
Proof.
  intros ops e.
  assert (Hempty : interview_sessions empty_engine = ∅) by reflexivity.
  split; [exact Hempty|]. split; [evaluate|].
  intros s Hs.
  exact (proj1 (counter_bounds_in_all_runs ops empty_engine "tok" s Hempty Hs)).
Defined.

Lemma create_test_persists_config_witness :
  let data : pydict :=
    list_to_map [("email", JStr "ada@example.org"); ("candidate_name", JStr "Ada Byron");
                 ("numQuestions", JInt 2)] in
  let mail : mailer := λ _ _ _, None in
  let w' := (create_test mail 5 "tok" data empty_server).1 in
  py_int (dict_get_or data "duration" (JInt 60)) = Returned 60 ∧
  py_int (dict_get_or data "numQuestions" (JInt 5)) = Returned 2 ∧
  ∃ config,
    load_test_config "tok" w' = (w', Some config) ∧
    config !! "num_questions" = Some (JInt 2).
Proof.
  intros data mail w'.
  assert (Hd : py_int (dict_get_or data "duration" (JInt 60)) = Returned 60) by evaluate.
  assert (Hn : py_int (dict_get_or data "numQuestions" (JInt 5)) = Returned 2) by evaluate.
  split; [exact Hd|]. split; [exact Hn|].
  destruct (create_test_persists_config mail 5 "tok" data empty_server 60 2 eq_refl Hd Hn)
    as (config & _ & _ & Hload & Hnum & _).
  exists config. split; [exact Hload|exact Hnum].
Defined.

Lemma submit_answer_extends_session_witness :
  let cfg := example_config (JStr "Ada Byron") 2 in
  let e := (start_structured_interview (always_reply "Hello Ada. What is ownership?") 10 "tok"
              cfg empty_engine).1 in
  let s := started_session 10 cfg "Hello Ada. What is ownership?" in
  let e' := (process_answer_and_get_next no_reply 20 "tok" "a move" e).1 in
  get_interview_session "tok" e = Some s ∧
  (λ s', (answers s', actual_questions_asked s')) <$> get_interview_session "tok" e'
    = Some (["a move"], 2) ∧
  ∃ s', get_interview_session "tok" e' = Some s' ∧ submit_step 20 s s'.
Proof.
  intros cfg e s e'.
  assert (Hs : get_interview_session "tok" e = Some s) by evaluate.
  split; [exact Hs|]. split; [evaluate|].
  exact (proj2 (submit_answer_extends_session no_reply 20 "tok" "a move" e s Hs)).
Defined.

Lemma session_only_extended_in_runs_witness :
  let cfg := example_config (JStr "Ada Byron") 2 in
  let e := (start_structured_interview (always_reply "Hello Ada. What is ownership?") 10 "tok"
              cfg empty_engine).1 in
  let s := started_session 10 cfg "Hello Ada. What is ownership?" in
  let ops :=
    [OpSubmit (always_reply "Question 2: What is borrowing?") 20 "tok" "a move";
     OpStart no_reply 25 "other" cfg;
     OpReset "other";
     OpSubmit (always_reply "Thank you, that is all.") 30 "tok" "a reference";
     OpSubmit (always_reply "More?") 40 "tok" "too late"] in
  Forall (λ op, restarts "tok" op = false) ops ∧
  interview_sessions e !! "tok" = Some s ∧
  answers <$> interview_sessions (run_engine ops e) !! "tok" = Some ["a move"; "a reference"] ∧
  ∃ s', interview_sessions (run_engine ops e) !! "tok" = Some s' ∧ session_extends s s'.
Proof.
  intros cfg e s ops.
  assert (Hops : Forall (λ op, restarts "tok" op = false) ops) by (repeat constructor).
  assert (Hs : interview_sessions e !! "tok" = Some s) by evaluate.
  split; [exact Hops|]. split; [exact Hs|]. split; [evaluate|].
  exact (session_only_extended_in_runs ops e "tok" s Hops Hs).
Defined.

Lemma runs_isolate_tokens_witness :
  let cfg := example_config (JStr "Ada Byron") 2 in
  let e := (start_structured_interview (always_reply "Hello Ada. What is ownership?") 10 "tok"
              cfg empty_engine).1 in
  let ops :=
    [OpStart (always_reply "Hello. What is a trait?") 25 "other" cfg;
     OpSubmit (always_reply "Question 2: What is a lifetime?") 30 "other" "an interface";
     OpSubmit no_reply 35 "other" "a scope";
     OpReset "other"] in
  Forall (λ op, op_token op ≠ "tok") ops ∧
  interview_sessions (run_engine ops e) !! "tok" = interview_sessions e !! "tok".
Proof.
  intros cfg e ops.
  assert (Hops : Forall (λ op, op_token op ≠ "tok") ops) by (repeat constructor; discriminate).
  split; [exact Hops|].
  exact (runs_isolate_tokens ops e "tok" Hops).
Defined.

Lemma ratings_never_recorded_witness :
  let e := run_engine two_question_run empty_engine in
  interview_sessions empty_engine = ∅ ∧
  interview_logs empty_engine = ∅ ∧
  size (interview_logs e) = 1%nat ∧
  (∀ t s, interview_sessions e !! t = Some s → ratings s = []) ∧
  (∀ p l en, interview_logs e !! p = Some l → en ∈ log_interview l → entry_rating en = None).
Proof.
  intros e. split; [reflexivity|]. split; [reflexivity|]. split; [evaluate|].
  exact (ratings_never_recorded two_question_run empty_engine eq_refl eq_refl).
Defined.

Lemma completion_fields_agree_witness :
  let ops :=
    [OpStart no_reply 10 "tok" (example_config (JStr "Ada Byron") 1);
     OpSubmit (always_reply "Question 1: What is ownership?") 20 "tok" "hello";
     OpSubmit (always_reply "null") 30 "tok" "a move"] in
  let e := run_engine ops empty_engine in
  interview_sessions empty_engine = ∅ ∧
  interview_logs empty_engine = ∅ ∧
  (λ s, (is_complete s, completed_at s)) <$> interview_sessions e !! "tok"
    = Some (true, Some 30) ∧
  (∀ t s, interview_sessions e !! t = Some s → completion_agrees s) ∧
  (∀ p l, interview_logs e !! p = Some l →
     is_Some (log_completed_at l) ∧ is_Some (log_duration_minutes l)).
Proof.
  intros ops e. split; [reflexivity|]. split; [reflexivity|]. split; [evaluate|].
  exact (completion_fields_agree ops empty_engine eq_refl eq_refl).
Defined.

Lemma answers_counted_to_the_limit_witness :
  let cfg := example_config (JStr "Ada Byron") 2 in
  let xs : list (gateway * Z * string) :=
    [(always_reply "Question 2: What is borrowing?", 20, "a move");
     (always_reply "Thank you, that is all.", 30, "a reference");
     (always_reply "More?", 40, "too late")] in
  let ops := OpStart (always_reply "Hello Ada. What is ownership?") 10 "tok" cfg
               :: submits "tok" xs in
  py_int (dict_get_or cfg "num_questions" (JInt 5)) = Returned 2 ∧
  run_returns ops empty_engine = true ∧
  ∃ s, get_interview_session "tok" (run_engine ops empty_engine) = Some s ∧
       answers s = ["a move"; "a reference"] ∧
       actual_questions_asked s = 2 ∧
       is_complete s = true.
Proof.
  intros cfg xs ops.
  assert (Hn : py_int (dict_get_or cfg "num_questions" (JInt 5)) = Returned 2) by evaluate.
  assert (Hret : run_returns ops empty_engine = true) by evaluate.
  split; [exact Hn|]. split; [exact Hret|].
  exact (answers_counted_to_the_limit (always_reply "Hello Ada. What is ownership?") 10 "tok"
           cfg 2 xs empty_engine Hn Hret).
Defined.

Lemma state_written_by_stage_routes_only_witness :
  let rs :=
    [StartInterview (always_reply "Hello Ada. What is ownership?") (λ _, None) 10 "tok";
     SubmitText (always_reply "Question 2: What is borrowing?") (λ _, None) 20 "tok"
       {[ "text" := JStr "a move" ]};
     SubmitText (always_reply "Thank you, that is all.") (λ _, None) 30 "tok"
       {[ "text" := JStr "a reference" ]};
     GetTestStatus "tok";
     UpdateStage "other" (stage_request 1 "complete")] in
  Forall (λ r, writes_state "tok" r = false) rs ∧
  is_complete <$> interview_sessions (interview (serve rs stage_two_server)) !! "tok"
    = Some true ∧
  current_stage (state_of "tok" stage_two_server) = 2 ∧
  state_of "tok" (serve rs stage_two_server) = state_of "tok" stage_two_server.
Proof.
  intros rs.
  assert (Hrs : Forall (λ r, writes_state "tok" r = false) rs) by (repeat constructor).
  split; [exact Hrs|]. split; [evaluate|]. split; [evaluate|].
  exact (state_written_by_stage_routes_only rs stage_two_server "tok" Hrs).
Defined.

Lemma session_written_by_interview_routes_only_witness :
  let w :=
    (start_interview (always_reply "Hello Ada. What is ownership?") (λ _, None) 10 "tok"
       stage_two_server).1 in
  let rs :=
    [RecordViolation 15 "tok" violation_request;
     TerminateTest 20 "tok" ∅;
     UpdateStage "tok" (stage_request 3 "complete");
     StartInterview (always_reply "Hello.") (λ _, None) 25 "other";
     ResetInterview "other"] in
  Forall (λ r, writes_session "tok" r = false) rs ∧
  terminated (state_of "tok" (serve rs w)) = true ∧
  interview_sessions (interview (serve rs w)) !! "tok" = interview_sessions (interview w) !! "tok".
Proof.
  intros w rs.
  assert (Hrs : Forall (λ r, writes_session "tok" r = false) rs) by (repeat constructor).
  split; [exact Hrs|]. split; [evaluate|].
  exact (session_written_by_interview_routes_only rs w "tok" Hrs).
Defined.

Lemma violations_counted_and_enforced_witness :
  let rs := replicate 10 (RecordViolation 5 "tok" violation_request) ++ [GetTestStatus "tok"] in
  violations empty_server = ∅ ∧
  violation_count "tok" (serve rs empty_server) = 10%nat ∧
  terminated (state_of "tok" (serve rs empty_server)) = true.
Proof.
  intros rs.
  destruct (violations_counted_and_enforced rs empty_server "tok" eq_refl) as [Hc Ht].
  split; [reflexivity|]. split; [exact Hc|].
  apply Ht. rewrite Hc. vm_compute. apply le_n.
Defined.

Lemma terminated_test_stays_blocked_witness :
  let w := (terminate_test 5 "tok" ∅ stage_two_server).1 in
  let rs := [UpdateStage "tok" (stage_request 2 "complete"); ResetInterview "tok"] in
  let gw := always_reply "Hello Ada. What is ownership?" in
  terminated (state_of "tok" w) = true ∧
  (start_interview gw (λ _, None) 10 "tok" (serve rs w)).2 =
    Returned (jsonify_with (error_dict "Test terminated") 403) ∧
  interview (start_interview gw (λ _, None) 10 "tok" (serve rs w)).1 = interview (serve rs w) ∧
  ((validate_stage_access "tok" 3 (serve rs w)).2 =
     Returned (jsonify_with
                 (list_to_map [("allowed", JBool false); ("message", JStr "Invalid token")]) 404) ∨
   (validate_stage_access "tok" 3 (serve rs w)).2 = Returned (redirect (JStr "terminated"))).
Proof.
  intros w rs gw.
  assert (Ht : terminated (state_of "tok" w) = true) by evaluate.
  split; [exact Ht|]. split; [evaluate|].
  destruct (terminated_test_stays_blocked rs gw (λ _, None) 10 "tok" 3 w Ht)
    as (_ & Hi & _ & Hv).
  split; [exact Hi|exact Hv].
Defined.

Lemma load_test_config_cached_witness :
  let cfg := example_config (JStr "Ada Byron") 2 in
  let w := Server ∅ {[ upload_path "tok" := cfg ]} ∅ ∅ ∅ empty_engine in
  let w1 := set_test_data_storage {[ "tok" := cfg ]} w in
  load_test_config "tok" w = (w1, Some cfg) ∧
  load_test_config "tok" (set_uploads ∅ w1) = (set_uploads ∅ w1, Some cfg).
Proof.
  intros cfg w w1.
  assert (Hl : load_test_config "tok" w = (w1, Some cfg)) by evaluate.
  split; [exact Hl|].
  exact (load_test_config_cached "tok" w w1 cfg ∅ Hl).
Defined.

Lemma audio_url_is_served_witness :
  let w := Server {[ "tok" := example_config (JStr "Ada Byron") 2 ]} ∅ ∅ ∅ ∅ empty_engine in
  let r :=
    StartInterview (always_reply "Hello Ada. What is ownership?") (λ _, Some "mp3") 10 "tok" in
  let w' := (handle w r).1 in
  let resp :=
    match (handle w r).2 with
    | Returned resp => resp
    | Raised _ => jsonify ∅
    end in
  writes_session "tok" r = true ∧
  handle w r = (w', Returned resp) ∧
  body resp !! "audio_url" = Some (JStr "/audio/audio_tok_q1.mp3") ∧
  str_contains ".." "tok" = false ∧
  str_contains "/" "tok" = false ∧
  ∃ filename audio,
    "/audio/audio_tok_q1.mp3" = "/audio/" +:+ filename ∧
    serve_audio_file filename w' = SentFile audio "audio/mpeg".
Proof.
  intros w r w' resp.
  assert (Hh : handle w r = (w', Returned resp)) by evaluate.
  assert (Hb : body resp !! "audio_url" = Some (JStr "/audio/audio_tok_q1.mp3")) by evaluate.
  split; [reflexivity|]. split; [exact Hh|]. split; [exact Hb|].
  split; [reflexivity|]. split; [reflexivity|].
  exact (audio_url_is_served w r "tok" w' resp "/audio/audio_tok_q1.mp3"
           eq_refl Hh Hb eq_refl eq_refl).
Defined.

Lemma audio_of_dotted_token_is_refused_witness :
  let w := Server ∅ ∅ ∅ ∅ {[ "audio_a..b_q1.mp3" := "mp3" ]} empty_engine in
  str_contains ".." "a..b" || str_contains "/" "a..b" = true ∧
  audio_filename "a..b" (JInt 1) = "audio_a..b_q1.mp3" ∧
  serve_audio_file (audio_filename "a..b" (JInt 1)) w = Aborted 403.
Proof.
  intros w. split; [reflexivity|]. split; [evaluate|].
  exact (audio_of_dotted_token_is_refused "a..b" (JInt 1) w eq_refl).
Defined.

Lemma extracted_question_is_one_line_witness :
  let reply :=
    "Hello Ada. Question 1: What is ownership?" +:+ String newline "Take your time." in
  let rest := " What is ownership?" +:+ String newline "Take your time." in
  re_search marker_question_1 reply = Some rest ∧
  extract_question marker_question_1 reply = "What is ownership?" ∧
  str_contains (String newline "") (extract_question marker_question_1 reply) = false.
Proof.
  intros reply rest.
  assert (Hm : re_search marker_question_1 reply = Some rest) by evaluate.
  split; [exact Hm|]. split; [evaluate|].
  exact (extracted_question_is_one_line marker_question_1 reply rest Hm).
Defined.

Lemma safe_name_of_ascii_name_witness :
  let cfg := example_config (JStr "../Ada Byron") 1 in
  dict_get_or cfg "candidate_name" (JStr "unknown") = JStr "../Ada Byron" ∧
  all_chars is_ascii "../Ada Byron" = true ∧
  safe_name cfg = Returned "../ada_byron" ∧
  str_contains "/" "../ada_byron" = str_contains "/" "../Ada Byron" ∧
  str_contains ".." "../ada_byron" = str_contains ".." "../Ada Byron".
Proof.
  intros cfg.
  assert (Hn : dict_get_or cfg "candidate_name" (JStr "unknown") = JStr "../Ada Byron")
    by evaluate.
  split; [exact Hn|]. split; [reflexivity|].
  exact (safe_name_of_ascii_name cfg "../Ada Byron" Hn eq_refl).
Defined.

End Examples.

(** ** Runs on a standard output in ASCII *)

Section AsciiOutput.
#[local] Existing Instance ascii_stdout_runtime.

Ltac evaluate :=
  repeat match goal with |- _ ∧ _ => split end;
  match goal with |- _ = ?r => vm_cast_no_check (@eq_refl _ r) end.

Lemma unprintable_answer_moves_counter_witness :
  let cfg := example_config (JStr "Ada Byron") 2 in
  let e := (start_structured_interview (always_reply "Hello Ada. What is ownership?") 10 "tok"
              cfg empty_engine).1 in
  let s := started_session 10 cfg "Hello Ada. What is ownership?" in
  let answer := String (ascii_of_nat 195) (String (ascii_of_nat 169) "t" +:+ "e") in
  let r := process_answer_and_get_next (always_reply "Question 2: What is borrowing?") 20
             "tok" answer e in
  get_interview_session "tok" e = Some s ∧
  max_questions_of s = Returned 2 ∧
  forallb stdout_accepts (printed_lines (actual_questions s) answer (actual_questions_asked s))
    = false ∧
  r.2 = Raised UnicodeEncodeError ∧
  (λ s', (answers s', actual_questions_asked s', length (actual_questions s')))
    <$> get_interview_session "tok" r.1 = Some ([answer], 2, 1%nat).
Proof.
  intros cfg e s answer r.
  assert (Hs : get_interview_session "tok" e = Some s) by evaluate.
  assert (Hn : max_questions_of s = Returned 2) by evaluate.
  assert (Hout : forallb stdout_accepts
                   (printed_lines (actual_questions s) answer (actual_questions_asked s))
                 = false) by evaluate.
  split; [exact Hs|]. split; [exact Hn|]. split; [exact Hout|].
  unfold r.
  rewrite (unprintable_answer_moves_counter
             (always_reply "Question 2: What is borrowing?") 20 "tok" answer e s 2
             Hs eq_refl Hn eq_refl Hout).
  evaluate.
Defined.

Lemma final_answer_survives_json_raise_witness :
  let cfg := example_config (JStr "Ada Byron") 1 in
  let e := (start_structured_interview (always_reply "Hello. What is ownership?") 10 "tok"
              cfg empty_engine).1 in
  let s := started_session 10 cfg "Hello. What is ownership?" in
  let gw := always_reply nested_brackets in
  let r := process_answer_and_get_next gw 20 "tok" "a move" e in
  get_interview_session "tok" e = Some s ∧
  max_questions_of s = Returned 1 ∧
  json_loads (strip nested_brackets) = JsonRaised RecursionError ∧
  r.2 = Raised RecursionError ∧
  (λ s', (answers s', is_complete s')) <$> get_interview_session "tok" r.1
    = Some (["a move"], false) ∧
  interview_logs r.1 = ∅.
Proof.
  intros cfg e s gw r.
  assert (Hs : get_interview_session "tok" e = Some s) by evaluate.
  assert (Hn : max_questions_of s = Returned 1) by evaluate.
  assert (Hjson : json_loads (strip nested_brackets) = JsonRaised RecursionError) by evaluate.
  split; [exact Hs|]. split; [exact Hn|]. split; [exact Hjson|].
  unfold r.
  rewrite (final_answer_survives_json_raise gw 20 "tok" "a move" e s 1 nested_brackets
             RecursionError Hs eq_refl Hn ltac:(reflexivity) eq_refl Hjson).
  evaluate.
Defined.

End AsciiOutput.
